(** * jaxom-ts: the XML-to-object converter [XpathConverterImpl]

    A shallow embedding of [lib/converter/xpath-converter.impl.ts] and of the
    declarations of [lib/types.ts] it relies on, followed by the properties
    of the element builder and of the value transformer chain.

    Conventions of the embedding.
    - JavaScript strings are [string]s; case folding, trimming and the
      white space of numeric literals are those of the ASCII range.
    - A JavaScript object is an association list in insertion order; a
      property that is assigned again keeps its position. (JavaScript lists
      the keys that read as array indices first; no property below speaks
      of the order of the keys.)
    - A function that may [throw] returns a [Result]; the thrown exception
      is a constructor of [JaxError] carrying the class, the message
      template with the values interpolated in it, and the subject.
    - [buildElement] recurses through inheritance references, which is not
      structural: it takes a fuel argument and answers [OutOfFuel] when the
      fuel does not suffice. *)

From Stdlib Require Import String Ascii List ZArith NArith Bool Lia.
From Stdlib Require Import DecimalString.
Import ListNotations.

Open Scope string_scope.
Open Scope list_scope.

Set Implicit Arguments.
Set Warnings "-register-all".

(* ================================================================== *)
(** ** Strings as JavaScript uses them *)

Module JsString.

Local Open Scope string_scope.

Definition startsWith (p s : string) : bool := String.prefix p s.

Fixpoint drop (n : nat) (s : string) : string :=
  match n, s with
  | O, _ => s
  | S _, EmptyString => EmptyString
  | S k, String _ s' => drop k s'
  end.

Fixpoint take (n : nat) (s : string) : string :=
  match n, s with
  | O, _ => EmptyString
  | S _, EmptyString => EmptyString
  | S k, String c s' => String c (take k s')
  end.

Definition endsWith (suf s : string) : bool :=
  (String.length suf <=? String.length s)%nat
  && String.eqb (drop (String.length s - String.length suf) s) suf.

(** [s.replace(pat, rep)] for a string pattern: the first occurrence only.
    The callers pass replacement texts without [$]. *)
Fixpoint replace (pat rep s : string) : string :=
  if startsWith pat s then rep ++ drop (String.length pat) s
  else match s with
       | EmptyString => EmptyString
       | String c s' => String c (replace pat rep s')
       end.

(** [s.slice(0, e)]: a negative [e] counts from the end. *)
Definition slice0 (s : string) (e : Z) : string :=
  let len := Z.of_nat (String.length s) in
  let stop := if (e <? 0)%Z then Z.max (len + e) 0 else Z.min e len in
  take (Z.to_nat stop) s.

Definition lowerChar (c : ascii) : ascii :=
  let n := nat_of_ascii c in
  if ((65 <=? n) && (n <=? 90))%nat then ascii_of_nat (n + 32) else c.

Fixpoint toLowerCase (s : string) : string :=
  match s with
  | EmptyString => EmptyString
  | String c s' => String (lowerChar c) (toLowerCase s')
  end.

Definition isSpace (c : ascii) : bool :=
  let n := nat_of_ascii c in
  ((9 <=? n) && (n <=? 13) || (n =? 32))%nat.

Fixpoint trimStart (s : string) : string :=
  match s with
  | EmptyString => EmptyString
  | String c s' => if isSpace c then trimStart s' else s
  end.

Fixpoint rev_onto (s acc : string) : string :=
  match s with
  | EmptyString => acc
  | String c s' => rev_onto s' (String c acc)
  end.

Definition rev (s : string) : string := rev_onto s EmptyString.

Definition trim (s : string) : string := rev (trimStart (rev (trimStart s))).

Fixpoint chars (s : string) : list string :=
  match s with
  | EmptyString => []
  | String c s' => String c EmptyString :: chars s'
  end.

(** [s.split(sep)] for a non-empty separator: [skip] counts the
    characters of a separator that is being stepped over, [cur] is the
    piece read so far. *)
Fixpoint splitGo (sep : string) (skip : nat) (cur s : string) : list string :=
  match s with
  | EmptyString => [cur]
  | String c s' =>
      match skip with
      | S k => splitGo sep k cur s'
      | O =>
          if startsWith sep s
          then cur :: splitGo sep (String.length sep - 1) EmptyString s'
          else splitGo sep 0 (cur ++ String c EmptyString) s'
      end
  end.

Definition split (sep s : string) : list string :=
  match sep with
  | EmptyString => chars s
  | _ => splitGo sep 0 EmptyString s
  end.

End JsString.

(** The character [c] is in the text [s]. *)
Fixpoint occurs (c : ascii) (s : string) : bool :=
  match s with
  | EmptyString => false
  | String d s' => Ascii.eqb c d || occurs c s'
  end.

(* ================================================================== *)
(** ** Numbers: [Number(string)] and [String(number)]

    A number is a double. A finite double is kept as the shortest decimal
    that reads back as it, which is the decimal [String(x)] writes: sign,
    mantissa without trailing zeros, and power of ten. [Number] reads the
    literal exactly and rounds it to the nearest double, a tie to the even
    significand. [NaN] is the absence of a number. *)

Module JsNumber.

Local Open Scope string_scope.

Inductive t : Type :=
| Finite (negative : bool) (mantissa : N) (exp10 : Z)
| Infinite (negative : bool).

(** Equality of the values; zero and minus zero differ, as they do for
    [R.equals]. *)
Definition eqb (a b : t) : bool :=
  match a, b with
  | Finite s m e, Finite s' m' e' =>
      let low := Z.min e e' in
      Bool.eqb s s'
      && (Z.of_N m * 10 ^ (e - low) =? Z.of_N m' * 10 ^ (e' - low))%Z
  | Infinite s, Infinite s' => Bool.eqb s s'
  | _, _ => false
  end.

Definition digitsOfN (n : N) : string := NilZero.string_of_uint (N.to_uint n).

(** [n / d] rounded to the nearest integer, a tie to the even one. *)
Definition divNearestEven (n d : Z) : Z :=
  let (q, r) := Z.div_eucl n d in
  match (2 * r ?= d)%Z with
  | Lt => q
  | Gt => (q + 1)%Z
  | Eq => if Z.even q then q else (q + 1)%Z
  end.

(** [base ^ b <= p / q] *)
Definition reaches (base p q b : Z) : bool :=
  if (0 <=? b)%Z then (q * base ^ b <=? p)%Z else (q <=? p * base ^ (- b))%Z.

(** [p / q * base ^ b] as a fraction. *)
Definition scaled (base p q b : Z) : Z * Z :=
  if (0 <=? b)%Z then (p * base ^ b, q)%Z else (p, q * base ^ (- b))%Z.

(** The double nearest to [p / q], for positive [p] and [q]: the
    significand [sig] and the binary exponent [ex] of [sig * 2 ^ ex], with
    [sig] below [2 ^ 53], and from [2 ^ 52] on unless [ex] is the least
    exponent [-1074]; [None] when the fraction rounds to infinity. *)
Definition nearestDouble (p q : Z) : option (Z * Z) :=
  let b0 := (Z.log2 p - Z.log2 q)%Z in
  let b := if reaches 2 p q b0 then b0 else (b0 - 1)%Z in
  if (1024 <=? b)%Z then None
  else
    let ex := Z.max (b - 52) (-1074) in
    let (n, d) := scaled 2 p q (- ex) in
    let sig := divNearestEven n d in
    let (sig, ex) := if (sig =? 2 ^ 53)%Z then (2 ^ 52, ex + 1)%Z else (sig, ex) in
    if (971 <? ex)%Z then None else Some (sig, ex).

(** The double nearest to [s * 10 ^ e]. *)
Definition nearestToDecimal (s e : Z) : option (Z * Z) :=
  let (p, q) := scaled 10 s 1 e in nearestDouble p q.

Definition sameDouble (a : option (Z * Z)) (sig ex : Z) : bool :=
  match a with
  | Some (sig', ex') => (sig' =? sig)%Z && (ex' =? ex)%Z
  | None => false
  end.

(** The [n] with [10 ^ (n - 1) <= p / q < 10 ^ n]. *)
Definition magnitude (p q : Z) : Z :=
  let b := (Z.log2 p - Z.log2 q)%Z in
  let n := (b * 30103 / 100000 + 1)%Z in
  let n := if reaches 10 p q n then (n + 1)%Z else n in
  let n := if reaches 10 p q n then (n + 1)%Z else n in
  let n := if reaches 10 p q (n - 1) then n else (n - 1)%Z in
  let n := if reaches 10 p q (n - 1) then n else (n - 1)%Z in
  n.

(** The decimals of [k] digits next to [p / q], below and above: the first
    [k], from one digit on, for which one of them reads back as the double
    [sig * 2 ^ ex] gives the mantissa and the power of ten; of two that do,
    the nearer, and the even one of two as near. *)
Fixpoint shortest (fuel : nat) (k : Z) (p q n sig ex : Z) : Z * Z :=
  let e := (n - k)%Z in
  let (num, den) := scaled 10 p q (- e) in
  let lo := (num / den)%Z in
  let hi := (lo + 1)%Z in
  match fuel with
  | O => (lo, e)
  | S fuel' =>
      match sameDouble (nearestToDecimal lo e) sig ex,
            sameDouble (nearestToDecimal hi e) sig ex with
      | true, false => (lo, e)
      | false, true => (hi, e)
      | true, true =>
          match (2 * num ?= (lo + hi) * den)%Z with
          | Lt => (lo, e)
          | Gt => (hi, e)
          | Eq => if Z.even lo then (lo, e) else (hi, e)
          end
      | false, false => shortest fuel' (k + 1)%Z p q n sig ex
      end
  end.

Fixpoint withoutTens (fuel : nat) (s e : Z) : Z * Z :=
  match fuel with
  | O => (s, e)
  | S fuel' =>
      if (s mod 10 =? 0)%Z then withoutTens fuel' (s / 10)%Z (e + 1)%Z else (s, e)
  end.

(** The double nearest to [m * 10 ^ e]. A literal of more than 310 digits
    before the point is beyond every double, and one that starts more than
    330 places after the point is below half the least double. *)
Definition ofDecimal (neg : bool) (m : N) (e : Z) : t :=
  if (m =? 0)%N then Finite neg 0 0
  else
    let digits := Z.of_nat (String.length (digitsOfN m)) in
    if (310 <? e + digits)%Z then Infinite neg
    else if (e + digits <? -330)%Z then Finite neg 0 0
    else
      match nearestToDecimal (Z.of_N m) e with
      | None => Infinite neg
      | Some (sig, ex) =>
          if (sig =? 0)%Z then Finite neg 0 0
          else
            let (p, q) := scaled 2 sig 1 ex in
            let (s, e') := shortest 17 1 p q (magnitude p q) sig ex in
            let (s, e') := withoutTens 20 s e' in
            Finite neg (Z.to_N s) e'
      end.

Definition ofN (n : N) : t := ofDecimal false n 0.

Definition isDigit (c : ascii) : bool :=
  let n := nat_of_ascii c in ((48 <=? n) && (n <=? 57))%nat.

Definition digitOf (radix : N) (c : ascii) : option N :=
  let n := N_of_ascii c in
  let v :=
    if ((48 <=? n) && (n <=? 57))%N then Some (n - 48)%N
    else if ((97 <=? n) && (n <=? 102))%N then Some (n - 87)%N
    else if ((65 <=? n) && (n <=? 70))%N then Some (n - 55)%N
    else None in
  match v with
  | Some d => if (d <? radix)%N then Some d else None
  | None => None
  end.

(** The digits at the head of [s] and what follows them. *)
Fixpoint spanDigits (s : string) : string * string :=
  match s with
  | EmptyString => (EmptyString, EmptyString)
  | String c s' =>
      if isDigit c
      then let (d, r) := spanDigits s' in (String c d, r)
      else (EmptyString, s)
  end.

Fixpoint valueIn (radix : N) (acc : N) (s : string) : option N :=
  match s with
  | EmptyString => Some acc
  | String c s' =>
      match digitOf radix c with
      | Some d => valueIn radix (acc * radix + d)%N s'
      | None => None
      end
  end.

(** Sign, decimal digits and power of ten to the double. *)
Definition decimal (neg : bool) (digits : string) (e : Z) : option t :=
  option_map (fun m => ofDecimal neg m e) (valueIn 10 0 digits).

Definition exponentPart (s : string) : option Z :=
  match s with
  | EmptyString => Some 0%Z
  | String c s' =>
      if (Ascii.eqb c "e" || Ascii.eqb c "E")%bool then
        let '(neg, body) :=
          match s' with
          | String "+" r => (false, r)
          | String "-" r => (true, r)
          | _ => (false, s')
          end in
        match spanDigits body with
        | (EmptyString, _) => None
        | (d, EmptyString) =>
            match valueIn 10 0 d with
            | Some v => Some (if neg then (- Z.of_N v)%Z else Z.of_N v)
            | None => None
            end
        | _ => None
        end
      else None
  end.

Definition unsignedDecimal (neg : bool) (s : string) : option t :=
  if String.eqb s "Infinity" then Some (Infinite neg)
  else
    let (ip, r1) := spanDigits s in
    let '(fp, r2) :=
      match r1 with
      | String "." r => spanDigits r
      | _ => (EmptyString, r1)
      end in
    match (ip ++ fp)%string with
    | EmptyString => None
    | ds =>
        match exponentPart r2 with
        | Some e => decimal neg ds (e - Z.of_nat (String.length fp))
        | None => None
        end
    end.

Definition radixLiteral (radix : N) (s : string) : option t :=
  match s with
  | EmptyString => None
  | _ => option_map (fun v => ofDecimal false v 0) (valueIn radix 0 s)
  end.

(** [Number(s)]; [None] is [NaN]. *)
Definition Number (raw : string) : option t :=
  match JsString.trim raw with
  | EmptyString => Some (Finite false 0 0)
  | String "0" (String "x" r) | String "0" (String "X" r) => radixLiteral 16 r
  | String "0" (String "o" r) | String "0" (String "O" r) => radixLiteral 8 r
  | String "0" (String "b" r) | String "0" (String "B" r) => radixLiteral 2 r
  | String "+" r => unsignedDecimal false r
  | String "-" r => unsignedDecimal true r
  | s => unsignedDecimal false s
  end.

Fixpoint zeros (n : nat) : string :=
  match n with
  | O => EmptyString
  | S k => String "0" (zeros k)
  end.

(** [String(x)], the text a number has as a property key. *)
Definition toString (x : t) : string :=
  match x with
  | Infinite neg => if neg then "-Infinity" else "Infinity"
  | Finite _ 0%N _ => "0"
  | Finite neg m e =>
      let d := digitsOfN m in
      let k := Z.of_nat (String.length d) in
      let n := (k + e)%Z in
      let body :=
        if ((k <=? n) && (n <=? 21))%Z then d ++ zeros (Z.to_nat (n - k))
        else if ((0 <? n) && (n <=? 21))%Z then
          JsString.take (Z.to_nat n) d ++ "." ++ JsString.drop (Z.to_nat n) d
        else if ((-6 <? n) && (n <=? 0))%Z then
          "0." ++ zeros (Z.to_nat (- n)) ++ d
        else
          let x := (n - 1)%Z in
          let sgn := if (x <? 0)%Z then "-" else "+" in
          let ex := digitsOfN (Z.to_N (Z.abs x)) in
          match d with
          | String c EmptyString => String c EmptyString ++ "e" ++ sgn ++ ex
          | _ => JsString.take 1 d ++ "." ++ JsString.drop 1 d ++ "e" ++ sgn ++ ex
          end
      in if neg then "-" ++ body else body
  end.

End JsNumber.

(* ================================================================== *)
(** ** Configuration values, built values and exceptions *)

(** The spec ([types.ISpec]) and the fall-back spec are plain object
    literals; they are read by path only, see [fetchSpecOption]. *)
Inductive Json : Type :=
| JNull
| JBool (b : bool)
| JNum (n : Z)
| JStr (s : string)
| JArr (items : list Json)
| JObj (fields : list (string * Json)).

Fixpoint Json_eqb (a b : Json) {struct a} : bool :=
  match a, b with
  | JNull, JNull => true
  | JBool x, JBool y => Bool.eqb x y
  | JNum x, JNum y => Z.eqb x y
  | JStr x, JStr y => String.eqb x y
  | JArr xs, JArr ys =>
      (fix all2 (xs ys : list Json) {struct xs} : bool :=
         match xs, ys with
         | [], [] => true
         | x :: xs', y :: ys' => Json_eqb x y && all2 xs' ys'
         | _, _ => false
         end) xs ys
  | JObj xs, JObj ys =>
      (fix all2 (xs ys : list (string * Json)) {struct xs} : bool :=
         match xs, ys with
         | [], [] => true
         | (k, x) :: xs', (k', y) :: ys' =>
             String.eqb k k' && Json_eqb x y && all2 xs' ys'
         | _, _ => false
         end) xs ys
  | _, _ => false
  end.

(** A property key is a string or a symbol. *)
Inductive PropKey : Type :=
| KStr (s : string)
| KSym (global : bool) (description : string).

Coercion KStr : string >-> PropKey.

(** The values a built element holds. [VSymbol true d] is [Symbol.for(d)],
    [VSymbol false d] is a symbol made by [Symbol(d)]; [VMoment] is the
    object [moment(input, format)]; [VColl c xs] is the collection made by
    the constructor named [c] from the elements [xs]. *)
Inductive Value : Type :=
| VUndefined
| VNull
| VBool (b : bool)
| VNum (n : JsNumber.t)
| VStr (s : string)
| VSymbol (global : bool) (description : string)
| VMoment (input : string) (format : option Json)
| VArr (items : list Value)
| VObj (props : list (PropKey * Value))
| VColl (ctor : string) (source : list Value).

(** A built element, and any other plain object. *)
Definition Obj : Type := list (PropKey * Value).

(** Every call of [Symbol(d)] makes a new symbol, and the converter never
    compares a symbol with itself: a symbol that reaches a comparison was
    made by another coercion than the one it is compared with. So a symbol
    that is not global equals nothing. *)
Definition keyEqb (a b : PropKey) : bool :=
  match a, b with
  | KStr x, KStr y => String.eqb x y
  | KSym true x, KSym true y => String.eqb x y
  | _, _ => false
  end.

Fixpoint get (k : PropKey) (o : Obj) : option Value :=
  match o with
  | [] => None
  | (k', v) :: o' => if keyEqb k k' then Some v else get k o'
  end.

Definition has (k : PropKey) (o : Obj) : bool :=
  match get k o with Some _ => true | None => false end.

(** [o[k] = v] *)
Fixpoint set (k : PropKey) (v : Value) (o : Obj) : Obj :=
  match o with
  | [] => [(k, v)]
  | (k', v') :: o' =>
      if keyEqb k k' then (k', v) :: o' else (k', v') :: set k v o'
  end.

Definition R_keys (o : Obj) : list string :=
  flat_map (fun kv => match fst kv with KStr s => [s] | KSym _ _ => [] end) o.

Definition R_dissoc (k : string) (o : Obj) : Obj :=
  filter (fun kv => negb (keyEqb (KStr k) (fst kv))) o.

(** [Object.assign(target, source)] *)
Definition assign (target source : Obj) : Obj :=
  fold_left (fun acc kv => set (fst kv) (snd kv) acc) source target.

Definition R_mergeAll (objs : list Obj) : Obj := fold_left assign objs [].

Definition option_eqb {A} (eqb : A -> A -> bool) (a b : option A) : bool :=
  match a, b with
  | Some x, Some y => eqb x y
  | None, None => true
  | _, _ => false
  end.

(** [R.equals] *)
Fixpoint R_equals (a b : Value) {struct a} : bool :=
  match a, b with
  | VUndefined, VUndefined => true
  | VNull, VNull => true
  | VBool x, VBool y => Bool.eqb x y
  | VNum x, VNum y => JsNumber.eqb x y
  | VStr x, VStr y => String.eqb x y
  | VSymbol true x, VSymbol true y => String.eqb x y
  | VMoment i f, VMoment i' f' => String.eqb i i' && option_eqb Json_eqb f f'
  | VArr xs, VArr ys =>
      (fix all2 (xs ys : list Value) {struct xs} : bool :=
         match xs, ys with
         | [], [] => true
         | x :: xs', y :: ys' => R_equals x y && all2 xs' ys'
         | _, _ => false
         end) xs ys
  | VObj ps, VObj qs =>
      (List.length ps =? List.length qs)%nat
      && (fix each (ps : list (PropKey * Value)) {struct ps} : bool :=
            match ps with
            | [] => true
            | (k, x) :: ps' =>
                match get k qs with
                | Some y => R_equals x y && each ps'
                | None => false
                end
            end) ps
  | VColl c xs, VColl c' ys =>
      String.eqb c c'
      && (fix all2 (xs ys : list Value) {struct xs} : bool :=
            match xs, ys with
            | [], [] => true
            | x :: xs', y :: ys' => R_equals x y && all2 xs' ys'
            | _, _ => false
            end) xs ys
  | _, _ => false
  end.

(** [R.includes]: each item of the list is compared with [x] by [R.equals],
    the item first. *)
Definition R_includes (x : Value) (xs : list Value) : bool :=
  existsb (fun item => R_equals item x) xs.

(** The message templates of the source, with the values they interpolate. *)
Inductive Message : Type :=
| CircularReference (identifier : Value)
| CouldNotFindElement (nodeName id at_ : string)
| InvalidMatchers (matchers : option Json) (attributeName rawValue : string)
| NoTransformer (name : Json)
| PrimitivesCannotContain (primitiveValue : string)
| InvalidAssocValueType (val : Json)
| InvalidAssocType (assocTypes : option Json)
| OpenFailsMatch (collectionValue : string)
| CloseFailsMatch (collectionValue : string)
| MalformedMapEntry (collectionPair : string)
| TerminatedByStringMatcher
| ElementCollision (val : Value)
| MissingKeyAttribute (id : string) (missing : Value).

(** The exception classes of [./exceptions]; [TypeError] is the one the
    JavaScript run time and ramda raise themselves, and [OutsideISpec p] marks
    an option at path [p] whose value the declared type [ISpec] excludes. *)
Inductive JaxError : Type :=
| JaxConfigError (message : Message) (subject : string)
| JaxInternalError (message : Message) (fn : string)
| JaxParseError (message : Message) (subject : string)
| JaxSolicitedError (message : Message) (subject : string)
| TypeError (what : string)
| OutsideISpec (path : string).

Inductive Result (A : Type) : Type :=
| OK (a : A)
| Throw (e : JaxError)
| OutOfFuel.

Arguments OK {A} a.
Arguments Throw {A} e.
Arguments OutOfFuel {A}.

Definition bind {A B} (m : Result A) (k : A -> Result B) : Result B :=
  match m with
  | OK a => k a
  | Throw e => Throw e
  | OutOfFuel => OutOfFuel
  end.

Notation "'let*' x ':=' m 'in' k" := (bind m (fun x => k))
  (at level 10, x pattern, m at level 200, k at level 200).

(** [R.map] with a function that may throw: left to right, the first
    exception ends the traversal. *)
Fixpoint mapM {A B} (f : A -> Result B) (xs : list A) : Result (list B) :=
  match xs with
  | [] => OK []
  | x :: xs' =>
      let* y := f x in
      let* ys := mapM f xs' in
      OK (y :: ys)
  end.

(** [R.reduce] with a step that may throw. *)
Fixpoint reduceM {A B} (f : B -> A -> Result B) (acc : B) (xs : list A) : Result B :=
  match xs with
  | [] => OK acc
  | x :: xs' => let* acc' := f acc x in reduceM f acc' xs'
  end.

(** [R.concat]: two arrays or two strings, a [TypeError] otherwise. *)
Definition R_concat (a b : Value) : Result Value :=
  match a, b with
  | VArr xs, VArr ys => OK (VArr (xs ++ ys))
  | VStr x, VStr y => OK (VStr (x ++ y)%string)
  | VArr _, _ => Throw (TypeError "second argument of concat is not an array")
  | VStr _, _ => Throw (TypeError "second argument of concat is not a string")
  | _, _ => Throw (TypeError "first argument of concat has no concat method")
  end.

(** [String(v)] and [Number(v)] raise a [TypeError] for a symbol, and for a
    list that holds one, whose text is written from its items. *)
Fixpoint stringifies (v : Value) : bool :=
  match v with
  | VSymbol _ _ => false
  | VArr items =>
      (fix all (items : list Value) : bool :=
         match items with
         | [] => true
         | item :: rest => stringifies item && all rest
         end) items
  | _ => true
  end.

(** The values that are objects, and not primitives. *)
Definition isObjectValue (v : Value) : bool :=
  match v with
  | VMoment _ _ | VArr _ | VObj _ | VColl _ _ => true
  | _ => false
  end.

(* ================================================================== *)
(** ** The document ([xmldom-ts]) and the queries made on it ([xpath-ts]) *)

(** The children that carry [data]: text, character data sections,
    comments and processing instructions, the last with their target. *)
Inductive CharKind : Type :=
| TextNode
| CDataSection
| CommentNode
| ProcessingInstruction (target : string).

Inductive Node : Type :=
| Document (childNodes : list Node)
| Element (nodeName : string) (attributes : list (string * string))
          (childNodes : list Node)
| CharacterData (kind : CharKind) (data : string).

Definition nodeName (n : Node) : string :=
  match n with
  | Document _ => "#document"
  | Element nm _ _ => nm
  | CharacterData TextNode _ => "#text"
  | CharacterData CDataSection _ => "#cdata-section"
  | CharacterData CommentNode _ => "#comment"
  | CharacterData (ProcessingInstruction target) _ => target
  end.

Definition childNodes (n : Node) : list Node :=
  match n with
  | Document ks | Element _ _ ks => ks
  | CharacterData _ _ => []
  end.

(** [xpath.select('@*', n)] *)
Definition attributeNodes (n : Node) : list (string * string) :=
  match n with
  | Element _ attrs _ => attrs
  | _ => []
  end.

Definition isElement (n : Node) : bool :=
  match n with Element _ _ _ => true | _ => false end.

(** [xpath.select('./*', n)] *)
Definition childElements (n : Node) : list Node := filter isElement (childNodes n).

Fixpoint lookup {A} (k : string) (l : list (string * A)) : option A :=
  match l with
  | [] => None
  | (k', v) :: l' => if String.eqb k k' then Some v else lookup k l'
  end.

(** A node in its document: the node and the chain of its ancestors, the
    parent first. *)
Record Located : Type := { ancestors : list Node; node : Node }.

Definition parentNode (l : Located) : option Located :=
  match ancestors l with
  | [] => None
  | p :: rest => Some {| ancestors := rest; node := p |}
  end.

Definition childOf (parent : Located) (child : Node) : Located :=
  {| ancestors := node parent :: ancestors parent; node := child |}.

Fixpoint composePath (chain : list Node) : string :=
  match chain with
  | [] => "/"
  | Document _ :: _ => ""
  | n :: rest => (composePath rest ++ "/" ++ nodeName n)%string
  end.

Definition composeElementPath (l : Located) : string :=
  composePath (node l :: ancestors l).

(** The test of the step [elementName[@id="name"]]. *)
Definition matchesById (elementName id name : string) (n : Node) : bool :=
  match n with
  | Element nm attrs _ =>
      String.eqb nm elementName
      && match lookup id attrs with
         | Some v => String.eqb v name
         | None => false
         end
  | _ => false
  end.

(** The first node below [root], in document order, that passes [test]:
    [xpath.select('.//...', root, true)]. *)
Fixpoint selectFirstBelow (test : Node -> bool) (above : list Node) (root : Node)
  {struct root} : option Located :=
  let scan :=
    fix scan (ks : list Node) : option Located :=
      match ks with
      | [] => None
      | k :: ks' =>
          if test k then Some {| ancestors := root :: above; node := k |}
          else match selectFirstBelow test (root :: above) k with
               | Some l => Some l
               | None => scan ks'
               end
      end in
  match root with
  | Document ks | Element _ _ ks => scan ks
  | CharacterData _ _ => None
  end.

(* ================================================================== *)
(** ** Parse info ([types.IElementInfo], [types.IParseInfo]) *)

Record Descendants : Type := {
  by_ : option string;
  throwIfCollision : option bool;
  throwIfMissing : option bool
}.

Record IElementInfo : Type := {
  id : option string;
  recurse : option string;
  discards : option (list string);
  descendants : option Descendants
}.

Record IParseInfo : Type := {
  elements : list (string * IElementInfo);
  common : option IElementInfo;
  def : option IElementInfo
}.

(** A property name read from an optional field: [o[undefined]] is the
    property named ["undefined"]. *)
Definition keyOf (name : option string) : string :=
  match name with Some s => s | None => "undefined" end.

(* ================================================================== *)
(** ** The converter object *)

Inductive ContextType : Type := attributes_ | textNodes_.

Definition contextName (c : ContextType) : string :=
  match c with attributes_ => "attributes" | textNodes_ => "textNodes" end.

Record ITransformResult : Type := { value : Value; succeeded : bool }.

(** [this]: the spec given to the constructor, and what the class takes
    from modules that are not part of the converter: the fall-back spec and
    the two constants of [./specs], the empty element info of [./types],
    the validity of [moment(input, format)] ([None] when it throws) and the
    text an object has as a property key. *)
Record XpathConverterImpl : Type := {
  spec : Json;
  Specs_fallBack : Json;
  CollectionTypePlaceHolder : string;
  CollectionTypeLabel : string;
  EmptyElementInfo : IElementInfo;
  moment_isValid : string -> option Json -> option bool;
  objectToString : Value -> string;
  xpath_select : string -> Located -> Result (option Located)
}.

Fixpoint R_path (segments : list string) (j : Json) : option Json :=
  match segments with
  | [] => Some j
  | p :: rest =>
      match j with
      | JObj fields =>
          match lookup p fields with
          | Some v => R_path rest v
          | None => None
          end
      | _ => None
      end
  end.

Definition R_defaultTo (d v : option Json) : option Json :=
  match v with
  | None | Some JNull => d
  | Some _ => v
  end.

Definition fetchSpecOption (this : XpathConverterImpl) (path : string)
  (fallBack : bool) : option Json :=
  let segments := JsString.split "/" path in
  if fallBack
  then R_defaultTo (R_path segments (Specs_fallBack this)) (R_path segments (spec this))
  else R_path segments (spec this).

(** The truth value a condition gives to an option. *)
Definition truthy (v : option Json) : bool :=
  match v with
  | None | Some JNull => false
  | Some (JBool b) => b
  | Some (JNum n) => negb (n =? 0)%Z
  | Some (JStr s) => negb (String.eqb s "")
  | Some (JArr _) | Some (JObj _) => true
  end.

(** [R.is(Object)] *)
Definition isObject (v : option Json) : bool :=
  match v with
  | Some (JArr _) | Some (JObj _) => true
  | _ => false
  end.

(** An option the source reads [as string]. *)
Definition fetchString (this : XpathConverterImpl) (path : string) : Result string :=
  match fetchSpecOption this path true with
  | Some (JStr s) => OK s
  | _ => Throw (OutsideISpec path)
  end.

Definition getElementInfo (this : XpathConverterImpl) (elementName : Value)
  (parseInfo : IParseInfo) : IElementInfo :=
  let found :=
    match elementName with
    | VStr nm => lookup nm (elements parseInfo)
    | _ => None
    end in
  match found with
  | Some info => info
  | None =>
      match def parseInfo with
      | Some info => info
      | None => EmptyElementInfo this
      end
  end.

(* ================================================================== *)
(** ** The transformer chain *)

Definition Transformer : Type :=
  string -> string -> ContextType -> Result ITransformResult.

Definition matcherPath (context : ContextType) (leaf : string) : string :=
  ("coercion/" ++ contextName context ++ "/matchers/" ++ leaf)%string.

Definition transformNumber : Transformer := fun subject numberValue context =>
  match JsNumber.Number numberValue with
  | Some n => OK {| value := VNum n; succeeded := true |}
  | None => OK {| value := VStr numberValue; succeeded := false |}
  end.

Definition transformBoolean : Transformer := fun subject booleanValue context =>
  let lowerBooleanValue := JsString.toLowerCase booleanValue in
  if String.eqb lowerBooleanValue "true" || String.eqb lowerBooleanValue "false"
  then OK {| value := VBool (negb (String.eqb lowerBooleanValue "false"));
             succeeded := true |}
  else OK {| value := VBool false; succeeded := false |}.

Definition inStrings (s : string) (l : list string) : bool :=
  existsb (String.eqb s) l.

(** The names [makeTransformers] registers. *)
Definition transformerNames : list string :=
  ["number"; "boolean"; "primitives"; "collection"; "date"; "symbol"; "string"].

(** [getTransformer(val)(subject, v, context)] as [transformPrimitives]
    calls it, without a receiver: the transformers for numbers and booleans
    do not read [this], every other one fails on its first line. *)
Definition callWithoutThis (val : Json) : Transformer := fun subject v context =>
  match val with
  | JStr nm =>
      if String.eqb nm "number" then transformNumber subject v context
      else if String.eqb nm "boolean" then transformBoolean subject v context
      else if inStrings nm transformerNames
      then Throw (TypeError "cannot read fetchSpecOption of undefined")
      else Throw (JaxInternalError (NoTransformer val) "getTransformer")
  | _ => Throw (JaxInternalError (NoTransformer val) "getTransformer")
  end.

Fixpoint somePrimitive (primitives : list Json) (subject primitiveValue : string)
  (context : ContextType) : Result ITransformResult :=
  match primitives with
  | [] => OK {| value := VNull; succeeded := false |}
  | val :: rest =>
      let* coercedResult := callWithoutThis val subject primitiveValue context in
      if succeeded coercedResult
      then OK {| value := value coercedResult; succeeded := true |}
      else somePrimitive rest subject primitiveValue context
  end.

Definition transformPrimitives (this : XpathConverterImpl) : Transformer :=
  fun subject primitiveValue context =>
  let primitives := fetchSpecOption this (matcherPath context "primitives") true in
  if inStrings (JsString.toLowerCase primitiveValue) ["primitives"; "collection"]
  then Throw (JaxConfigError (PrimitivesCannotContain primitiveValue) subject)
  else match primitives with
       | Some (JArr vals) => somePrimitive vals subject primitiveValue context
       | _ => Throw (TypeError "primitives.some is not a function")
       end.

Definition transformSymbol (this : XpathConverterImpl) : Transformer :=
  fun subject symbolValue context =>
  let prefix := fetchSpecOption this (matcherPath context "symbol/prefix") true in
  let global := fetchSpecOption this (matcherPath context "symbol/global") true in
  match prefix with
  | Some (JStr p) =>
      OK {| value := VSymbol (truthy global) symbolValue;
            succeeded := JsString.startsWith p symbolValue |}
  | _ => Throw (TypeError "inputString.replace is not a function")
  end.

Definition transformString (this : XpathConverterImpl) : Transformer :=
  fun subject stringValue context =>
  let stringCoercionAcceptable :=
    fetchSpecOption this (matcherPath context "string") true in
  if negb (truthy stringCoercionAcceptable)
  then Throw (JaxSolicitedError TerminatedByStringMatcher subject)
  else OK {| value := VStr stringValue; succeeded := true |}.

Definition transformDate (this : XpathConverterImpl) : Transformer :=
  fun subject dateValue context =>
  let format := fetchSpecOption this (matcherPath context "date/format") true in
  match moment_isValid this dateValue format with
  | Some valid => OK {| value := VMoment dateValue format; succeeded := valid |}
  | None => OK {| value := VStr dateValue; succeeded := false |}
  end.

(** [self.getTransformer(val)] at the four names [transformAssoc] admits. *)
Definition scalarTransformer (this : XpathConverterImpl) (val : string) : Transformer :=
  if String.eqb val "number" then transformNumber
  else if String.eqb val "boolean" then transformBoolean
  else if String.eqb val "symbol" then transformSymbol this
  else transformString this.

Fixpoint someAssoc (this : XpathConverterImpl) (assocTypes : list Json)
  (subject : string) (context : ContextType) (assocValue : string)
  : Result ITransformResult :=
  match assocTypes with
  | [] => OK {| value := VNull; succeeded := false |}
  | val :: rest =>
      match val with
      | JStr nm =>
          if inStrings nm ["number"; "boolean"; "symbol"; "string"] then
            let* coercedResult := scalarTransformer this nm subject assocValue context in
            if succeeded coercedResult
            then OK {| value := value coercedResult; succeeded := true |}
            else someAssoc this rest subject context assocValue
          else Throw (JaxConfigError (InvalidAssocValueType val) subject)
      | _ => Throw (JaxConfigError (InvalidAssocValueType val) subject)
      end
  end.

Definition transformAssoc (this : XpathConverterImpl) (subject : string)
  (assocType : option Json) (context : ContextType) (assocValue : string)
  : Result ITransformResult :=
  let assocTypes :=
    match assocType with
    | Some (JStr s) => Some (JArr [JStr s])
    | other => other
    end in
  match assocTypes with
  | Some (JArr vals) => someAssoc this vals subject context assocValue
  | _ => Throw (JaxConfigError (InvalidAssocType assocTypes) subject)
  end.

(** The key of an entry handed to [new WeakMap]: [entry[0]]. *)
Definition entryKey (entry : Value) : Value :=
  match entry with
  | VArr (key :: _) => key
  | VObj o => match get (KStr "0") o with Some key => key | None => VUndefined end
  | _ => VUndefined
  end.

(** The constructors [createTypedCollection] knows by name. A typed array
    reads each element as a number; a [Map] and a [WeakMap] take entries,
    which are objects, a [WeakSet] takes objects, and a [WeakMap] takes
    objects as keys. *)
Definition createTypedCollection (t : string) (collectionElements : list Value)
  : Result Value :=
  if inStrings t ["int8array"; "uint8array"; "uint8clampedarray"; "int16array";
                  "uint16array"; "int32array"; "uint32array"; "float32array";
                  "float64array"]
  then
    if forallb stringifies collectionElements
    then OK (VColl t collectionElements)
    else Throw (TypeError "cannot convert a Symbol value to a number")
  else if String.eqb t "set" then OK (VColl t collectionElements)
  else if String.eqb t "weakset" then
    if forallb isObjectValue collectionElements
    then OK (VColl t collectionElements)
    else Throw (TypeError "invalid value used in weak set")
  else if String.eqb t "map" then
    if forallb isObjectValue collectionElements
    then OK (VColl t collectionElements)
    else Throw (TypeError "iterator value is not an entry object")
  else if String.eqb t "weakmap" then
    if forallb isObjectValue collectionElements
    then
      if forallb (fun entry => isObjectValue (entryKey entry)) collectionElements
      then OK (VColl t collectionElements)
      else Throw (TypeError "invalid value used as weak map key")
    else Throw (TypeError "iterator value is not an entry object")
  else OK (VArr collectionElements).

Definition extractCoreCollectionValue (open close collectionValue : string) : string :=
  if JsString.startsWith open collectionValue && JsString.endsWith close collectionValue
  then
    let coreValue := JsString.replace open "" collectionValue in
    JsString.slice0 coreValue
      (Z.of_nat (String.length coreValue) - Z.of_nat (String.length close))
  else collectionValue.

(** The class [[\w\[\]]] of [typeExpr]. *)
Definition isTypeChar (c : ascii) : bool :=
  let n := nat_of_ascii c in
  ((48 <=? n) && (n <=? 57) || (65 <=? n) && (n <=? 90)
   || (97 <=? n) && (n <=? 122) || (n =? 95) || (n =? 91) || (n =? 93))%nat.

Fixpoint spanType (s : string) : string * string :=
  match s with
  | EmptyString => (EmptyString, EmptyString)
  | String c s' =>
      if isTypeChar c
      then let (run, rest) := spanType s' in (String c run, rest)
      else (EmptyString, s)
  end.

(** [typeExpr.exec(s)], the group named [type] of the leftmost match of
    [/\<(?<type>[\w\[\]]+)\>/]. A run of the class is followed by [>] only
    at its end, so the greedy run is the only candidate at each [<]. *)
Fixpoint execTypeExpr (s : string) : option string :=
  match s with
  | EmptyString => None
  | String c s' =>
      if Ascii.eqb c "<" then
        match spanType s' with
        | (String r run, String ">" _) => Some (String r run)
        | _ => execTypeExpr s'
        end
      else execTypeExpr s'
  end.

Definition extractTypeFromCollectionValue (this : XpathConverterImpl)
  (open : string) : string :=
  match execTypeExpr open with
  | Some collectionType =>
      if String.eqb (CollectionTypeLabel this) "type" then collectionType else ""
  | None => ""
  end.

Definition isUnaryCollection (definedType : string) : bool :=
  inStrings (JsString.toLowerCase definedType)
    ["[]"; "int8array"; "uint8array"; "uint8clampedarray"; "int16array";
     "int16array"; "int32array"; "uint32array"; "float32array"; "float64array";
     "set"].

Definition transformUnaryCollection (this : XpathConverterImpl) (subject : string)
  (context : ContextType) (sourceCollection : list string) : Result ITransformResult :=
  let* items :=
    mapM (fun item =>
            let* itemResult := transformPrimitives this subject item context in
            OK (if succeeded itemResult then value itemResult else VStr item))
         sourceCollection in
  OK {| value := VArr items; succeeded := true |}.

(** [String(v)] as a property key. *)
Definition toPropertyKey (this : XpathConverterImpl) (v : Value) : PropKey :=
  match v with
  | VUndefined => KStr "undefined"
  | VNull => KStr "null"
  | VBool b => KStr (if b then "true" else "false")
  | VNum n => KStr (JsNumber.toString n)
  | VStr s => KStr s
  | VSymbol g d => KSym g d
  | other => KStr (objectToString this other)
  end.

(** [R.prop(k)(v)], [v[k]] *)
Definition prop (k : string) (v : Value) : Value :=
  match v with
  | VObj o => match get (KStr k) o with Some x => x | None => VUndefined end
  | _ => VUndefined
  end.

(** [R.has(k)(v)] *)
Definition R_has (k : string) (v : Value) : bool :=
  match v with
  | VObj o => has (KStr k) o
  | _ => false
  end.

(** [R.fromPairs] on pairs written as two-element arrays. *)
Definition R_fromPairs (this : XpathConverterImpl) (pairs : list Value) : Obj :=
  fold_left (fun acc pair =>
               match pair with
               | VArr (k :: v :: _) => set (toPropertyKey this k) v acc
               | VArr [k] => set (toPropertyKey this k) VUndefined acc
               | _ => set (KStr "undefined") VUndefined acc
               end) pairs [].

Definition assocPairStep (this : XpathConverterImpl) (subject : string)
  (context : ContextType) (assocDelim assocKeyType assocValueType : option Json)
  (acc : list Value) (collectionPair : string) : Result (list Value) :=
  let* delim :=
    match assocDelim with
    | Some (JStr d) => OK d
    | _ => Throw (OutsideISpec (matcherPath context "collection/assoc/delim"))
    end in
  match JsString.split delim collectionPair with
  | [key; val] =>
      let* coercedKeyResult := transformAssoc this subject assocKeyType context key in
      let* coercedValueResult := transformAssoc this subject assocValueType context val in
      if succeeded coercedKeyResult && succeeded coercedValueResult
      then OK (acc ++ [VArr [value coercedKeyResult; value coercedValueResult]])
      else OK acc
  | _ => Throw (JaxParseError (MalformedMapEntry collectionPair) subject)
  end.

Definition transformAssociativeCollection (this : XpathConverterImpl)
  (subject : string) (context : ContextType) (collectionType : string)
  (sourceCollection : list string) : Result ITransformResult :=
  let assocDelim := fetchSpecOption this (matcherPath context "collection/assoc/delim") true in
  let assocKeyType := fetchSpecOption this (matcherPath context "collection/assoc/keyType") true in
  let assocValueType := fetchSpecOption this (matcherPath context "collection/assoc/valueType") true in
  let* transformValue :=
    reduceM (assocPairStep this subject context assocDelim assocKeyType assocValueType)
            [] sourceCollection in
  if inStrings (JsString.toLowerCase collectionType) ["object"; "{}"]
  then OK {| value := VObj (R_fromPairs this transformValue); succeeded := true |}
  else
    let* result := createTypedCollection (JsString.toLowerCase collectionType) transformValue in
    OK {| value := result; succeeded := true |}.

Definition transformCollection (this : XpathConverterImpl) : Transformer :=
  fun subject collectionValue context =>
  let delim := fetchSpecOption this (matcherPath context "collection/delim") true in
  let open := fetchSpecOption this (matcherPath context "collection/open") true in
  let collectionType := extractTypeFromCollectionValue this collectionValue in
  if String.eqb collectionType "" then OK {| value := VNull; succeeded := false |}
  else
    match open with
    | Some (JStr open) =>
        let openExpression :=
          JsString.replace (CollectionTypePlaceHolder this)
            ("<" ++ collectionType ++ ">")%string open in
        match fetchSpecOption this (matcherPath context "collection/close") true with
        | Some (JStr close) =>
            let openIsMatch := JsString.startsWith openExpression collectionValue in
            let closeIsMatch := JsString.endsWith close collectionValue in
            if openIsMatch && closeIsMatch then
              let capturedOpen := openExpression in
              if String.eqb capturedOpen ""
              then Throw (JaxParseError (OpenFailsMatch collectionValue) subject)
              else
                let capturedClose := close in
                if String.eqb capturedClose ""
                then Throw (JaxParseError (CloseFailsMatch collectionValue) subject)
                else
                  let coreValue :=
                    extractCoreCollectionValue capturedOpen capturedClose collectionValue in
                  match delim with
                  | Some (JStr delim) =>
                      let arrayElements := JsString.split delim coreValue in
                      if isUnaryCollection collectionType
                      then transformUnaryCollection this subject context arrayElements
                      else transformAssociativeCollection this subject context
                             collectionType arrayElements
                  | _ => Throw (OutsideISpec (matcherPath context "collection/delim"))
                  end
            else OK {| value := VNull; succeeded := false |}
        | _ => Throw (TypeError "inputString.replace is not a function")
        end
    | _ => Throw (TypeError "open.replace is not a function")
    end.

Definition getTransformer (this : XpathConverterImpl) (name : string)
  : Result Transformer :=
  if String.eqb name "number" then OK transformNumber
  else if String.eqb name "boolean" then OK transformBoolean
  else if String.eqb name "primitives" then OK (transformPrimitives this)
  else if String.eqb name "collection" then OK (transformCollection this)
  else if String.eqb name "date" then OK (transformDate this)
  else if String.eqb name "symbol" then OK (transformSymbol this)
  else if String.eqb name "string" then OK (transformString this)
  else Throw (JaxInternalError (NoTransformer (JStr name)) "getTransformer").

(** The loop [R.keys(matchers).some(...)] of [coerceAttributeValue]. *)
Fixpoint someMatcher (this : XpathConverterImpl) (keys : list string)
  (subject rawValue : string) : Result Value :=
  match keys with
  | [] => OK (VStr rawValue)
  | mt :: rest =>
      let* transform := getTransformer this (JsString.toLowerCase mt) in
      let* result := transform subject rawValue attributes_ in
      if succeeded result then OK (value result)
      else someMatcher this rest subject rawValue
  end.

(** [R.keys] of an option value that is an object or an array. *)
Definition keysOf (matchers : Json) : list string :=
  match matchers with
  | JObj fields => map fst fields
  | JArr items => map (fun i => JsNumber.digitsOfN (N.of_nat i)) (seq 0 (List.length items))
  | _ => []
  end.

Definition coerceAttributeValue (this : XpathConverterImpl) (subject : string)
  (matchers : option Json) (rawValue attributeName : string) : Result Value :=
  if isObject matchers then
    match matchers with
    | Some m => someMatcher this (keysOf m) subject rawValue
    | None => OK (VStr rawValue)
    end
  else Throw (JaxInternalError (InvalidMatchers matchers attributeName rawValue)
                               "coerceAttributeValue").

(* ================================================================== *)
(** ** The element builder *)

Definition fromAttributePairs (pairs : list (string * Value)) : Obj :=
  fold_left (fun acc p => set (KStr (fst p)) (snd p) acc) pairs [].

Definition attributeSubject (subject attributeName : string) : string :=
  (subject ++ "/[@" ++ attributeName ++ "]")%string.

Definition attributeValue (this : XpathConverterImpl) (subject : string)
  (doCoercion : bool) (matchers : option Json) (attr : string * string) : Result Value :=
  let (attributeName, rawAttributeValue) := attr in
  if doCoercion
  then coerceAttributeValue this (attributeSubject subject attributeName) matchers
         rawAttributeValue attributeName
  else OK (VStr rawAttributeValue).

Definition buildLocalAttributes (this : XpathConverterImpl) (subject : string)
  (localNode : Node) : Result Obj :=
  let attributesLabel := fetchSpecOption this "labels/attributes" false in
  let doCoercion := isObject (fetchSpecOption this "coercion" false) in
  let matchers := fetchSpecOption this "coercion/attributes/matchers" true in
  if truthy attributesLabel then
    let* items :=
      mapM (fun attr =>
              let* v := attributeValue this subject doCoercion matchers attr in
              OK (VObj [(KStr (fst attr), v)]))
           (attributeNodes localNode) in
    match attributesLabel with
    | Some (JStr label) => OK [(KStr label, VArr items)]
    | _ => Throw (OutsideISpec "labels/attributes")
    end
  else
    let* pairs :=
      mapM (fun attr =>
              let* v := attributeValue this subject doCoercion matchers attr in
              OK (fst attr, v))
           (attributeNodes localNode) in
    OK (fromAttributePairs pairs).

(** The recursive call [this.buildElement(node, parseInfo, previouslySeen)]. *)
Definition Builder : Type := Located -> IParseInfo -> list Value -> Result Obj.

Definition descendantsLabelOf (this : XpathConverterImpl) : option string :=
  match fetchSpecOption this "labels/descendants" true with
  | Some (JStr l) => Some l
  | _ => None
  end.

(** The local function [doMergeElements] of [recurseThroughAttribute]. *)
Definition doMergeElements (this : XpathConverterImpl) (a b : Obj) : Result Obj :=
  match descendantsLabelOf this with
  | Some descendantsLabel =>
      if inStrings descendantsLabel (R_keys a) && inStrings descendantsLabel (R_keys b)
      then
        let* mergedChildren := R_concat (prop descendantsLabel (VObj a))
                                        (prop descendantsLabel (VObj b)) in
        let allMergedWithoutChildrenOfA := R_mergeAll [a; b] in
        OK (set (KStr descendantsLabel) mergedChildren allMergedWithoutChildrenOfA)
      else OK (R_mergeAll [a; b])
  | None => OK (R_mergeAll [a; b])
  end.

Definition stringOr (d : string) (o : option string) : string :=
  match o with Some s => s | None => d end.

(** [element[id] ?? ''] *)
Definition identifierOf (id : string) (element : Obj) : Value :=
  match get (KStr id) element with
  | None | Some VUndefined | Some VNull => VStr ""
  | Some v => v
  end.

Definition isEmptyString (v : Value) : bool :=
  match v with VStr s => String.eqb s "" | _ => false end.

Definition getAttribute (name : string) (n : Node) : string :=
  stringOr "" (lookup name (attributeNodes n)).

(** A name as a path expression takes it without more ado: a letter or an
    underscore, then letters, digits, underscores, hyphens and full stops,
    all of the ASCII range, and no prefix. *)
Definition isNameStart (c : ascii) : bool :=
  let n := nat_of_ascii c in
  ((65 <=? n) && (n <=? 90) || (97 <=? n) && (n <=? 122) || (n =? 95))%nat.

Definition isNameChar (c : ascii) : bool :=
  let n := nat_of_ascii c in
  (isNameStart c || (48 <=? n) && (n <=? 57) || (n =? 45) || (n =? 46))%nat.

Fixpoint allChars (f : ascii -> bool) (s : string) : bool :=
  match s with
  | EmptyString => true
  | String c s' => f c && allChars f s'
  end.

Definition isName (s : string) : bool :=
  match s with
  | EmptyString => false
  | String c s' => isNameStart c && allChars isNameChar s'
  end.

(** The text of the query, [.//elementName[@id="name"]]. *)
Definition byIdQuery (elementName id name : string) : string :=
  (".//" ++ elementName ++ "[@" ++ id ++ "=" ++ String "034" name
   ++ String "034" "]")%string.

(** The three texts are written into the query as they are. When the tag
    and the attribute are names and the reference holds no double quote,
    the query is the step to the first element below the root with that
    tag and that value of the attribute; any other text is a query of its
    own, or none, and what [xpath.select] makes of it is [xpath_select]. *)
Definition selectElementNodeById (this : XpathConverterImpl)
  (elementName id name : string) (rootNode : option Located)
  : Result (option Located) :=
  match rootNode with
  | Some r =>
      if isName elementName && isName id && negb (occurs "034" name)
      then OK (selectFirstBelow (matchesById elementName id name)
                 (ancestors r) (node r))
      else xpath_select this (byIdQuery elementName id name) r
  | None => OK None
  end.

(** The element a reference names, built. *)
Definition buildInherited (this : XpathConverterImpl) (build : Builder)
  (subject nodeName id : string)
  (elementNode : Located) (parseInfo : IParseInfo) (previouslySeen : list Value)
  (at_ : string) : Result Obj :=
  let* found := selectElementNodeById this nodeName id at_ (parentNode elementNode) in
  match found with
  | None => Throw (JaxConfigError (CouldNotFindElement nodeName id at_) subject)
  | Some inheritedElementNode => build inheritedElementNode parseInfo previouslySeen
  end.

(** The message of the circular reference is written with the identifier
    in it, which raises a [TypeError] of its own when the identifier does
    not convert to a string. *)
Definition recurseThroughAttribute (this : XpathConverterImpl) (build : Builder)
  (subject : string) (element : Obj) (elementNode : Located)
  (parseInfo : IParseInfo) (previouslySeen : list Value) : Result Obj :=
  let info := getElementInfo this (VStr (nodeName (node elementNode))) parseInfo in
  let id := keyOf (id info) in
  let recurse := stringOr "" (recurse info) in
  let identifier := identifierOf id element in
  if isEmptyString identifier then OK element
  else if negb (String.eqb recurse "") then
    if R_includes identifier previouslySeen
    then
      if stringifies identifier
      then Throw (JaxConfigError (CircularReference identifier) subject)
      else Throw (TypeError "cannot convert a Symbol value to a string")
    else
      let previouslySeen := previouslySeen ++ [identifier] in
      let nodeName := nodeName (node elementNode) in
      let recurseAttr := getAttribute recurse (node elementNode) in
      if negb (String.eqb recurseAttr "") then
        let recurseAttributes := JsString.split "," recurseAttr in
        if (1 <? List.length recurseAttributes)%nat then
          let* inheritedElements :=
            mapM (buildInherited this build subject nodeName id elementNode parseInfo
                    previouslySeen)
                 recurseAttributes in
          let* mergedInheritedElements :=
            reduceM (doMergeElements this) [] inheritedElements in
          OK (R_mergeAll [mergedInheritedElements; element])
        else
          let inheritedElementName := hd "undefined" recurseAttributes in
          let* inheritedElement :=
            buildInherited this build subject nodeName id elementNode parseInfo
              previouslySeen inheritedElementName in
          OK (R_mergeAll [inheritedElement; element])
      else OK element
  else OK element.

Definition composeText (this : XpathConverterImpl) (elementNode : Node) : string :=
  let doTrim := truthy (fetchSpecOption this "coercion/textNodes/trim" true) in
  fold_left (fun text currentChild =>
               match currentChild with
               | CharacterData _ data =>
                   if String.eqb data "" then text
                   else if doTrim then (text ++ JsString.trim data)%string
                   else (text ++ data)%string
               | _ => text
               end)
            (childNodes elementNode) ""%string.

(** Lines 780-785 of [buildChildren]: the children just built go under the
    descendants label, before what the element holds there already. *)
Definition attachDescendants (descendantsLabel : string) (element : Obj)
  (children : list Value) : Result Obj :=
  if inStrings descendantsLabel (R_keys element) then
    let* merged := R_concat (VArr children) (prop descendantsLabel (VObj element)) in
    OK (set (KStr descendantsLabel) merged element)
  else OK (set (KStr descendantsLabel) (VArr children) element).

(** The reduce that looks for two descendants with one identifier. *)
Fixpoint checkCollisions (id subject : string) (acc descendants : list Value)
  : Result (list Value) :=
  match descendants with
  | [] => OK acc
  | val :: rest =>
      if R_includes (prop id val) acc
      then Throw (JaxSolicitedError (ElementCollision val) subject)
      else checkCollisions id subject (acc ++ [prop id val]) rest
  end.

Definition R_indexBy (this : XpathConverterImpl) (id : string) (l : list Value) : Obj :=
  fold_left (fun acc elem => set (toPropertyKey this (prop id elem)) elem acc) l [].

Definition R_groupBy (this : XpathConverterImpl) (id : string) (l : list Value) : Obj :=
  fold_left (fun acc elem =>
               let key := toPropertyKey this (prop id elem) in
               match get key acc with
               | Some (VArr group) => set key (VArr (group ++ [elem])) acc
               | _ => set key (VArr [elem]) acc
               end) l [].

Definition arrayItems (v : Value) : list Value :=
  match v with VArr l => l | _ => [] end.

Definition isTrue (o : option bool) : bool :=
  match o with Some true => true | _ => false end.

(** Lines 791-826 of [buildChildren]: the policy the parse info declares
    for the descendants. *)
Definition processDescendants (this : XpathConverterImpl) (subject : string)
  (descendantsLabel : string) (elementInfo : IElementInfo) (element : Obj)
  (children : list Value) : Result Obj :=
  match descendants elementInfo with
  | Some policy =>
      match by_ policy with
      | Some by' =>
          let descendants := arrayItems (prop descendantsLabel (VObj element)) in
          let id := keyOf (id elementInfo) in
          if forallb (R_has id) children then
            if String.eqb by' "index" then
              let* _ :=
                if isTrue (throwIfMissing policy)
                then checkCollisions id subject [] descendants
                else OK [] in
              OK (set (KStr descendantsLabel) (VObj (R_indexBy this id descendants)) element)
            else if String.eqb by' "group" then
              OK (set (KStr descendantsLabel) (VObj (R_groupBy this id descendants)) element)
            else OK element
          else if isTrue (throwIfMissing policy) then
            let missing :=
              match find (fun c => negb (R_has id c)) children with
              | Some c => c
              | None => VObj []
              end in
            Throw (JaxSolicitedError (MissingKeyAttribute id missing) subject)
          else OK element
      | None => OK element
      end
  | None => OK element
  end.

(** Lines 829-836 of [buildChildren]: the text of the element, when it has
    any, goes under the text label. *)
Definition attachText (this : XpathConverterImpl) (elementNode : Node)
  (element : Obj) : Result Obj :=
  let elementText := composeText this elementNode in
  if negb (String.eqb elementText "") then
    let* textLabel := fetchString this "labels/text" in
    OK (set (KStr textLabel) (VStr elementText) element)
  else OK element.

Definition buildChildren (this : XpathConverterImpl) (build : Builder)
  (subject : string) (element : Obj) (elementNode : Located)
  (parseInfo : IParseInfo) (previouslySeen : list Value) : Result Obj :=
  let selectionResult := childElements (node elementNode) in
  let* element :=
    match selectionResult with
    | [] => OK element
    | _ =>
        let elements := filter isElement selectionResult in
        let* children :=
          mapM (fun childElement =>
                  build (childOf elementNode childElement) parseInfo previouslySeen)
               elements in
        let children := map VObj children in
        let* descendantsLabel := fetchString this "labels/descendants" in
        let* element := attachDescendants descendantsLabel element children in
        let* elementLabel := fetchString this "labels/element" in
        let elementInfo := getElementInfo this (prop elementLabel (VObj element)) parseInfo in
        processDescendants this subject descendantsLabel elementInfo element children
    end in
  attachText this (node elementNode) element.

Definition removeDiscards (discards : list string) (element : Obj) : Obj :=
  fold_left (fun el at_ => R_dissoc at_ el) discards element.

Definition hasChildNodes (n : Node) : bool :=
  match childNodes n with [] => false | _ => true end.

Fixpoint buildElement (this : XpathConverterImpl) (fuel : nat)
  (elementNode : Located) (parseInfo : IParseInfo) (previouslySeen : list Value)
  {struct fuel} : Result Obj :=
  match fuel with
  | O => OutOfFuel
  | S fuel' =>
      let subject := composeElementPath elementNode in
      let* element := buildLocalAttributes this subject (node elementNode) in
      let* elementLabel := fetchString this "labels/element" in
      let element := set (KStr elementLabel) (VStr (nodeName (node elementNode))) element in
      let info := getElementInfo this (VStr (nodeName (node elementNode))) parseInfo in
      let recurse := stringOr "" (recurse info) in
      let discards := match discards info with Some d => d | None => [] end in
      let* element :=
        if negb (String.eqb recurse "") && isElement (node elementNode)
        then recurseThroughAttribute this (buildElement this fuel') subject element
               elementNode parseInfo previouslySeen
        else OK element in
      let element := removeDiscards discards element in
      if hasChildNodes (node elementNode)
      then buildChildren this (buildElement this fuel') subject element elementNode
             parseInfo previouslySeen
      else OK element
  end.

(* ================================================================== *)
(** ** Well-formed objects *)

(** An object holds each key once. *)
Fixpoint uniqueKeys (o : Obj) : bool :=
  match o with
  | [] => true
  | (k, _) :: o' => negb (has k o') && uniqueKeys o'
  end.

(* ================================================================== *)
(** ** Vocabulary of the statements *)

(** The matcher named [mt] is registered and does not apply to [rawValue]:
    it returns [succeeded = false] and raises nothing. *)
Definition softFails (this : XpathConverterImpl) (subject rawValue mt : string) : Prop :=
  exists transform result,
    getTransformer this (JsString.toLowerCase mt) = OK transform
    /\ transform subject rawValue attributes_ = OK result
    /\ succeeded result = false.

(** The item a unary collection keeps for the text [item]. *)
Definition keptItem (this : XpathConverterImpl) (subject : string)
  (context : ContextType) (item : string) : Value :=
  match transformPrimitives this subject item context with
  | OK r => if succeeded r then value r else VStr item
  | _ => VStr item
  end.

(** The option at [path] as the spec given to the constructor sets it. *)
Definition specSets (this : XpathConverterImpl) (path : list string) (v : Json) : Prop :=
  R_path path (spec this) = Some v.

(** The coercion of the key and of the value of a well-formed entry raises
    nothing. *)
Definition entryCoerces (this : XpathConverterImpl) (subject : string)
  (context : ContextType) (delim pair : string) : Prop :=
  exists key val keyResult valueResult,
    JsString.split delim pair = [key; val]
    /\ transformAssoc this subject
         (fetchSpecOption this (matcherPath context "collection/assoc/keyType") true)
         context key = OK keyResult
    /\ transformAssoc this subject
         (fetchSpecOption this (matcherPath context "collection/assoc/valueType") true)
         context val = OK valueResult.

(* ================================================================== *)
(** ** The default converter and the documents of the examples *)

(** Modelled from the spec: the default spec [Specs.default] of [./specs],
    which also serves as the fall-back spec [Specs.fallBack]; the module is
    not among the sources. The options are the ones the spec lists as
    recognised. The labels [_] and [_children] are those the tests of
    [buildElement] read from a converter made without a spec; the markers
    of a collection are those of the comment in [transformCollection]
    (open pattern [!<[]>[] for the type [[]], close pattern []]) and of the
    literal [!<[]>[1,2,3,4]]; [primitives] tries number then boolean. *)
Definition Specs_default : Json :=
  JObj
    [("name", JStr "default-spec");
     ("labels",
      JObj [("element", JStr "_"); ("descendants", JStr "_children");
            ("text", JStr "_text")]);
     ("coercion",
      JObj
        [("attributes",
          JObj
            [("trim", JBool true);
             ("matchers",
              JObj
                [("primitives", JArr [JStr "number"; JStr "boolean"]);
                 ("collection",
                  JObj
                    [("delim", JStr ","); ("open", JStr "!<type>[");
                     ("close", JStr "]");
                     ("assoc",
                      JObj [("delim", JStr "="); ("keyType", JStr "string");
                            ("valueType", JStr "string")])]);
                 ("date", JObj [("format", JStr "YYYY-MM-DD")]);
                 ("symbol", JObj [("prefix", JStr "$"); ("global", JBool true)]);
                 ("string", JBool true)])]);
         ("textNodes", JObj [("trim", JBool true)])])].

(** A stand-in for [moment] in the examples: a text is a date when it reads
    as four digits, two digits and two digits joined by hyphens. *)
Definition sampleMoment (input : string) (format : option Json) : option bool :=
  Some
    (match JsString.split "-" input with
     | [y; m; d] =>
         (String.length y =? 4)%nat && (String.length m =? 2)%nat
         && (String.length d =? 2)%nat
         && match JsNumber.valueIn 10 0 (y ++ m ++ d)%string with
            | Some _ => true
            | None => false
            end
     | _ => false
     end).

(** Modelled from the spec: the converter made without a spec,
    [new XpathConverterImpl()]. The modules [./specs] and [./types] it takes
    its constants from are not among the sources: the place holder of the
    open pattern is [<type>] and the name of the capture group [type], so
    that the open pattern reads [!<[]>[] for the type [[]]; the empty element
    info has no field; [moment] and the text of an object are the stand-ins
    of the examples. *)
Definition defaultConverter : XpathConverterImpl :=
  {| spec := Specs_default;
     Specs_fallBack := Specs_default;
     CollectionTypePlaceHolder := "<type>";
     CollectionTypeLabel := "type";
     EmptyElementInfo :=
       {| id := None; recurse := None; discards := None; descendants := None |};
     moment_isValid := sampleMoment;
     objectToString := fun _ => "[object Object]";
     xpath_select := fun _ _ => OK None |}.

(** A converter whose spec turns the string fall-back off. *)
Definition strictConverter : XpathConverterImpl :=
  {| spec :=
       JObj [("coercion",
              JObj [("attributes",
                     JObj [("matchers",
                            JObj [("primitives", JArr [JStr "number"; JStr "boolean"]);
                                  ("string", JBool false)])])])];
     Specs_fallBack := Specs_default;
     CollectionTypePlaceHolder := "<type>";
     CollectionTypeLabel := "type";
     EmptyElementInfo :=
       {| id := None; recurse := None; discards := None; descendants := None |};
     moment_isValid := sampleMoment;
     objectToString := fun _ => "[object Object]";
     xpath_select := fun _ _ => OK None |}.

(** The parse info of the tests of [buildElement]. *)
Definition testParseInfo : IParseInfo :=
  {| elements :=
       [("Command",
         {| id := Some "name";
            recurse := Some "inherits";
            discards := Some ["inherits"; "abstract"];
            descendants :=
              Some {| by_ := Some "index"; throwIfCollision := Some false;
                      throwIfMissing := Some false |} |})];
     common := None;
     def := None |}.

(** [<Commands>...</Commands>] below the root of a document, and the
    command named [name] in it. *)
Definition inCommands (commands : list Node) : Located :=
  {| ancestors := [Element "Cli" [] [Element "Commands" [] commands];
                   Document [Element "Cli" [] [Element "Commands" [] commands]]];
     node := Element "Commands" [] commands |}.

Definition commandNamed (commands : list Node) (name : string)
  : Result (option Located) :=
  selectElementNodeById defaultConverter "Command" "name" name
    (Some (inCommands commands)).

(** Parse infos that differ in the flag [throwIfCollision] only: they are
    the same once the flag is taken out everywhere. *)
Definition withoutCollisionFlag (d : Descendants) : Descendants :=
  {| by_ := by_ d; throwIfCollision := None; throwIfMissing := throwIfMissing d |}.

Definition infoWithoutCollisionFlag (i : IElementInfo) : IElementInfo :=
  {| id := id i; recurse := recurse i; discards := discards i;
     descendants := option_map withoutCollisionFlag (descendants i) |}.

Definition parseInfoWithoutCollisionFlag (p : IParseInfo) : IParseInfo :=
  {| elements := map (fun e => (fst e, infoWithoutCollisionFlag (snd e))) (elements p);
     common := option_map infoWithoutCollisionFlag (common p);
     def := option_map infoWithoutCollisionFlag (def p) |}.

Definition differOnlyInThrowIfCollision (p q : IParseInfo) : Prop :=
  parseInfoWithoutCollisionFlag p = parseInfoWithoutCollisionFlag q.

(** The info of [Command] in [testParseInfo] with the two flags of its
    descendants set as given. *)
Definition commandInfo (collision missing : bool) : IElementInfo :=
  {| id := Some "name";
     recurse := Some "inherits";
     discards := Some ["inherits"; "abstract"];
     descendants :=
       Some {| by_ := Some "index"; throwIfCollision := Some collision;
               throwIfMissing := Some missing |} |}.

Definition commandParseInfo (collision missing : bool) : IParseInfo :=
  {| elements := [("Command", commandInfo collision missing)];
     common := None;
     def := None |}.

(** A built argument named [name]. *)
Definition builtArgument (name kind : string) : Value :=
  VObj [(KStr "name", VStr name); (KStr "kind", VStr kind);
        (KStr "_", VStr "Argument")].

(** [<Command name="copy"><Command name="from"/><Command name="from"/></Command>] *)
Definition twinChildren : list Node :=
  [Element "Command" [("name", "copy")]
     [Element "Command" [("name", "from"); ("kind", "first")] [];
      Element "Command" [("name", "from"); ("kind", "second")] []]].

(** A text attribute that is absent or empty. *)
Definition absentOrEmpty (name : string) (n : Node) : Prop :=
  lookup name (attributeNodes n) = None \/ lookup name (attributeNodes n) = Some "".

(** What [buildElement] returns when the inheritance resolver and the
    discards are left out: the local attributes with the element name, then
    the children and the text. *)
Definition builtLocally (this : XpathConverterImpl) (fuel : nat)
  (elementNode : Located) (parseInfo : IParseInfo) (previouslySeen : list Value)
  : Result Obj :=
  let subject := composeElementPath elementNode in
  let* element := buildLocalAttributes this subject (node elementNode) in
  let* elementLabel := fetchString this "labels/element" in
  let element := set (KStr elementLabel) (VStr (nodeName (node elementNode))) element in
  if hasChildNodes (node elementNode)
  then buildChildren this (buildElement this fuel) subject element elementNode
         parseInfo previouslySeen
  else OK element.

(** The same with the discards of the tag removed before the children are
    built, as [buildElement] does. *)
Definition builtLocallyWithoutDiscards (this : XpathConverterImpl) (fuel : nat)
  (elementNode : Located) (parseInfo : IParseInfo) (previouslySeen : list Value)
  : Result Obj :=
  let subject := composeElementPath elementNode in
  let* element := buildLocalAttributes this subject (node elementNode) in
  let* elementLabel := fetchString this "labels/element" in
  let element := set (KStr elementLabel) (VStr (nodeName (node elementNode))) element in
  let info := getElementInfo this (VStr (nodeName (node elementNode))) parseInfo in
  let discards := match discards info with Some d => d | None => [] end in
  let element := removeDiscards discards element in
  if hasChildNodes (node elementNode)
  then buildChildren this (buildElement this fuel) subject element elementNode
         parseInfo previouslySeen
  else OK element.

(** The sentence of the specification on elements without inheritance, as
    it is written: no recurse attribute configured, or the identifier or
    the recurse attribute absent or empty, and the result is the local
    mapping with the element name, the descendants and the text. *)
Definition no_inheritance_as_specified : Prop :=
  forall this fuel elementNode parseInfo previouslySeen,
    let info := getElementInfo this (VStr (nodeName (node elementNode))) parseInfo in
    (stringOr "" (recurse info) = ""
     \/ absentOrEmpty (keyOf (id info)) (node elementNode)
     \/ absentOrEmpty (stringOr "" (recurse info)) (node elementNode)) ->
    buildElement this (S fuel) elementNode parseInfo previouslySeen
    = builtLocally this fuel elementNode parseInfo previouslySeen.

(** A parse info for [Command] that configures no recurse attribute. *)
Definition flatParseInfo : IParseInfo :=
  {| elements :=
       [("Command",
         {| id := Some "name"; recurse := None; discards := Some ["abstract"];
            descendants := None |})];
     common := None;
     def := None |}.

(** [<Command name="base" abstract="true"/>] on its own. *)
Definition abstractCommand : Located :=
  {| ancestors := [];
     node := Element "Command" [("name", "base"); ("abstract", "true")] [] |}.

(** The value the latest of [bases] that defines [k] gives to it. *)
Fixpoint latestDefining (k : PropKey) (bases : list Obj) : option Value :=
  match bases with
  | [] => None
  | b :: rest =>
      match latestDefining k rest with
      | Some v => Some v
      | None => get k b
      end
  end.

(** The element holds a list under [label], or nothing. *)
Definition listOrAbsent (label : string) (o : Obj) : Prop :=
  get (KStr label) o = None \/ exists l, get (KStr label) o = Some (VArr l).

(** The first lines of [buildElement]: the local attributes with the
    element name. *)
Definition namedElement (this : XpathConverterImpl) (elementNode : Located)
  : Result Obj :=
  let* element :=
    buildLocalAttributes this (composeElementPath elementNode) (node elementNode) in
  let* elementLabel := fetchString this "labels/element" in
  OK (set (KStr elementLabel) (VStr (nodeName (node elementNode))) element).

Definition infoOf (this : XpathConverterImpl) (parseInfo : IParseInfo)
  (elementNode : Located) : IElementInfo :=
  getElementInfo this (VStr (nodeName (node elementNode))) parseInfo.

Definition recurseOf (this : XpathConverterImpl) (parseInfo : IParseInfo)
  (elementNode : Located) : string :=
  stringOr "" (recurse (infoOf this parseInfo elementNode)).

Definition idOf (this : XpathConverterImpl) (parseInfo : IParseInfo)
  (elementNode : Located) : string :=
  keyOf (id (infoOf this parseInfo elementNode)).

(** [Revisits this parseInfo l seen identifier subject]: the resolution of
    the inheritance of the element [l], entered with the identifiers
    [seen], comes to an element whose identifier has been seen already;
    [identifier] is that identifier and [subject] the path of the element
    that is met again. Either [l] is that element, or [l] is new and one of
    the references of its recurse attribute leads to it, the references
    listed before that one being found and built. *)
Inductive Revisits (this : XpathConverterImpl) (parseInfo : IParseInfo)
  : Located -> list Value -> Value -> string -> Prop :=
| revisit_here (l : Located) (seen : list Value) (element : Obj) :
    isElement (node l) = true ->
    namedElement this l = OK element ->
    recurseOf this parseInfo l <> "" ->
    isEmptyString (identifierOf (idOf this parseInfo l) element) = false ->
    R_includes (identifierOf (idOf this parseInfo l) element) seen = true ->
    stringifies (identifierOf (idOf this parseInfo l) element) = true ->
    Revisits this parseInfo l seen
      (identifierOf (idOf this parseInfo l) element) (composeElementPath l)
| revisit_through (l : Located) (seen : list Value) (element : Obj)
    (pre post : list string) (at_ : string) (l' : Located)
    (identifier : Value) (subject : string) :
    isElement (node l) = true ->
    namedElement this l = OK element ->
    recurseOf this parseInfo l <> "" ->
    isEmptyString (identifierOf (idOf this parseInfo l) element) = false ->
    R_includes (identifierOf (idOf this parseInfo l) element) seen = false ->
    getAttribute (recurseOf this parseInfo l) (node l) <> "" ->
    JsString.split "," (getAttribute (recurseOf this parseInfo l) (node l))
    = pre ++ at_ :: post ->
    Forall (fun ref =>
              exists fuel base,
                buildInherited this (buildElement this fuel) (composeElementPath l)
                  (nodeName (node l)) (idOf this parseInfo l) l parseInfo
                  (seen ++ [identifierOf (idOf this parseInfo l) element]) ref
                = OK base) pre ->
    selectElementNodeById this (nodeName (node l)) (idOf this parseInfo l) at_ (parentNode l)
    = OK (Some l') ->
    Revisits this parseInfo l'
      (seen ++ [identifierOf (idOf this parseInfo l) element]) identifier subject ->
    Revisits this parseInfo l seen identifier subject.

(** One builder answers as another wherever the other answers. *)
Definition answersAs (b1 b2 : Builder) : Prop :=
  forall l parseInfo seen,
    b1 l parseInfo seen <> OutOfFuel -> b2 l parseInfo seen = b1 l parseInfo seen.

(** The command at position [n] of [<Commands>]. *)
Definition commandAt (commands : list Node) (n : nat) : Located :=
  childOf (inCommands commands) (nth n commands (Document [])).

(** [<Command name="leaf" inherits="leaf" describe="this is a leaf command"/>] *)
Definition selfCommands : list Node :=
  [Element "Command"
     [("name", "leaf"); ("inherits", "leaf"); ("describe", "this is a leaf command")] []].

(** Two commands that inherit from each other and a leaf below them. *)
Definition cycleCommands : list Node :=
  [Element "Command" [("name", "alpha-command"); ("inherits", "beta-command")] [];
   Element "Command" [("name", "beta-command"); ("inherits", "alpha-command")] [];
   Element "Command"
     [("name", "leaf"); ("inherits", "beta-command");
      ("describe", "this is a leaf command")] []].

(** Two bases that both define [filter] and a leaf that lists them. *)
Definition precedenceCommands : list Node :=
  [Element "Command"
     [("name", "alpha-command"); ("filter", "alpha-filter"); ("mode", "auto")] [];
   Element "Command" [("name", "beta-command"); ("filter", "beta-filter")] [];
   Element "Command"
     [("name", "leaf"); ("inherits", "alpha-command,beta-command");
      ("describe", "this is a leaf command")] []].

Definition argumentRef (name : string) : Node :=
  Element "ArgumentRef" [("name", name)] [].

(** A command with arguments of its own that inherits the arguments of an
    abstract command. *)
Definition argumentCommands : list Node :=
  [Element "Command" [("name", "duo-command"); ("abstract", "true")]
     [Element "Arguments" [] [argumentRef "from"; argumentRef "to"]];
   Element "Command"
     [("name", "test"); ("describe", "Test regular expression definitions");
      ("inherits", "duo-command")]
     [Element "Arguments" [] [argumentRef "config"; argumentRef "expr"]]].

(** The parse info of the tests without a policy for the descendants. *)
Definition inheritParseInfo : IParseInfo :=
  {| elements :=
       [("Command",
         {| id := Some "name"; recurse := Some "inherits";
            discards := Some ["inherits"; "abstract"]; descendants := None |})];
     common := None;
     def := None |}.

Definition builtArguments (names : list string) : Obj :=
  [(KStr "_", VStr "Arguments");
   (KStr "_children",
    VArr (map (fun n => VObj [(KStr "name", VStr n); (KStr "_", VStr "ArgumentRef")])
              names))].


(** The local attributes of a command with its element name. *)
Definition namedCommand (attrs : list (string * string)) : Obj :=
  map (fun a => (KStr (fst a), VStr (snd a))) attrs ++ [(KStr "_", VStr "Command")].

(* ================================================================== *)
(** ** Vocabulary of the further properties *)

(** A text of white space only. *)
Fixpoint isBlank (s : string) : bool :=
  match s with
  | EmptyString => true
  | String c s' => JsString.isSpace c && isBlank s'
  end.

(** The discards the parse info lists for the tag of an element. *)
Definition discardsOf (this : XpathConverterImpl) (parseInfo : IParseInfo)
  (elementNode : Located) : list string :=
  match discards (infoOf this parseInfo elementNode) with Some d => d | None => [] end.

(** The key [k] is not the label the spec gives at [path]. *)
Definition notLabel (this : XpathConverterImpl) (path : string) (k : PropKey) : Prop :=
  forall label, fetchString this path = OK label -> keyEqb k (KStr label) = false.


(** The number of levels of a tree of nodes. *)
Fixpoint height (n : Node) : nat :=
  match n with
  | Document ks | Element _ _ ks =>
      S (fold_right (fun k m => Nat.max (height k) m) 0 ks)
  | CharacterData _ _ => 1
  end.

(** No tag has a recurse attribute configured. *)
Definition noRecurse (this : XpathConverterImpl) (parseInfo : IParseInfo) : Prop :=
  forall name, stringOr "" (recurse (getElementInfo this (VStr name) parseInfo)) = "".

(** A converter whose spec has no [coercion] object. *)
Definition plainConverter : XpathConverterImpl :=
  {| spec := JObj [("name", JStr "plain")];
     Specs_fallBack := Specs_default;
     CollectionTypePlaceHolder := "<type>";
     CollectionTypeLabel := "type";
     EmptyElementInfo :=
       {| id := None; recurse := None; discards := None; descendants := None |};
     moment_isValid := sampleMoment;
     objectToString := fun _ => "[object Object]";
     xpath_select := fun _ _ => OK None |}.

(** A converter whose spec puts the attributes under a label. *)
Definition labelledConverter : XpathConverterImpl :=
  {| spec := JObj [("name", JStr "labelled");
                   ("labels", JObj [("attributes", JStr "_attributes")])];
     Specs_fallBack := Specs_default;
     CollectionTypePlaceHolder := "<type>";
     CollectionTypeLabel := "type";
     EmptyElementInfo :=
       {| id := None; recurse := None; discards := None; descendants := None |};
     moment_isValid := sampleMoment;
     objectToString := fun _ => "[object Object]";
     xpath_select := fun _ _ => OK None |}.

(** An attribute as it is read without coercion. *)
Definition verbatim (attr : string * string) : string * Value :=
  (fst attr, VStr (snd attr)).

(** The items written one after the other with [sep] between them. *)
Fixpoint join (sep : string) (items : list string) : string :=
  match items with
  | [] => ""
  | [x] => x
  | x :: rest => x ++ sep ++ join sep rest
  end.

(** The transform result of a value the transformer does not apply to. *)
Definition notApplicable : ITransformResult := {| value := VNull; succeeded := false |}.

(** What [transformAssoc] gives a text under the configured type when it
    raises nothing: the coerced value, or nothing when no type applies. *)
Definition assocCoerced (this : XpathConverterImpl) (subject : string)
  (context : ContextType) (leaf text : string) : option Value :=
  match transformAssoc this subject
          (fetchSpecOption this (matcherPath context leaf) true) context text with
  | OK r => if succeeded r then Some (value r) else None
  | _ => None
  end.

(** The pair an associative collection keeps for a well-formed entry: the
    coerced key and the coerced value when both are coerced, and nothing
    otherwise. *)
Definition keptPair (this : XpathConverterImpl) (subject : string)
  (context : ContextType) (delim entry : string) : list Value :=
  match JsString.split delim entry with
  | [key; val] =>
      match assocCoerced this subject context "collection/assoc/keyType" key,
            assocCoerced this subject context "collection/assoc/valueType" val with
      | Some k, Some v => [VArr [k; v]]
      | _, _ => []
      end
  | _ => []
  end.

(** The collection that is made of the pairs kept. *)
Definition collectionOfPairs (this : XpathConverterImpl) (collectionType : string)
  (pairs : list Value) : Result ITransformResult :=
  if inStrings (JsString.toLowerCase collectionType) ["object"; "{}"]
  then OK {| value := VObj (R_fromPairs this pairs); succeeded := true |}
  else
    let* result := createTypedCollection (JsString.toLowerCase collectionType) pairs in
    OK {| value := result; succeeded := true |}.

(** A converter whose spec asks for numbers as the keys of associative
    collections. *)
Definition numberKeyConverter : XpathConverterImpl :=
  {| spec :=
       JObj [("coercion",
              JObj [("attributes",
                     JObj [("matchers",
                            JObj [("collection",
                                   JObj [("assoc",
                                          JObj [("keyType", JStr "number")])])])])])];
     Specs_fallBack := Specs_default;
     CollectionTypePlaceHolder := "<type>";
     CollectionTypeLabel := "type";
     EmptyElementInfo :=
       {| id := None; recurse := None; discards := None; descendants := None |};
     moment_isValid := sampleMoment;
     objectToString := fun _ => "[object Object]";
     xpath_select := fun _ _ => OK None |}.

(** The descendants whose identifier reads as the key [k]. *)
Definition groupOf (this : XpathConverterImpl) (id : string) (k : PropKey)
  (descendants : list Value) : list Value :=
  filter (fun d => keyEqb k (toPropertyKey this (prop id d))) descendants.

(** A group as the mapping holds it: a key without descendants is absent. *)
Definition groupValue (group : list Value) : option Value :=
  match group with [] => None | _ => Some (VArr group) end.

(** The info of a tag whose descendants are grouped by [name]. *)
Definition groupInfo (missing : bool) : IElementInfo :=
  {| id := Some "name";
     recurse := None;
     discards := None;
     descendants :=
       Some {| by_ := Some "group"; throwIfCollision := None;
               throwIfMissing := Some missing |} |}.

(** The character data among the children of a node is white space only. *)
Definition onlyBlankText (n : Node) : bool :=
  forallb (fun k => match k with CharacterData _ data => isBlank data | _ => true end)
          (childNodes n).

(** [below root k]: the node [k] is a child of [root], or a child of a node
    below [root]. *)
Inductive below (root : Node) : Node -> Prop :=
| below_child (k : Node) : In k (childNodes root) -> below root k
| below_step (k k' : Node) : below root k -> In k' (childNodes k) -> below root k'.

(** A command with a named child that inherits from a command with a named
    child. *)
Definition nestedCommands : list Node :=
  [Element "Command" [("name", "base")] [argumentRef "from"];
   Element "Command" [("name", "leaf"); ("inherits", "base")] [argumentRef "to"]].

(** A value that is no list. *)
Definition notAList (v : Value) : Prop := forall items, v <> VArr items.

(** A converter whose spec writes the type of the keys with a capital. *)
Definition capitalKeyConverter : XpathConverterImpl :=
  {| spec :=
       JObj [("coercion",
              JObj [("attributes",
                     JObj [("matchers",
                            JObj [("collection",
                                   JObj [("assoc",
                                          JObj [("keyType", JStr "Number")])])])])])];
     Specs_fallBack := Specs_default;
     CollectionTypePlaceHolder := "<type>";
     CollectionTypeLabel := "type";
     EmptyElementInfo :=
       {| id := None; recurse := None; discards := None; descendants := None |};
     moment_isValid := sampleMoment;
     objectToString := fun _ => "[object Object]";
     xpath_select := fun _ _ => OK None |}.

(** The text one child node adds to the text of its parent. *)
Definition textOf (this : XpathConverterImpl) (child : Node) : string :=
  match child with
  | CharacterData _ data =>
      if truthy (fetchSpecOption this "coercion/textNodes/trim" true)
      then JsString.trim data
      else data
  | _ => ""
  end.

(** The path written from the names of its steps, the root first. *)
Fixpoint pathOf (names : list string) : string :=
  match names with
  | [] => ""
  | name :: rest => "/" ++ name ++ pathOf rest
  end.

Definition isDocument (n : Node) : bool :=
  match n with Document _ => true | _ => false end.

(** A converter whose spec tries booleans before numbers. *)
Definition booleanFirstConverter : XpathConverterImpl :=
  {| spec :=
       JObj [("coercion",
              JObj [("attributes",
                     JObj [("matchers",
                            JObj [("primitives",
                                   JArr [JStr "boolean"; JStr "number"])])])])];
     Specs_fallBack := Specs_default;
     CollectionTypePlaceHolder := "<type>";
     CollectionTypeLabel := "type";
     EmptyElementInfo :=
       {| id := None; recurse := None; discards := None; descendants := None |};
     moment_isValid := sampleMoment;
     objectToString := fun _ => "[object Object]";
     xpath_select := fun _ _ => OK None |}.

(* ================================================================== *)
(** ** Vocabulary of the statements on symbols and on re-keyed descendants *)

(** [<Command name="$leaf" inherits="$leaf"/>]: the default matchers read
    the name as a symbol. *)
Definition symbolSelfCommands : list Node :=
  [Element "Command" [("name", "$leaf"); ("inherits", "$leaf")] []].

(** A converter whose spec asks for symbols that are not registered,
    [symbol/global: false]. *)
Definition localSymbolConverter : XpathConverterImpl :=
  {| spec :=
       JObj [("coercion",
              JObj [("attributes",
                     JObj [("matchers",
                            JObj [("symbol", JObj [("global", JBool false)])])])])];
     Specs_fallBack := Specs_default;
     CollectionTypePlaceHolder := "<type>";
     CollectionTypeLabel := "type";
     EmptyElementInfo :=
       {| id := None; recurse := None; discards := None; descendants := None |};
     moment_isValid := sampleMoment;
     objectToString := fun _ => "[object Object]";
     xpath_select := fun _ _ => OK None |}.

(** A command with a named child that inherits from a command whose two
    children have no name. *)
Definition mixedCommands : list Node :=
  [Element "Command" [("name", "base")]
     [Element "Arguments" [] []; Element "Options" [] []];
   Element "Command" [("name", "leaf"); ("inherits", "base")] [argumentRef "to"]].

(** The command [leaf] of [mixedCommands] after the inheritance resolver
    and the discards, before its children are built. *)
Definition mixedResolved : Obj :=
  [(KStr "name", VStr "leaf");
   (KStr "_", VStr "Command");
   (KStr "_children",
    VArr [VObj [(KStr "_", VStr "Arguments")]; VObj [(KStr "_", VStr "Options")]])].



(** A converter whose spec writes the text of an element under the label
    of its descendants. *)
Definition oneLabelConverter : XpathConverterImpl :=
  {| spec := JObj [("labels", JObj [("text", JStr "_children")])];
     Specs_fallBack := Specs_default;
     CollectionTypePlaceHolder := "<type>";
     CollectionTypeLabel := "type";
     EmptyElementInfo :=
       {| id := None; recurse := None; discards := None; descendants := None |};
     moment_isValid := sampleMoment;
     objectToString := fun _ => "[object Object]";
     xpath_select := fun _ _ => OK None |}.

(** The commands of [mixedCommands] with a text in the second. *)
Definition mixedCommandsWithText : list Node :=
  [Element "Command" [("name", "base")]
     [Element "Arguments" [] []; Element "Options" [] []];
   Element "Command" [("name", "leaf"); ("inherits", "base")]
     [argumentRef "to"; CharacterData TextNode "copies"]].

(* ================================================================== *)
(** * Properties *)

Arguments fetchSpecOption : simpl never.
Arguments matcherPath : simpl never.
Arguments transformAssoc : simpl never.
Arguments assocPairStep : simpl never.
Arguments JsString.split : simpl never.

(* ------------------------------------------------------------------ *)
(** ** The string and number primitives on examples *)

Example Number_1 : JsNumber.Number "1" = Some (JsNumber.ofN 1).
Proof. reflexivity. Qed.
Example Number_empty : JsNumber.Number "" = Some (JsNumber.ofN 0).
Proof. reflexivity. Qed.
Example Number_dec : JsNumber.Number " -12.50e1 " = Some (JsNumber.Finite true 125 0).
Proof. reflexivity. Qed.
Example Number_hex : JsNumber.Number "0x1F" = Some (JsNumber.ofN 31).
Proof. reflexivity. Qed.
(** One number has one value, however it is written. *)
Example Number_one_value :
  JsNumber.Number "0x64" = JsNumber.Number "100"
  /\ JsNumber.Number "1e2" = JsNumber.Number "100"
  /\ JsNumber.Number "100" = Some (JsNumber.Finite false 1 2).
Proof. repeat split; vm_compute; reflexivity. Qed.
(** A literal that no double holds is read as the nearest double, the even
    one of two that are as near; beyond the largest double it is infinite. *)
Example Number_rounds :
  JsNumber.Number "9007199254740993" = Some (JsNumber.Finite false 9007199254740992 0)
  /\ JsNumber.Number "0x20000000000001" = JsNumber.Number "9007199254740992"
  /\ JsNumber.Number "0.1000000000000000055511151231257827"
     = Some (JsNumber.Finite false 1 (-1))
  /\ JsNumber.Number "1e400" = Some (JsNumber.Infinite false).
Proof. repeat split; vm_compute; reflexivity. Qed.
Example Number_nan : JsNumber.Number "leaf" = None.
Proof. reflexivity. Qed.
Example Number_dot : JsNumber.Number "." = None.
Proof. reflexivity. Qed.
Example toString_1 : JsNumber.toString (JsNumber.Finite false 125 (-1)) = "12.5".
Proof. reflexivity. Qed.
Example split_csv : JsString.split "," "a,,b," = ["a"; ""; "b"; ""].
Proof. reflexivity. Qed.
Example split_empty : JsString.split "," "" = [""].
Proof. reflexivity. Qed.

(* ------------------------------------------------------------------ *)
(** ** Objects *)

Lemma keyEqb_eq (a b : PropKey) : keyEqb a b = true -> a = b.
Proof.
  destruct a as [x|[] x], b as [y|[] y]; simpl; try discriminate;
    intros H; apply String.eqb_eq in H; now subst.
Qed.

Lemma keyEqb_sym (a b : PropKey) : keyEqb a b = keyEqb b a.
Proof.
  destruct a as [x|[] x], b as [y|[] y]; simpl; auto using String.eqb_sym.
Qed.

Lemma keyEqb_str_refl (s : string) : keyEqb (KStr s) (KStr s) = true.
Proof. simpl. apply String.eqb_refl. Qed.

Lemma get_set_same (k k' : PropKey) (v : Value) (o : Obj) :
  keyEqb k k' = true -> get k (set k' v o) = Some v.
Proof.
  intros Hk. pose proof (keyEqb_eq _ _ Hk) as ->.
  induction o as [|[k1 v1] o IH]; simpl.
  - now rewrite Hk.
  - destruct (keyEqb k' k1) eqn:E; simpl; rewrite E; auto.
Qed.

Lemma get_set_other (k k' : PropKey) (v : Value) (o : Obj) :
  keyEqb k k' = false -> get k (set k' v o) = get k o.
Proof.
  intros Hk. induction o as [|[k1 v1] o IH]; simpl.
  - now rewrite Hk.
  - destruct (keyEqb k' k1) eqn:E; simpl.
    + apply keyEqb_eq in E. subst k1. now rewrite Hk.
    + now rewrite IH.
Qed.

Lemma has_set_other (k k' : PropKey) (v : Value) (o : Obj) :
  keyEqb k k' = false -> has k (set k' v o) = has k o.
Proof. intros H. unfold has. now rewrite get_set_other. Qed.

Lemma uniqueKeys_set (k : PropKey) (v : Value) (o : Obj) :
  uniqueKeys o = true -> uniqueKeys (set k v o) = true.
Proof.
  induction o as [|[k1 v1] o IH]; simpl; intros H.
  - reflexivity.
  - apply andb_true_iff in H as [H1 H2].
    destruct (keyEqb k k1) eqn:E; simpl.
    + now rewrite H1, H2.
    + rewrite has_set_other by (now rewrite keyEqb_sym).
      now rewrite H1, IH.
Qed.

Lemma uniqueKeys_assign (a b : Obj) :
  uniqueKeys a = true -> uniqueKeys (assign a b) = true.
Proof.
  unfold assign. revert a.
  induction b as [|[k v] b IH]; simpl; intros a H; auto using uniqueKeys_set.
Qed.

Lemma uniqueKeys_mergeAll (objs : list Obj) : uniqueKeys (R_mergeAll objs) = true.
Proof.
  unfold R_mergeAll.
  assert (G : forall acc, uniqueKeys acc = true ->
                          uniqueKeys (fold_left assign objs acc) = true).
  { induction objs as [|o objs IH]; simpl; intros acc H; auto using uniqueKeys_assign. }
  now apply G.
Qed.

Lemma get_assign (k : PropKey) (a b : Obj) :
  uniqueKeys b = true ->
  get k (assign a b) = match get k b with Some v => Some v | None => get k a end.
Proof.
  unfold assign. revert a.
  induction b as [|[k1 v1] b IH]; simpl; intros a H; [reflexivity|].
  apply andb_true_iff in H as [H1 H2]. rewrite IH by assumption.
  destruct (keyEqb k k1) eqn:E.
  - pose proof (keyEqb_eq _ _ E) as <-.
    unfold has in H1. destruct (get k b); [discriminate|].
    now apply get_set_same.
  - now rewrite get_set_other.
Qed.

Lemma assign_nil_l_get (k : PropKey) (a : Obj) :
  uniqueKeys a = true -> get k (assign [] a) = get k a.
Proof. intros H. rewrite get_assign by assumption. now destruct (get k a). Qed.

Lemma get_mergeAll2 (k : PropKey) (a b : Obj) :
  uniqueKeys a = true -> uniqueKeys b = true ->
  get k (R_mergeAll [a; b])
  = match get k b with Some v => Some v | None => get k a end.
Proof.
  intros Ha Hb. unfold R_mergeAll. simpl.
  rewrite get_assign by assumption. now rewrite assign_nil_l_get.
Qed.

Lemma get_filter_none (k : PropKey) (f : PropKey * Value -> bool) (o : Obj) :
  get k o = None -> get k (filter f o) = None.
Proof.
  induction o as [|[k1 v1] o IH]; simpl; auto.
  destruct (keyEqb k k1) eqn:E; [discriminate|].
  intros H. destruct (f (k1, v1)); simpl; [rewrite E|]; auto.
Qed.

Lemma uniqueKeys_filter (f : PropKey * Value -> bool) (o : Obj) :
  uniqueKeys o = true -> uniqueKeys (filter f o) = true.
Proof.
  induction o as [|[k1 v1] o IH]; simpl; auto.
  intros H. apply andb_true_iff in H as [H1 H2].
  destruct (f (k1, v1)); simpl; auto.
  rewrite IH by assumption. unfold has in *.
  destruct (get k1 o) eqn:E; [discriminate|].
  now rewrite get_filter_none.
Qed.

Lemma get_dissoc_other (k : PropKey) (d : string) (o : Obj) :
  keyEqb k (KStr d) = false -> get k (R_dissoc d o) = get k o.
Proof.
  intros Hk. unfold R_dissoc.
  induction o as [|[k1 v1] o IH]; [reflexivity|].
  cbn [filter fst]. destruct (keyEqb (KStr d) k1) eqn:E; cbn [negb get].
  - apply keyEqb_eq in E. subst k1. rewrite Hk. exact IH.
  - now rewrite IH.
Qed.

Lemma get_dissoc_same (d : string) (o : Obj) : get (KStr d) (R_dissoc d o) = None.
Proof.
  unfold R_dissoc. induction o as [|[k1 v1] o IH]; [reflexivity|].
  cbn [filter fst]. destruct (keyEqb (KStr d) k1) eqn:E; cbn [negb get]; auto.
  now rewrite E.
Qed.

Lemma get_removeDiscards (k : PropKey) (discards : list string) (o : Obj) :
  (forall d, In d discards -> keyEqb k (KStr d) = false) ->
  get k (removeDiscards discards o) = get k o.
Proof.
  unfold removeDiscards. revert o.
  induction discards as [|d ds IH]; simpl; intros o H; auto.
  rewrite IH by auto. apply get_dissoc_other. auto.
Qed.

Lemma uniqueKeys_removeDiscards (discards : list string) (o : Obj) :
  uniqueKeys o = true -> uniqueKeys (removeDiscards discards o) = true.
Proof.
  unfold removeDiscards. revert o.
  induction discards as [|d ds IH]; simpl; intros o H; auto.
  apply IH. now apply uniqueKeys_filter.
Qed.

Lemma inStrings_keys (k : string) (o : Obj) : inStrings k (R_keys o) = has (KStr k) o.
Proof.
  unfold inStrings, R_keys, has.
  induction o as [|[[s|g s] v] o IH]; simpl; auto.
  destruct (String.eqb k s); simpl; auto.
Qed.

(* ------------------------------------------------------------------ *)
(** ** Merging built elements *)

Lemma prop_VObj (k : string) (o : Obj) :
  prop k (VObj o) = match get (KStr k) o with Some x => x | None => VUndefined end.
Proof. reflexivity. Qed.

Lemma attachDescendants_inherited (label : string) (element : Obj)
  (children inherited : list Value) :
  get (KStr label) element = Some (VArr inherited) ->
  attachDescendants label element children
  = OK (set (KStr label) (VArr (children ++ inherited)) element).
Proof.
  intros H. unfold attachDescendants.
  rewrite inStrings_keys, prop_VObj. unfold has. now rewrite H.
Qed.

Lemma attachDescendants_fresh (label : string) (element : Obj) (children : list Value) :
  get (KStr label) element = None ->
  attachDescendants label element children
  = OK (set (KStr label) (VArr children) element).
Proof.
  intros H. unfold attachDescendants. rewrite inStrings_keys. unfold has. now rewrite H.
Qed.

Lemma doMergeElements_both (this : XpathConverterImpl) (label : string) (a b : Obj)
  (xs ys : list Value) :
  descendantsLabelOf this = Some label ->
  get (KStr label) a = Some (VArr xs) -> get (KStr label) b = Some (VArr ys) ->
  doMergeElements this a b
  = OK (set (KStr label) (VArr (xs ++ ys)) (R_mergeAll [a; b])).
Proof.
  intros Hl Ha Hb. unfold doMergeElements. rewrite Hl, !inStrings_keys, !prop_VObj.
  unfold has. now rewrite Ha, Hb.
Qed.

(** C3. A pairwise merge of two built elements that both hold a list under
    the descendants label holds the concatenation of the two lists there;
    no merge that returns has lost an entry of either operand's list; and
    the merge of newly built children with the list an element already
    holds is a concatenation as well. *)
Theorem doMergeElements_keeps_descendants (this : XpathConverterImpl)
  (label : string) (a b : Obj) :
  descendantsLabelOf this = Some label ->
  uniqueKeys a = true -> uniqueKeys b = true ->
  (forall xs ys,
      get (KStr label) a = Some (VArr xs) -> get (KStr label) b = Some (VArr ys) ->
      exists merged, doMergeElements this a b = OK merged
                     /\ get (KStr label) merged = Some (VArr (xs ++ ys)))
  /\ (forall merged, doMergeElements this a b = OK merged ->
        (forall xs, get (KStr label) a = Some (VArr xs) ->
                    exists zs, get (KStr label) merged = Some (VArr zs) /\ incl xs zs)
        /\ (forall ys, get (KStr label) b = Some (VArr ys) ->
                    exists zs, get (KStr label) merged = Some (VArr zs) /\ incl ys zs))
  /\ (forall element children inherited,
        get (KStr label) element = Some (VArr inherited) ->
        exists attached, attachDescendants label element children = OK attached
                         /\ get (KStr label) attached = Some (VArr (children ++ inherited))).
Proof.
  intros Hl Ua Ub. split; [|split].
  - intros xs ys Ha Hb. eexists. split.
    + eapply doMergeElements_both; eassumption.
    + apply get_set_same, keyEqb_str_refl.
  - intros merged Hm.
    unfold doMergeElements in Hm. rewrite Hl, !inStrings_keys, !prop_VObj in Hm.
    unfold has in Hm.
    destruct (get (KStr label) a) as [x|] eqn:Ha, (get (KStr label) b) as [y|] eqn:Hb;
      simpl in Hm.
    + destruct x, y; simpl in Hm; try discriminate; injection Hm as <-; split.
      * intros xs [=].
      * intros ys [=].
      * intros xs [= <-]. eexists. split;
          [apply get_set_same, keyEqb_str_refl | apply incl_appl, incl_refl].
      * intros ys [= <-]. eexists. split;
          [apply get_set_same, keyEqb_str_refl | apply incl_appr, incl_refl].
    + injection Hm as <-. rewrite get_mergeAll2, Ha, Hb by assumption. split.
      * intros xs [= ->]. eexists. split; [reflexivity | apply incl_refl].
      * intros ys [=].
    + injection Hm as <-. rewrite get_mergeAll2, Hb by assumption. split.
      * intros xs [=].
      * intros ys [= ->]. eexists. split; [reflexivity | apply incl_refl].
    + injection Hm as <-. split; intros ? [=].
  - intros element children inherited He. eexists. split.
    + eapply attachDescendants_inherited; eassumption.
    + apply get_set_same, keyEqb_str_refl.
Qed.

Lemma doMergeElements_keeps_descendants_witness :
  exists merged,
    doMergeElements defaultConverter
      [(KStr "name", VStr "duo"); (KStr "_children", VArr [VStr "from"; VStr "to"])]
      [(KStr "name", VStr "uni"); (KStr "_children", VArr [VStr "path"])]
    = OK merged
    /\ get (KStr "_children") merged
       = Some (VArr ([VStr "from"; VStr "to"] ++ [VStr "path"])).
Proof.
  apply (proj1 (@doMergeElements_keeps_descendants defaultConverter "_children"
                  [(KStr "name", VStr "duo");
                   (KStr "_children", VArr [VStr "from"; VStr "to"])]
                  [(KStr "name", VStr "uni"); (KStr "_children", VArr [VStr "path"])]
                  eq_refl eq_refl eq_refl));
    reflexivity.
Defined.

(* ------------------------------------------------------------------ *)
(** ** The dispatch of [coerceAttributeValue] *)

Lemma someMatcher_skip (this : XpathConverterImpl) (subject rawValue : string)
  (pre rest : list string) :
  Forall (softFails this subject rawValue) pre ->
  someMatcher this (pre ++ rest) subject rawValue
  = someMatcher this rest subject rawValue.
Proof.
  induction 1 as [|mt pre (t & r & Ht & Hr & Hs) _ IH]; simpl; auto.
  rewrite Ht. simpl. rewrite Hr. simpl. now rewrite Hs.
Qed.

Lemma fetch_set_by_spec (this : XpathConverterImpl) (path : string) (v : Json)
  (fallBack : bool) :
  specSets this (JsString.split "/" path) v -> v <> JNull ->
  fetchSpecOption this path fallBack = Some v.
Proof.
  unfold specSets, fetchSpecOption. intros -> Hv.
  destruct fallBack; auto. destruct v; simpl; auto. contradiction.
Qed.

(** C4. The matchers of the configured set are tried in the order of the
    set and the first that succeeds gives the result; when every matcher
    fails without raising, the result is the raw string; and when the spec
    sets the string option to [false], the string matcher, once reached,
    raises the solicited error. *)
Theorem coerceAttributeValue_dispatch (this : XpathConverterImpl)
  (subject rawValue attributeName : string) (matchers : list (string * Json)) :
  (forall pre mt post transform result,
      map fst matchers = pre ++ mt :: post ->
      Forall (softFails this subject rawValue) pre ->
      getTransformer this (JsString.toLowerCase mt) = OK transform ->
      transform subject rawValue attributes_ = OK result ->
      succeeded result = true ->
      coerceAttributeValue this subject (Some (JObj matchers)) rawValue attributeName
      = OK (value result))
  /\ (Forall (softFails this subject rawValue) (map fst matchers) ->
      coerceAttributeValue this subject (Some (JObj matchers)) rawValue attributeName
      = OK (VStr rawValue))
  /\ (forall pre mt post,
      map fst matchers = pre ++ mt :: post ->
      Forall (softFails this subject rawValue) pre ->
      JsString.toLowerCase mt = "string" ->
      specSets this ["coercion"; "attributes"; "matchers"; "string"] (JBool false) ->
      coerceAttributeValue this subject (Some (JObj matchers)) rawValue attributeName
      = Throw (JaxSolicitedError TerminatedByStringMatcher subject)).
Proof.
  unfold coerceAttributeValue. cbn [isObject keysOf]. repeat split.
  - intros pre mt post t r -> Hpre Ht Hr Hs.
    rewrite someMatcher_skip by assumption. simpl.
    rewrite Ht. simpl. rewrite Hr. simpl. now rewrite Hs.
  - intros H. rewrite <- (app_nil_r (map fst matchers)).
    now rewrite someMatcher_skip.
  - intros pre mt post -> Hpre Hmt Hset.
    rewrite someMatcher_skip by assumption. simpl. rewrite Hmt. simpl.
    unfold transformString.
    rewrite (@fetch_set_by_spec this (matcherPath attributes_ "string") (JBool false) true);
      [reflexivity | exact Hset | discriminate].
Qed.

Lemma coerceAttributeValue_dispatch_witness :
  coerceAttributeValue strictConverter "/Commands/Command/[@name]"
    (fetchSpecOption strictConverter "coercion/attributes/matchers" true)
    "leaf" "name"
  = Throw (JaxSolicitedError TerminatedByStringMatcher "/Commands/Command/[@name]").
Proof.
  apply (proj2 (proj2 (@coerceAttributeValue_dispatch strictConverter
                         "/Commands/Command/[@name]" "leaf" "name"
                         [("primitives", JArr [JStr "number"; JStr "boolean"]);
                          ("string", JBool false)]))
           ["primitives"] "string" []).
  - reflexivity.
  - constructor; [|constructor].
    exists (transformPrimitives strictConverter), {| value := VNull; succeeded := false |}.
    repeat split; reflexivity.
  - reflexivity.
  - reflexivity.
Defined.

(* ------------------------------------------------------------------ *)
(** ** The transformers answer without fuel *)

Lemma bind_not_OutOfFuel {A B} (m : Result A) (k : A -> Result B) :
  m <> OutOfFuel -> (forall a, k a <> OutOfFuel) -> bind m k <> OutOfFuel.
Proof. destruct m; simpl; auto. discriminate. Qed.

Lemma transformNumber_answers s v c : transformNumber s v c <> OutOfFuel.
Proof. unfold transformNumber. destruct (JsNumber.Number v); discriminate. Qed.

Lemma transformBoolean_answers s v c : transformBoolean s v c <> OutOfFuel.
Proof. unfold transformBoolean. destruct (_ || _); discriminate. Qed.

Lemma transformSymbol_answers this s v c : transformSymbol this s v c <> OutOfFuel.
Proof.
  unfold transformSymbol.
  destruct (fetchSpecOption this (matcherPath c "symbol/prefix") true) as [[]|];
    discriminate.
Qed.

Lemma transformString_answers this s v c : transformString this s v c <> OutOfFuel.
Proof. unfold transformString. destruct (negb _); discriminate. Qed.

Lemma scalarTransformer_answers this nm s v c :
  scalarTransformer this nm s v c <> OutOfFuel.
Proof.
  unfold scalarTransformer.
  repeat match goal with |- context [if ?b then _ else _] => destruct b end;
    auto using transformNumber_answers, transformBoolean_answers,
      transformSymbol_answers, transformString_answers.
Qed.

Lemma someAssoc_answers this vals s c v : someAssoc this vals s c v <> OutOfFuel.
Proof.
  induction vals as [|val vals IH]; cbn [someAssoc]; [discriminate|].
  destruct val; try discriminate.
  destruct (inStrings _ _); [|discriminate].
  apply bind_not_OutOfFuel; [apply scalarTransformer_answers|].
  intros r. destruct (succeeded r); [discriminate | exact IH].
Qed.

Lemma transformAssoc_answers this s t c v : transformAssoc this s t c v <> OutOfFuel.
Proof.
  unfold transformAssoc.
  destruct t as [[]|]; try discriminate; apply someAssoc_answers.
Qed.

Lemma assocPairStep_answers this s c d kt vt acc pair :
  assocPairStep this s c d kt vt acc pair <> OutOfFuel.
Proof.
  unfold assocPairStep. destruct d as [[]|]; try discriminate. cbn [bind].
  destruct (JsString.split _ pair) as [|k [|v [|]]]; try discriminate.
  apply bind_not_OutOfFuel; [apply transformAssoc_answers|]. intros rk.
  apply bind_not_OutOfFuel; [apply transformAssoc_answers|]. intros rv.
  destruct (_ && _); discriminate.
Qed.

(* ------------------------------------------------------------------ *)
(** ** Associative collections *)

Lemma reduceM_app {A B} (f : B -> A -> Result B) (acc : B) (xs ys : list A) :
  reduceM f acc (xs ++ ys) = bind (reduceM f acc xs) (fun acc' => reduceM f acc' ys).
Proof.
  revert acc. induction xs as [|x xs IH]; simpl; intros acc; [reflexivity|].
  destruct (f acc x); simpl; auto.
Qed.

Lemma reduceM_reaches_throw {A B} (f : B -> A -> Result B) (pre post : list A) (x : A) :
  (forall acc y, f acc y <> OutOfFuel) ->
  (forall acc, exists e, f acc x = Throw e) ->
  forall acc, exists e, reduceM f acc (pre ++ x :: post) = Throw e.
Proof.
  intros Hf Hx. induction pre as [|p pre IH]; simpl; intros acc.
  - destruct (Hx acc) as [e ->]. now exists e.
  - destruct (f acc p) eqn:E; simpl.
    + apply IH.
    + now exists e.
    + now apply Hf in E.
Qed.

Lemma assocPairStep_malformed this subject context delim kt vt acc seg :
  List.length (JsString.split delim seg) <> 2 ->
  assocPairStep this subject context (Some (JStr delim)) kt vt acc seg
  = Throw (JaxParseError (MalformedMapEntry seg) subject).
Proof.
  intros H. unfold assocPairStep. cbn [bind].
  destruct (JsString.split delim seg) as [|k [|v [|]]]; simpl in H; congruence.
Qed.

Lemma assocPairStep_coerces this subject context delim acc pair :
  entryCoerces this subject context delim pair ->
  exists acc',
    assocPairStep this subject context (Some (JStr delim))
      (fetchSpecOption this (matcherPath context "collection/assoc/keyType") true)
      (fetchSpecOption this (matcherPath context "collection/assoc/valueType") true)
      acc pair = OK acc'.
Proof.
  intros (k & v & rk & rv & Hs & Hk & Hv). unfold assocPairStep. cbn [bind].
  rewrite Hs, Hk. cbn [bind]. rewrite Hv. cbn [bind].
  destruct (_ && _); eauto.
Qed.

(** C7. A segment of an associative collection that does not split in
    exactly two parts on the inner delimiter makes the transformer raise:
    it never returns a result, with or without the entry. The exception is
    the parse error naming the segment whenever the coercion of the entries
    before it has raised nothing. *)
Theorem transformAssociativeCollection_malformed (this : XpathConverterImpl)
  (subject : string) (context : ContextType) (collectionType delim : string)
  (pre post : list string) (seg : string) :
  fetchSpecOption this (matcherPath context "collection/assoc/delim") true
  = Some (JStr delim) ->
  List.length (JsString.split delim seg) <> 2 ->
  (exists e,
      transformAssociativeCollection this subject context collectionType
        (pre ++ seg :: post) = Throw e)
  /\ (Forall (entryCoerces this subject context delim) pre ->
      transformAssociativeCollection this subject context collectionType
        (pre ++ seg :: post)
      = Throw (JaxParseError (MalformedMapEntry seg) subject)).
Proof.
  intros Hd Hseg. unfold transformAssociativeCollection. rewrite Hd. split.
  - destruct (@reduceM_reaches_throw _ _
                (assocPairStep this subject context (Some (JStr delim))
                   (fetchSpecOption this (matcherPath context "collection/assoc/keyType") true)
                   (fetchSpecOption this (matcherPath context "collection/assoc/valueType") true))
                pre post seg) with (acc := @nil Value) as [e He].
    + intros; apply assocPairStep_answers.
    + intros acc. eexists. now apply assocPairStep_malformed.
    + exists e. now rewrite He.
  - intros Hpre. rewrite reduceM_app.
    assert (G : forall acc, exists acc',
               reduceM (assocPairStep this subject context (Some (JStr delim))
                   (fetchSpecOption this (matcherPath context "collection/assoc/keyType") true)
                   (fetchSpecOption this (matcherPath context "collection/assoc/valueType") true))
                 acc pre = OK acc').
    { induction Hpre as [|p pre Hp _ IH]; simpl; intros acc; eauto.
      destruct (assocPairStep_coerces acc Hp) as [acc' ->]. simpl. apply IH. }
    destruct (G []) as [acc' ->]. simpl.
    now rewrite assocPairStep_malformed.
Qed.

Lemma transformAssociativeCollection_malformed_witness :
  transformAssociativeCollection defaultConverter "/Commands/Command/[@map]"
    attributes_ "Map" (["a=1"] ++ "b" :: ["c=3"])
  = Throw (JaxParseError (MalformedMapEntry "b") "/Commands/Command/[@map]").
Proof.
  apply (proj2 (@transformAssociativeCollection_malformed defaultConverter
                  "/Commands/Command/[@map]" attributes_ "Map" "="
                  ["a=1"] ["c=3"] "b" eq_refl ltac:(vm_compute; discriminate))).
  constructor; [|constructor].
  exists "a", "1", {| value := VStr "a"; succeeded := true |},
    {| value := VStr "1"; succeeded := true |}.
  repeat split; reflexivity.
Defined.

(** A map literal with a segment that has no inner delimiter, through the
    whole transformer. *)
Example malformed_map_literal :
  transformCollection defaultConverter "/Commands/Command/[@map]" "!<Map>[a=1,b]"
    attributes_
  = Throw (JaxParseError (MalformedMapEntry "b") "/Commands/Command/[@map]")
  /\ transformCollection defaultConverter "/Commands/Command/[@map]" "!<Map>[a=1,b=2]"
       attributes_
     = OK {| value := VColl "map" [VArr [VStr "a"; VStr "1"]; VArr [VStr "b"; VStr "2"]];
             succeeded := true |}.
Proof. split; reflexivity. Qed.

(* ------------------------------------------------------------------ *)
(** ** Unary collections *)

Lemma mapM_app {A B} (f : A -> Result B) (xs ys : list A) :
  mapM f (xs ++ ys)
  = bind (mapM f xs) (fun us => bind (mapM f ys) (fun vs => OK (us ++ vs))).
Proof.
  induction xs as [|x xs IH]; simpl.
  - destruct (mapM f ys); reflexivity.
  - destruct (f x); simpl; auto. rewrite IH.
    destruct (mapM f xs); simpl; auto. destruct (mapM f ys); reflexivity.
Qed.

Lemma mapM_total {A B} (f : A -> Result B) (g : A -> B) (xs : list A) :
  Forall (fun x => f x = OK (g x)) xs -> mapM f xs = OK (map g xs).
Proof. induction 1 as [|x xs Hx _ IH]; simpl; auto. now rewrite Hx, IH. Qed.

Lemma somePrimitive_typed (vals : list Json) (subject v : string) (c : ContextType) :
  Forall (fun val => val = JStr "number" \/ val = JStr "boolean") vals ->
  exists r, somePrimitive vals subject v c = OK r.
Proof.
  induction 1 as [|val vals [-> | ->] _ [r IH]]; cbn [somePrimitive]; eauto.
  - unfold callWithoutThis. cbn [String.eqb Ascii.eqb Bool.eqb].
    unfold transformNumber. destruct (JsNumber.Number v); simpl; eauto.
  - unfold callWithoutThis. cbn [String.eqb Ascii.eqb Bool.eqb].
    unfold transformBoolean. destruct (_ || _); simpl; eauto.
Qed.

(** A unary collection whose items are none of the two words
    [transformPrimitives] rejects: every item is run through the primitives,
    an item they do not coerce is kept as the string it is, and the result
    reports success. *)
Lemma transformUnaryCollection_items (this : XpathConverterImpl) (subject : string)
  (context : ContextType) (vals : list Json) (items : list string) :
  fetchSpecOption this (matcherPath context "primitives") true = Some (JArr vals) ->
  Forall (fun val => val = JStr "number" \/ val = JStr "boolean") vals ->
  Forall (fun item => inStrings (JsString.toLowerCase item)
                        ["primitives"; "collection"] = false) items ->
  transformUnaryCollection this subject context items
  = OK {| value := VArr (map (keptItem this subject context) items);
          succeeded := true |}.
Proof.
  intros Hp Hv Hi. unfold transformUnaryCollection.
  rewrite (@mapM_total _ _ _ (keptItem this subject context)); [reflexivity|].
  eapply Forall_impl; [|exact Hi]. intros item Hitem. cbn beta.
  unfold keptItem, transformPrimitives. rewrite Hp, Hitem.
  destruct (somePrimitive_typed subject item context Hv) as [r ->]. reflexivity.
Qed.

(** An item that reads [primitives] or [collection], in any case, makes the
    whole collection raise a configuration error. *)
Lemma transformUnaryCollection_reserved (this : XpathConverterImpl) (subject : string)
  (context : ContextType) (vals : list Json) (pre post : list string) (item : string) :
  fetchSpecOption this (matcherPath context "primitives") true = Some (JArr vals) ->
  Forall (fun val => val = JStr "number" \/ val = JStr "boolean") vals ->
  Forall (fun item => inStrings (JsString.toLowerCase item)
                        ["primitives"; "collection"] = false) pre ->
  inStrings (JsString.toLowerCase item) ["primitives"; "collection"] = true ->
  transformUnaryCollection this subject context (pre ++ item :: post)
  = Throw (JaxConfigError (PrimitivesCannotContain item) subject).
Proof.
  intros Hp Hv Hpre Hitem. unfold transformUnaryCollection. rewrite mapM_app.
  rewrite (@mapM_total _ _ _ (keptItem this subject context)).
  - cbn [bind mapM]. unfold transformPrimitives at 1. now rewrite Hitem.
  - eapply Forall_impl; [|exact Hpre]. intros x Hx. cbn beta.
    unfold keptItem, transformPrimitives. rewrite Hp, Hx.
    destruct (somePrimitive_typed subject x context Hv) as [r ->]. reflexivity.
Qed.

(** C8. With the default spec the literal [!<[]>[1,2,3,4]] becomes the
    array of the four numbers, with success; but a unary collection does not
    always report success: the literal [!<[]>[alpha,collection]] raises a
    configuration error instead of keeping the two words as strings. *)
Theorem transformCollection_unary_default :
  transformCollection defaultConverter "/Commands/Command/[@tags]"
    "!<[]>[1,2,3,4]" attributes_
  = OK {| value := VArr [VNum (JsNumber.ofN 1); VNum (JsNumber.ofN 2);
                         VNum (JsNumber.ofN 3); VNum (JsNumber.ofN 4)];
          succeeded := true |}
  /\ transformCollection defaultConverter "/Commands/Command/[@tags]"
       "!<[]>[alpha,collection]" attributes_
     = Throw (JaxConfigError (PrimitivesCannotContain "collection")
                "/Commands/Command/[@tags]").
Proof. split; reflexivity. Qed.

(** The same word as the value of a plain attribute: the element is not
    built. *)
Example attribute_value_collection :
  coerceAttributeValue defaultConverter "/Commands/Command/[@kind]"
    (fetchSpecOption defaultConverter "coercion/attributes/matchers" true)
    "Collection" "kind"
  = Throw (JaxConfigError (PrimitivesCannotContain "Collection")
             "/Commands/Command/[@kind]").
Proof. reflexivity. Qed.

(* ------------------------------------------------------------------ *)
(** ** Re-keying the descendants *)

Lemma existsb_app_true {A} (f : A -> bool) (xs ys : list A) :
  existsb f ys = true -> existsb f (xs ++ ys) = true.
Proof. intros H. rewrite existsb_app, H. apply orb_true_r. Qed.

Lemma find_first {A} (f : A -> bool) (l : list A) (x : A) :
  find f l = Some x ->
  exists pre post, l = pre ++ x :: post /\ f x = true
                   /\ forall y, In y pre -> f y = false.
Proof.
  induction l as [|a l IH]; simpl; [discriminate|].
  destruct (f a) eqn:E.
  - intros [= ->]. exists [], l. repeat split; auto. intros y [].
  - intros H. destruct (IH H) as (pre & post & -> & Hx & Hpre).
    exists (a :: pre), post. repeat split; auto.
    intros y [<- | Hy]; auto.
Qed.

Lemma checkCollisions_raises (id subject : string) (ds : list Value) :
  forall acc l1 y l3,
    ds = l1 ++ y :: l3 ->
    R_includes (prop id y) (acc ++ map (prop id) l1) = true ->
    exists pre val post,
      ds = pre ++ val :: post
      /\ R_includes (prop id val) (acc ++ map (prop id) pre) = true
      /\ checkCollisions id subject acc ds
         = Throw (JaxSolicitedError (ElementCollision val) subject).
Proof.
  induction ds as [|d ds IH]; intros acc l1 y l3 Hds Hin.
  - destruct l1; discriminate.
  - cbn [checkCollisions].
    destruct (R_includes (prop id d) acc) eqn:E.
    + exists [], d, ds. cbn [app map]. rewrite app_nil_r. auto.
    + destruct l1 as [|x l1]; simpl in Hds; injection Hds as -> ->.
      * simpl in Hin. rewrite app_nil_r in Hin. congruence.
      * destruct (IH (acc ++ [prop id x]) l1 y l3 eq_refl)
          as (pre & val & post & -> & Hval & ->).
        -- now rewrite <- app_assoc.
        -- exists (x :: pre), val, post. cbn [app map].
           rewrite <- app_assoc in Hval. auto.
Qed.

Lemma get_fold_set_other (this : XpathConverterImpl) (id : string) (k : PropKey)
  (post : list Value) (acc : Obj) :
  (forall x, In x post -> keyEqb k (toPropertyKey this (prop id x)) = false) ->
  get k (fold_left (fun acc elem => set (toPropertyKey this (prop id elem)) elem acc)
           post acc)
  = get k acc.
Proof.
  revert acc. induction post as [|x post IH]; simpl; intros acc H; [reflexivity|].
  rewrite IH by auto. apply get_set_other. auto.
Qed.

(** The entry a key maps to after [R.indexBy] is the last one of the list
    that has the key. *)
Lemma R_indexBy_last (this : XpathConverterImpl) (id : string)
  (pre post : list Value) (val : Value) (k : PropKey) :
  keyEqb k (toPropertyKey this (prop id val)) = true ->
  (forall x, In x post -> keyEqb k (toPropertyKey this (prop id x)) = false) ->
  get k (R_indexBy this id (pre ++ val :: post)) = Some val.
Proof.
  intros Hk Hpost. unfold R_indexBy. rewrite fold_left_app. cbn [fold_left].
  rewrite get_fold_set_other by assumption. now apply get_set_same.
Qed.

(** Descendants declared [by: index], as lines 791-826 treat them. With
    [throwIfMissing], two descendants with one identifier raise the
    solicited collision error, which names an entry whose identifier an
    earlier entry has, and nothing is re-keyed; without it the list is
    re-keyed and a key holds the last entry that has it; and when one of
    the children just built lacks the identifier attribute nothing is
    re-keyed, the solicited error that names the first such child being
    raised with [throwIfMissing] only. The test of line 794 reads the
    children just built, [children]; what line 810 re-keys is the list
    under the descendants label, [ds], which holds the inherited entries
    too. *)
Theorem processDescendants_index (this : XpathConverterImpl) (subject label : string)
  (info : IElementInfo) (policy : Descendants) (element : Obj)
  (children ds : list Value) :
  descendants info = Some policy ->
  by_ policy = Some "index" ->
  get (KStr label) element = Some (VArr ds) ->
  (isTrue (throwIfMissing policy) = true ->
   forallb (R_has (keyOf (id info))) children = true ->
   forall l1 x l2 y l3,
     ds = l1 ++ x :: l2 ++ y :: l3 ->
     R_equals (prop (keyOf (id info)) x) (prop (keyOf (id info)) y) = true ->
     exists pre val post,
       ds = pre ++ val :: post
       /\ R_includes (prop (keyOf (id info)) val) (map (prop (keyOf (id info))) pre) = true
       /\ processDescendants this subject label info element children
          = Throw (JaxSolicitedError (ElementCollision val) subject))
  /\ (isTrue (throwIfMissing policy) = false ->
      forallb (R_has (keyOf (id info))) children = true ->
      processDescendants this subject label info element children
      = OK (set (KStr label) (VObj (R_indexBy this (keyOf (id info)) ds)) element)
      /\ forall pre val post k,
          ds = pre ++ val :: post ->
          keyEqb k (toPropertyKey this (prop (keyOf (id info)) val)) = true ->
          (forall z, In z post ->
                     keyEqb k (toPropertyKey this (prop (keyOf (id info)) z)) = false) ->
          get k (R_indexBy this (keyOf (id info)) ds) = Some val)
  /\ (forallb (R_has (keyOf (id info))) children = false ->
      if isTrue (throwIfMissing policy)
      then exists pre missing post,
          children = pre ++ missing :: post
          /\ forallb (R_has (keyOf (id info))) pre = true
          /\ R_has (keyOf (id info)) missing = false
          /\ processDescendants this subject label info element children
             = Throw (JaxSolicitedError
                        (MissingKeyAttribute (keyOf (id info)) missing) subject)
      else processDescendants this subject label info element children = OK element).
Proof.
  intros Hpol Hby Hds. unfold processDescendants.
  rewrite Hpol, Hby, prop_VObj, Hds. cbn [arrayItems String.eqb Ascii.eqb Bool.eqb].
  split; [|split].
  - intros Ht Hall l1 x l2 y l3 -> Heq. rewrite Hall, Ht.
    destruct (@checkCollisions_raises (keyOf (id info)) subject
                (l1 ++ x :: l2 ++ y :: l3) [] (l1 ++ x :: l2) y l3)
      as (pre & val & post & Hsplit & Hin & ->).
    + now rewrite <- app_assoc.
    + cbn [app]. unfold R_includes. rewrite map_app. apply existsb_app_true.
      cbn [map existsb]. now rewrite Heq.
    + exists pre, val, post. repeat split; assumption.
  - intros Ht Hall. rewrite Hall, Ht. split; [reflexivity|].
    intros pre val post k -> Hk Hpost. now apply R_indexBy_last.
  - intros Hall. rewrite Hall.
    destruct (isTrue (throwIfMissing policy)); [|reflexivity].
    destruct (find (fun c => negb (R_has (keyOf (id info)) c)) children) as [m|] eqn:F.
    + destruct (find_first _ _ F) as (pre & post & Hsplit & Hm & Hpre).
      exists pre, m, post. repeat split; auto.
      * apply forallb_forall. intros c Hc. apply negb_false_iff. auto.
      * now apply negb_true_iff in Hm.
    + exfalso. assert (G : forallb (R_has (keyOf (id info))) children = true).
      { apply forallb_forall. intros c Hc.
        pose proof (find_none _ _ F c Hc) as N. now apply negb_false_iff in N. }
      congruence.
Qed.

Lemma processDescendants_index_witness :
  (exists pre val post,
      [builtArgument "from" "first"; builtArgument "to" "only";
       builtArgument "from" "second"] = pre ++ val :: post
      /\ R_includes (prop "name" val) (map (prop "name") pre) = true
      /\ processDescendants defaultConverter "/Commands/Command" "_children"
           (commandInfo false true)
           [(KStr "name", VStr "copy");
            (KStr "_children",
             VArr [builtArgument "from" "first"; builtArgument "to" "only";
                   builtArgument "from" "second"])]
           [builtArgument "from" "first"; builtArgument "to" "only";
            builtArgument "from" "second"]
         = Throw (JaxSolicitedError (ElementCollision val) "/Commands/Command"))
  /\ get (KStr "from")
       (R_indexBy defaultConverter "name"
          [builtArgument "from" "first"; builtArgument "to" "only";
           builtArgument "from" "second"])
     = Some (builtArgument "from" "second").
Proof.
  split.
  - apply (proj1 (@processDescendants_index defaultConverter "/Commands/Command"
                    "_children" (commandInfo false true) _
                    [(KStr "name", VStr "copy");
                     (KStr "_children",
                      VArr [builtArgument "from" "first"; builtArgument "to" "only";
                            builtArgument "from" "second"])]
                    [builtArgument "from" "first"; builtArgument "to" "only";
                     builtArgument "from" "second"]
                    [builtArgument "from" "first"; builtArgument "to" "only";
                     builtArgument "from" "second"]
                    eq_refl eq_refl eq_refl)
             eq_refl eq_refl
             [] (builtArgument "from" "first") [builtArgument "to" "only"]
             (builtArgument "from" "second") [] eq_refl eq_refl).
  - apply (proj2 (proj1 (proj2 (@processDescendants_index defaultConverter
                    "/Commands/Command" "_children" (commandInfo false false) _
                    [(KStr "name", VStr "copy");
                     (KStr "_children",
                      VArr [builtArgument "from" "first"; builtArgument "to" "only";
                            builtArgument "from" "second"])]
                    [builtArgument "from" "first"; builtArgument "to" "only";
                     builtArgument "from" "second"]
                    [builtArgument "from" "first"; builtArgument "to" "only";
                     builtArgument "from" "second"]
                    eq_refl eq_refl eq_refl)) eq_refl eq_refl)
             [builtArgument "from" "first"; builtArgument "to" "only"]
             (builtArgument "from" "second") [] (KStr "from") eq_refl eq_refl).
    intros z [].
Defined.

(** C9. Descendants declared [by: index] of which one lacks the identifier
    attribute are to be left as they are. The code tests the children just
    built only and re-keys the whole list: the command [leaf] of
    [mixedCommands] has one child, which has a name, and inherits two
    entries that have none; under the parse info of the tests, where
    [throwIfMissing] is off, its descendants are re-keyed all the same, the
    two entries without a name are filed under one key, [undefined], and
    the first of them is lost. *)
Theorem inherited_without_identifier_are_rekeyed :
  let children := [VObj [(KStr "name", VStr "to"); (KStr "_", VStr "ArgumentRef")]] in
  let inherited :=
    [VObj [(KStr "_", VStr "Arguments")]; VObj [(KStr "_", VStr "Options")]] in
  buildElement defaultConverter 2 (commandAt mixedCommands 0) testParseInfo []
  = OK [(KStr "name", VStr "base");
        (KStr "_", VStr "Command");
        (KStr "_children", VArr inherited)]
  /\ forallb (R_has "name") children = true
  /\ forallb (R_has "name") (children ++ inherited) = false
  /\ processDescendants defaultConverter "/Cli/Commands/Command" "_children"
       (commandInfo false false)
       (set (KStr "_children") (VArr (children ++ inherited)) mixedResolved) children
     = OK (set (KStr "_children")
             (VObj (R_indexBy defaultConverter "name" (children ++ inherited)))
             mixedResolved)
  /\ buildElement defaultConverter 3 (commandAt mixedCommands 1) testParseInfo []
     = OK [(KStr "name", VStr "leaf");
           (KStr "_", VStr "Command");
           (KStr "_children",
            VObj [(KStr "to",
                   VObj [(KStr "name", VStr "to"); (KStr "_", VStr "ArgumentRef")]);
                  (KStr "undefined", VObj [(KStr "_", VStr "Options")])])].
Proof. cbv zeta. repeat split; vm_compute; reflexivity. Qed.

(* ------------------------------------------------------------------ *)
(** ** The flag [throwIfCollision] *)

Lemma buildElement_S (this : XpathConverterImpl) (fuel : nat) (elementNode : Located)
  (parseInfo : IParseInfo) (previouslySeen : list Value) :
  buildElement this (S fuel) elementNode parseInfo previouslySeen
  = let subject := composeElementPath elementNode in
    let* element := buildLocalAttributes this subject (node elementNode) in
    let* elementLabel := fetchString this "labels/element" in
    let element := set (KStr elementLabel) (VStr (nodeName (node elementNode))) element in
    let info := getElementInfo this (VStr (nodeName (node elementNode))) parseInfo in
    let recurse := stringOr "" (recurse info) in
    let discards := match discards info with Some d => d | None => [] end in
    let* element :=
      if negb (String.eqb recurse "") && isElement (node elementNode)
      then recurseThroughAttribute this (buildElement this fuel) subject element
             elementNode parseInfo previouslySeen
      else OK element in
    let element := removeDiscards discards element in
    if hasChildNodes (node elementNode)
    then buildChildren this (buildElement this fuel) subject element elementNode
           parseInfo previouslySeen
    else OK element.
Proof. reflexivity. Qed.

Lemma mapM_ext {A B} (f g : A -> Result B) (xs : list A) :
  (forall x, f x = g x) -> mapM f xs = mapM g xs.
Proof. intros H. induction xs as [|x xs IH]; simpl; auto. now rewrite H, IH. Qed.

Lemma lookup_map {A B} (f : A -> B) (k : string) (l : list (string * A)) :
  lookup k (map (fun e => (fst e, f (snd e))) l) = option_map f (lookup k l).
Proof.
  induction l as [|[k' v] l IH]; simpl; auto. destruct (String.eqb k k'); auto.
Qed.

Lemma getElementInfo_flag (this : XpathConverterImpl) (name : Value) (p q : IParseInfo) :
  differOnlyInThrowIfCollision p q ->
  infoWithoutCollisionFlag (getElementInfo this name p)
  = infoWithoutCollisionFlag (getElementInfo this name q).
Proof.
  unfold differOnlyInThrowIfCollision, parseInfoWithoutCollisionFlag. intros [= He _ Hd].
  unfold getElementInfo.
  assert (L : forall nm, option_map infoWithoutCollisionFlag (lookup nm (elements p))
                         = option_map infoWithoutCollisionFlag (lookup nm (elements q))).
  { intros nm. now rewrite <- !lookup_map, He. }
  assert (F : option_map infoWithoutCollisionFlag
                match name with VStr nm => lookup nm (elements p) | _ => None end
              = option_map infoWithoutCollisionFlag
                match name with VStr nm => lookup nm (elements q) | _ => None end).
  { destruct name; auto. }
  destruct (match name with VStr nm => lookup nm (elements p) | _ => None end),
    (match name with VStr nm => lookup nm (elements q) | _ => None end);
    cbn [option_map] in F; try discriminate; [congruence|].
  destruct (def p), (def q); cbn [option_map] in Hd; try discriminate;
    [congruence | reflexivity].
Qed.

Lemma processDescendants_flag (this : XpathConverterImpl) (subject label : string)
  (i j : IElementInfo) (element : Obj) (children : list Value) :
  infoWithoutCollisionFlag i = infoWithoutCollisionFlag j ->
  processDescendants this subject label i element children
  = processDescendants this subject label j element children.
Proof.
  destruct i as [i1 i2 i3 [di|]], j as [j1 j2 j3 [dj|]]; cbn; intros [=]; subst;
    try reflexivity.
  destruct di, dj; cbn in *; subst. reflexivity.
Qed.

Lemma recurseThroughAttribute_flag (this : XpathConverterImpl) (b1 b2 : Builder)
  (subject : string) (element : Obj) (elementNode : Located) (p q : IParseInfo)
  (previouslySeen : list Value) :
  differOnlyInThrowIfCollision p q ->
  (forall l seen, b1 l p seen = b2 l q seen) ->
  recurseThroughAttribute this b1 subject element elementNode p previouslySeen
  = recurseThroughAttribute this b2 subject element elementNode q previouslySeen.
Proof.
  intros Hpq Hb. unfold recurseThroughAttribute.
  pose proof (getElementInfo_flag this (VStr (nodeName (node elementNode))) Hpq) as Hi.
  destruct (getElementInfo this (VStr (nodeName (node elementNode))) p) as [i1 i2 i3 i4],
    (getElementInfo this (VStr (nodeName (node elementNode))) q) as [j1 j2 j3 j4].
  injection Hi as -> -> -> _. cbn [id recurse].
  assert (E : forall seen at_,
             buildInherited this b1 subject (nodeName (node elementNode)) (keyOf j1)
               elementNode p seen at_
             = buildInherited this b2 subject (nodeName (node elementNode)) (keyOf j1)
                 elementNode q seen at_).
  { intros seen at_. unfold buildInherited.
    destruct (selectElementNodeById _ _ _ _ _) as [[found|]| |]; cbn [bind]; auto. }
  rewrite E.
  rewrite (mapM_ext _ _ _ (E (previouslySeen ++ [identifierOf (keyOf j1) element]))).
  reflexivity.
Qed.

Lemma buildChildren_flag (this : XpathConverterImpl) (b1 b2 : Builder)
  (subject : string) (element : Obj) (elementNode : Located) (p q : IParseInfo)
  (previouslySeen : list Value) :
  differOnlyInThrowIfCollision p q ->
  (forall l seen, b1 l p seen = b2 l q seen) ->
  buildChildren this b1 subject element elementNode p previouslySeen
  = buildChildren this b2 subject element elementNode q previouslySeen.
Proof.
  intros Hpq Hb. unfold buildChildren.
  rewrite (@mapM_ext _ _
             (fun c => b1 (childOf elementNode c) p previouslySeen)
             (fun c => b2 (childOf elementNode c) q previouslySeen)) by (intros; apply Hb).
  destruct (childElements (node elementNode)); [reflexivity|].
  destruct (mapM _ _) as [kids| |]; cbn [bind]; try reflexivity.
  destruct (fetchString this "labels/descendants") as [dl| |]; cbn [bind];
    try reflexivity.
  destruct (attachDescendants _ _ _) as [attached| |]; cbn [bind]; try reflexivity.
  destruct (fetchString this "labels/element") as [el| |]; cbn [bind]; try reflexivity.
  rewrite (@processDescendants_flag this subject dl _ _ attached (map VObj kids)
             (getElementInfo_flag this (prop el (VObj attached)) Hpq)).
  reflexivity.
Qed.

(** C10. Two runs of [buildElement] whose parse infos differ in the flag
    [throwIfCollision] only give the same outcome: the same built element,
    or the same exception. *)
Theorem buildElement_ignores_throwIfCollision (this : XpathConverterImpl)
  (p q : IParseInfo) :
  differOnlyInThrowIfCollision p q ->
  forall fuel elementNode previouslySeen,
    buildElement this fuel elementNode p previouslySeen
    = buildElement this fuel elementNode q previouslySeen.
Proof.
  intros Hpq. induction fuel as [|fuel IH]; intros l seen; [reflexivity|].
  rewrite !buildElement_S. cbv zeta.
  destruct (buildLocalAttributes this (composeElementPath l) (node l)); cbn [bind];
    try reflexivity.
  destruct (fetchString this "labels/element"); cbn [bind]; try reflexivity.
  pose proof (getElementInfo_flag this (VStr (nodeName (node l))) Hpq) as Hi.
  destruct (getElementInfo this (VStr (nodeName (node l))) p) as [i1 i2 i3 i4] eqn:Ep,
    (getElementInfo this (VStr (nodeName (node l))) q) as [j1 j2 j3 j4] eqn:Eq.
  injection Hi as -> -> -> _. cbn [recurse discards].
  assert (R : forall element,
             recurseThroughAttribute this (buildElement this fuel)
               (composeElementPath l) element l p seen
             = recurseThroughAttribute this (buildElement this fuel)
                 (composeElementPath l) element l q seen).
  { intros element. now apply recurseThroughAttribute_flag. }
  rewrite R.
  match goal with |- bind ?m _ = _ => destruct m end; cbn [bind]; try reflexivity.
  destruct (hasChildNodes (node l)); [|reflexivity].
  now apply buildChildren_flag.
Qed.

Lemma buildElement_ignores_throwIfCollision_witness :
  buildElement defaultConverter 3
    (commandAt twinChildren 0)
    (commandParseInfo true true) []
  = buildElement defaultConverter 3
      (commandAt twinChildren 0)
      (commandParseInfo false true) [].
Proof.
  apply (@buildElement_ignores_throwIfCollision defaultConverter
           (commandParseInfo true true) (commandParseInfo false true) eq_refl).
Defined.

(** Both runs of the witness end in the collision error: the flag that
    decides is [throwIfMissing]. *)
Example throwIfCollision_is_not_read :
  buildElement defaultConverter 3
    (commandAt twinChildren 0)
    (commandParseInfo false true) []
  = Throw (JaxSolicitedError
             (ElementCollision
                (VObj [(KStr "name", VStr "from"); (KStr "kind", VStr "second");
                       (KStr "_", VStr "Command")]))
             "/Cli/Commands/Command")
  /\ exists built,
      buildElement defaultConverter 3
        (commandAt twinChildren 0)
        (commandParseInfo true false) []
      = OK built.
Proof. split; [reflexivity | eexists; reflexivity]. Qed.

(* ------------------------------------------------------------------ *)
(** ** Children and inherited descendants *)

Lemma filter_idem {A} (f : A -> bool) (l : list A) : filter f (filter f l) = filter f l.
Proof.
  induction l as [|x l IH]; simpl; auto.
  destruct (f x) eqn:E; simpl; [rewrite E, IH|]; auto.
Qed.

Lemma childElements_filter (n : Node) :
  filter isElement (childElements n) = childElements n.
Proof. apply filter_idem. Qed.

Lemma buildChildren_with_children (this : XpathConverterImpl) (build : Builder)
  (subject : string) (element : Obj) (elementNode : Located) (parseInfo : IParseInfo)
  (previouslySeen : list Value) :
  childElements (node elementNode) <> [] ->
  buildChildren this build subject element elementNode parseInfo previouslySeen
  = let* element :=
      (let* children :=
         mapM (fun childElement =>
                 build (childOf elementNode childElement) parseInfo previouslySeen)
              (childElements (node elementNode)) in
       let children := map VObj children in
       let* descendantsLabel := fetchString this "labels/descendants" in
       let* element := attachDescendants descendantsLabel element children in
       let* elementLabel := fetchString this "labels/element" in
       let elementInfo :=
         getElementInfo this (prop elementLabel (VObj element)) parseInfo in
       processDescendants this subject descendantsLabel elementInfo element children) in
    attachText this (node elementNode) element.
Proof.
  intros H. unfold buildChildren. rewrite childElements_filter.
  destruct (childElements (node elementNode)); [contradiction | reflexivity].
Qed.

Lemma processDescendants_no_policy (this : XpathConverterImpl) (subject label : string)
  (info : IElementInfo) (element : Obj) (children : list Value) :
  descendants info = None ->
  processDescendants this subject label info element children = OK element.
Proof. intros H. unfold processDescendants. now rewrite H. Qed.

Lemma attachText_get (this : XpathConverterImpl) (n : Node) (element result : Obj)
  (k : PropKey) :
  attachText this n element = OK result ->
  (forall textLabel, fetchString this "labels/text" = OK textLabel ->
                     keyEqb k (KStr textLabel) = false) ->
  get k result = get k element.
Proof.
  unfold attachText. intros H Hk.
  destruct (negb _); [|now injection H as <-].
  destruct (fetchString this "labels/text") as [tl| |]; cbn [bind] in H; try discriminate.
  injection H as <-. apply get_set_other. auto.
Qed.






(** The text of an element is written after its descendants: under a spec
    that gives the text the label of the descendants, the text takes the
    place of the list. *)
Example text_under_the_descendants_label :
  buildElement oneLabelConverter 3 (commandAt mixedCommandsWithText 1) inheritParseInfo []
  = OK [(KStr "name", VStr "leaf");
        (KStr "_", VStr "Command");
        (KStr "_children", VStr "copies")].
Proof. reflexivity. Qed.

(** The command [test] built from the start: its own arguments come before
    the inherited ones. *)
Example test_command_children :
  exists result,
    buildElement defaultConverter 4 (commandAt argumentCommands 1) inheritParseInfo []
    = OK result
    /\ get (KStr "_children") result
       = Some (VArr [VObj (builtArguments ["config"; "expr"]);
                     VObj (builtArguments ["from"; "to"])]).
Proof. eexists. split; [vm_compute; reflexivity | reflexivity]. Qed.

(* ------------------------------------------------------------------ *)
(** ** Elements without inheritance *)

Lemma recurseThroughAttribute_noop (this : XpathConverterImpl) (build : Builder)
  (subject : string) (element : Obj) (elementNode : Located) (parseInfo : IParseInfo)
  (previouslySeen : list Value) :
  let info := getElementInfo this (VStr (nodeName (node elementNode))) parseInfo in
  let identifier := identifierOf (keyOf (id info)) element in
  (identifier = VStr ""
   \/ (getAttribute (stringOr "" (recurse info)) (node elementNode) = ""
       /\ R_includes identifier previouslySeen = false)) ->
  recurseThroughAttribute this build subject element elementNode parseInfo previouslySeen
  = OK element.
Proof.
  intros info identifier H. unfold recurseThroughAttribute.
  fold info. fold identifier.
  destruct H as [-> | [Ha Hs]]; [reflexivity|].
  destruct (isEmptyString identifier); [reflexivity|].
  destruct (negb (String.eqb (stringOr "" (recurse info)) "")); [|reflexivity].
  rewrite Hs, Ha. reflexivity.
Qed.

(** C6, as the code has it. An element with no recurse attribute
    configured, or whose built identifier is absent or the empty string, or
    whose recurse attribute is absent or empty while its identifier has not
    been seen before, is built from its local attributes and its element
    name, with the keys of the discards of its tag removed, and then its
    children and text; the inheritance resolver merges nothing. *)
Theorem buildElement_without_inheritance (this : XpathConverterImpl) (fuel : nat)
  (elementNode : Located) (parseInfo : IParseInfo) (previouslySeen : list Value) :
  let info := getElementInfo this (VStr (nodeName (node elementNode))) parseInfo in
  (forall local elementLabel,
      buildLocalAttributes this (composeElementPath elementNode) (node elementNode)
      = OK local ->
      fetchString this "labels/element" = OK elementLabel ->
      let element :=
        set (KStr elementLabel) (VStr (nodeName (node elementNode))) local in
      let identifier := identifierOf (keyOf (id info)) element in
      stringOr "" (recurse info) = ""
      \/ identifier = VStr ""
      \/ (getAttribute (stringOr "" (recurse info)) (node elementNode) = ""
          /\ R_includes identifier previouslySeen = false)) ->
  buildElement this (S fuel) elementNode parseInfo previouslySeen
  = builtLocallyWithoutDiscards this fuel elementNode parseInfo previouslySeen.
Proof.
  intros info H. rewrite buildElement_S. unfold builtLocallyWithoutDiscards. cbv zeta.
  destruct (buildLocalAttributes this (composeElementPath elementNode) (node elementNode))
    as [local| |] eqn:El; cbn [bind]; try reflexivity.
  destruct (fetchString this "labels/element") as [elementLabel| |] eqn:Ef; cbn [bind];
    try reflexivity.
  fold info. specialize (H local elementLabel eq_refl eq_refl). cbv zeta in H.
  destruct H as [H | H].
  - rewrite H. reflexivity.
  - destruct (negb _ && _); [|reflexivity].
    rewrite recurseThroughAttribute_noop by exact H. reflexivity.
Qed.

Lemma buildElement_without_inheritance_witness :
  buildElement defaultConverter 1 abstractCommand flatParseInfo []
  = builtLocallyWithoutDiscards defaultConverter 0 abstractCommand flatParseInfo [].
Proof.
  apply (@buildElement_without_inheritance defaultConverter 0 abstractCommand
           flatParseInfo []).
  intros local elementLabel _ _. left. reflexivity.
Defined.

(** The element of the witness: the attribute [abstract] is among the
    discards of the tag and is not in the result. *)
Example abstractCommand_built :
  buildElement defaultConverter 1 abstractCommand flatParseInfo []
  = OK [(KStr "name", VStr "base"); (KStr "_", VStr "Command")]
  /\ builtLocally defaultConverter 0 abstractCommand flatParseInfo []
     = OK [(KStr "name", VStr "base"); (KStr "abstract", VBool true);
           (KStr "_", VStr "Command")].
Proof. split; reflexivity. Qed.

(** The sentence as it is written does not hold: the element above is a
    counterexample. *)
Lemma no_inheritance_as_specified_fails : ~ no_inheritance_as_specified.
Proof.
  intros H.
  specialize (H defaultConverter 0%nat abstractCommand flatParseInfo []
                (or_introl eq_refl)).
  discriminate H.
Qed.

(** The empty identifier is not empty once it is coerced: [Number("")] is
    zero, and the element inherits. *)
Example empty_identifier_inherits :
  buildElement defaultConverter 2
    (commandAt [Element "Command" [("name", "base"); ("filter", "alpha")] [];
                Element "Command" [("name", ""); ("inherits", "base")] []] 1)
    testParseInfo []
  = OK [(KStr "name", VNum (JsNumber.ofN 0)); (KStr "filter", VStr "alpha");
        (KStr "_", VStr "Command")].
Proof. reflexivity. Qed.

(** An element without a recurse attribute whose identifier has been seen
    is not built. *)
Example seen_identifier_without_recurse :
  buildElement defaultConverter 1
    (commandAt [Element "Command" [("name", "base")] []] 0) testParseInfo [VStr "base"]
  = Throw (JaxConfigError (CircularReference (VStr "base")) "/Cli/Commands/Command").
Proof. reflexivity. Qed.

(* ------------------------------------------------------------------ *)
(** ** Built elements hold each key once *)

Lemma uniqueKeys_fromAttributePairs (pairs : list (string * Value)) :
  uniqueKeys (fromAttributePairs pairs) = true.
Proof.
  unfold fromAttributePairs.
  assert (G : forall acc, uniqueKeys acc = true ->
              uniqueKeys (fold_left (fun acc p => set (KStr (fst p)) (snd p) acc)
                            pairs acc) = true).
  { induction pairs as [|p pairs IH]; simpl; intros acc H; auto using uniqueKeys_set. }
  now apply G.
Qed.

Lemma buildLocalAttributes_uniqueKeys (this : XpathConverterImpl) (subject : string)
  (n : Node) (local : Obj) :
  buildLocalAttributes this subject n = OK local -> uniqueKeys local = true.
Proof.
  unfold buildLocalAttributes.
  destruct (truthy (fetchSpecOption this "labels/attributes" false)).
  - destruct (mapM _ _); cbn [bind]; try discriminate.
    destruct (fetchSpecOption this "labels/attributes" false) as [[]|]; try discriminate.
    now intros [= <-].
  - destruct (mapM _ _); cbn [bind]; try discriminate.
    intros [= <-]. apply uniqueKeys_fromAttributePairs.
Qed.

Lemma recurseThroughAttribute_uniqueKeys (this : XpathConverterImpl) (build : Builder)
  (subject : string) (element : Obj) (elementNode : Located) (parseInfo : IParseInfo)
  (previouslySeen : list Value) (resolved : Obj) :
  uniqueKeys element = true ->
  recurseThroughAttribute this build subject element elementNode parseInfo previouslySeen
  = OK resolved ->
  uniqueKeys resolved = true.
Proof.
  intros U. unfold recurseThroughAttribute.
  repeat match goal with
         | |- (if ?b then _ else _) = _ -> _ => destruct b
         | |- bind ?m _ = _ -> _ => destruct m; cbn [bind]
         end;
    try discriminate; intros [= <-]; auto using uniqueKeys_mergeAll.
Qed.

Lemma processDescendants_uniqueKeys (this : XpathConverterImpl) (subject label : string)
  (info : IElementInfo) (element result : Obj) (children : list Value) :
  uniqueKeys element = true ->
  processDescendants this subject label info element children = OK result ->
  uniqueKeys result = true.
Proof.
  intros U. unfold processDescendants.
  destruct (descendants info) as [policy|]; [|now intros [= <-]].
  destruct (by_ policy) as [how|]; [|now intros [= <-]].
  repeat match goal with
         | |- (if ?b then _ else _) = _ -> _ => destruct b
         | |- bind ?m _ = _ -> _ => destruct m; cbn [bind]
         end;
    try discriminate; intros [= <-]; auto using uniqueKeys_set.
Qed.

Lemma buildChildren_uniqueKeys (this : XpathConverterImpl) (build : Builder)
  (subject : string) (element : Obj) (elementNode : Located) (parseInfo : IParseInfo)
  (previouslySeen : list Value) (result : Obj) :
  uniqueKeys element = true ->
  buildChildren this build subject element elementNode parseInfo previouslySeen
  = OK result ->
  uniqueKeys result = true.
Proof.
  intros U. unfold buildChildren.
  assert (T : forall e r, uniqueKeys e = true ->
                          attachText this (node elementNode) e = OK r ->
                          uniqueKeys r = true).
  { intros e r Ue. unfold attachText. destruct (negb _); [|now intros [= <-]].
    destruct (fetchString this "labels/text"); cbn [bind]; try discriminate.
    intros [= <-]. now apply uniqueKeys_set. }
  destruct (childElements (node elementNode)); cbn [bind]; [now apply T|].
  destruct (mapM _ _) as [kids| |]; cbn [bind]; try discriminate.
  destruct (fetchString this "labels/descendants") as [dl| |]; cbn [bind];
    try discriminate.
  destruct (attachDescendants dl element (map VObj kids)) as [attached| |] eqn:A;
    cbn [bind]; try discriminate.
  destruct (fetchString this "labels/element") as [el| |]; cbn [bind]; try discriminate.
  destruct (processDescendants _ _ _ _ _ _) as [processed| |] eqn:P; cbn [bind];
    try discriminate.
  apply T. eapply processDescendants_uniqueKeys; [|exact P].
  unfold attachDescendants in A. destruct (inStrings dl (R_keys element)).
  - destruct (R_concat _ _); cbn [bind] in A; try discriminate.
    injection A as <-. now apply uniqueKeys_set.
  - injection A as <-. now apply uniqueKeys_set.
Qed.

Lemma buildElement_uniqueKeys (this : XpathConverterImpl) (fuel : nat)
  (elementNode : Located) (parseInfo : IParseInfo) (previouslySeen : list Value)
  (result : Obj) :
  buildElement this fuel elementNode parseInfo previouslySeen = OK result ->
  uniqueKeys result = true.
Proof.
  destruct fuel as [|fuel]; [discriminate|]. rewrite buildElement_S. cbv zeta.
  destruct (buildLocalAttributes _ _ _) as [local| |] eqn:L; cbn [bind]; try discriminate.
  destruct (fetchString this "labels/element") as [el| |]; cbn [bind]; try discriminate.
  pose proof (@uniqueKeys_set (KStr el) (VStr (nodeName (node elementNode))) local
                (@buildLocalAttributes_uniqueKeys _ _ _ _ L)) as U.
  match goal with |- bind ?m _ = _ -> _ => destruct m as [resolved| |] eqn:R end;
    cbn [bind]; try discriminate.
  assert (Ur : uniqueKeys resolved = true).
  { destruct (negb _ && _).
    - eapply recurseThroughAttribute_uniqueKeys; [exact U | exact R].
    - now injection R as <-. }
  destruct (hasChildNodes (node elementNode)).
  - apply buildChildren_uniqueKeys. now apply uniqueKeys_removeDiscards.
  - intros [= <-]. now apply uniqueKeys_removeDiscards.
Qed.

(* ------------------------------------------------------------------ *)
(** ** Precedence among inherited and local attributes *)

Lemma descendantsLabelOf_fetchString (this : XpathConverterImpl) (label : string) :
  fetchString this "labels/descendants" = OK label ->
  descendantsLabelOf this = Some label.
Proof.
  unfold fetchString, descendantsLabelOf.
  destruct (fetchSpecOption this "labels/descendants" true) as [[]|]; try discriminate.
  now intros [= ->].
Qed.

Lemma doMergeElements_get (this : XpathConverterImpl) (label : string) (a b m : Obj)
  (k : PropKey) :
  descendantsLabelOf this = Some label ->
  uniqueKeys a = true -> uniqueKeys b = true ->
  doMergeElements this a b = OK m ->
  uniqueKeys m = true
  /\ (keyEqb k (KStr label) = false ->
      get k m = match get k b with Some v => Some v | None => get k a end).
Proof.
  intros Hl Ua Ub. unfold doMergeElements. rewrite Hl.
  destruct (_ && _).
  - destruct (R_concat _ _); cbn [bind]; try discriminate. intros [= <-]. split.
    + apply uniqueKeys_set, uniqueKeys_mergeAll.
    + intros Hk. rewrite get_set_other by assumption. now apply get_mergeAll2.
  - intros [= <-]. split; [apply uniqueKeys_mergeAll | intros _; now apply get_mergeAll2].
Qed.

Lemma reduce_doMergeElements_get (this : XpathConverterImpl) (label : string)
  (k : PropKey) (bases : list Obj) :
  descendantsLabelOf this = Some label ->
  Forall (fun b => uniqueKeys b = true) bases ->
  forall acc merged,
    uniqueKeys acc = true ->
    reduceM (doMergeElements this) acc bases = OK merged ->
    uniqueKeys merged = true
    /\ (keyEqb k (KStr label) = false ->
        get k merged
        = match latestDefining k bases with Some v => Some v | None => get k acc end).
Proof.
  intros Hl Hb. induction Hb as [|b bases Ub _ IH]; cbn [reduceM latestDefining];
    intros acc merged Ua.
  - intros [= <-]. now split.
  - destruct (doMergeElements this acc b) as [m1| |] eqn:E; cbn [bind]; try discriminate.
    destruct (@doMergeElements_get this label acc b m1 k Hl Ua Ub E) as [U1 G1].
    intros R. destruct (IH m1 merged U1 R) as [Um Gm]. split; [assumption|].
    intros Hk. rewrite Gm, G1 by assumption.
    destruct (latestDefining k bases); [reflexivity|]. now destruct (get k b).
Qed.

Lemma doMergeElements_returns (this : XpathConverterImpl) (label : string) (a b : Obj) :
  descendantsLabelOf this = Some label ->
  uniqueKeys a = true -> uniqueKeys b = true ->
  listOrAbsent label a -> listOrAbsent label b ->
  exists m, doMergeElements this a b = OK m
            /\ uniqueKeys m = true /\ listOrAbsent label m.
Proof.
  intros Hl Ua Ub La Lb. unfold doMergeElements, listOrAbsent in *.
  rewrite Hl, !inStrings_keys, !prop_VObj. unfold has.
  destruct La as [Ha | [xs Ha]], Lb as [Hb | [ys Hb]]; rewrite Ha, Hb; cbn [andb bind R_concat];
    eexists; (split; [reflexivity|]); split;
    try apply uniqueKeys_mergeAll;
    try (apply uniqueKeys_set, uniqueKeys_mergeAll);
    try (rewrite get_mergeAll2, Ha, Hb by assumption; eauto).
  right. eexists. apply get_set_same, keyEqb_str_refl.
Qed.

Lemma reduce_doMergeElements_returns (this : XpathConverterImpl) (label : string)
  (bases : list Obj) :
  descendantsLabelOf this = Some label ->
  Forall (fun b => uniqueKeys b = true) bases ->
  Forall (listOrAbsent label) bases ->
  forall acc, uniqueKeys acc = true -> listOrAbsent label acc ->
              exists merged, reduceM (doMergeElements this) acc bases = OK merged.
Proof.
  intros Hl Hu Hb. revert Hu.
  induction Hb as [|b bases Lb _ IH]; intros Hu acc Ua La; cbn [reduceM]; eauto.
  inversion Hu as [|? ? Ub Hu']; subst.
  destruct (@doMergeElements_returns this label acc b Hl Ua Ub La Lb) as (m & -> & Um & Lm).
  cbn [bind]. now apply IH.
Qed.

Lemma splitGo_nonempty (sep : string) (s : string) :
  forall skip cur, JsString.splitGo sep skip cur s <> [].
Proof.
  induction s as [|c s IH]; intros skip cur; cbn [JsString.splitGo]; [discriminate|].
  destruct skip; [|apply IH].
  destruct (JsString.startsWith sep (String c s)); [discriminate | apply IH].
Qed.

Lemma split_comma_nonempty (s : string) : JsString.split "," s <> [].
Proof. unfold JsString.split. apply splitGo_nonempty. Qed.

Lemma mapM_inv_OK {A B} (f : A -> Result B) (xs : list A) (ys : list B) :
  mapM f xs = OK ys -> Forall2 (fun x y => f x = OK y) xs ys.
Proof.
  revert ys. induction xs as [|x xs IH]; simpl; intros ys.
  - intros [= <-]. constructor.
  - destruct (f x) eqn:E; cbn [bind]; try discriminate.
    destruct (mapM f xs); cbn [bind]; try discriminate.
    intros [= <-]. constructor; auto.
Qed.

Lemma buildInherited_all_uniqueKeys (this : XpathConverterImpl) (fuel : nat)
  (subject nodeName id : string) (elementNode : Located) (parseInfo : IParseInfo)
  (seen : list Value) (refs : list string) (bases : list Obj) :
  mapM (buildInherited this (buildElement this fuel) subject nodeName id elementNode
          parseInfo seen) refs = OK bases ->
  Forall (fun b => uniqueKeys b = true) bases.
Proof.
  intros H. apply mapM_inv_OK in H.
  induction H as [|r b refs bases Hb _ IH]; constructor; auto.
  unfold buildInherited in Hb.
  destruct (selectElementNodeById _ _ _ _ _) as [[found|]| |]; cbn [bind] in Hb;
    try discriminate.
  eapply buildElement_uniqueKeys; exact Hb.
Qed.

Lemma recurseThroughAttribute_resolved (this : XpathConverterImpl) (fuel : nat)
  (subject : string) (element : Obj) (elementNode : Located) (parseInfo : IParseInfo)
  (previouslySeen : list Value) (label : string) (bases : list Obj) :
  let info := getElementInfo this (VStr (nodeName (node elementNode))) parseInfo in
  let recurse := stringOr "" (recurse info) in
  let id := keyOf (id info) in
  let identifier := identifierOf id element in
  descendantsLabelOf this = Some label ->
  uniqueKeys element = true ->
  recurse <> "" ->
  isEmptyString identifier = false ->
  R_includes identifier previouslySeen = false ->
  getAttribute recurse (node elementNode) <> "" ->
  mapM (buildInherited this (buildElement this fuel) subject (nodeName (node elementNode)) id
          elementNode parseInfo (previouslySeen ++ [identifier]))
       (JsString.split "," (getAttribute recurse (node elementNode))) = OK bases ->
  (forall resolved,
      recurseThroughAttribute this (buildElement this fuel) subject element elementNode
        parseInfo previouslySeen = OK resolved ->
      uniqueKeys resolved = true
      /\ forall k, keyEqb k (KStr label) = false ->
                   get k resolved
                   = match get k element with
                     | Some v => Some v
                     | None => latestDefining k bases
                     end)
  /\ (Forall (listOrAbsent label) bases ->
      exists resolved,
        recurseThroughAttribute this (buildElement this fuel) subject element elementNode
          parseInfo previouslySeen = OK resolved).
Proof.
  intros info recurse id identifier Hl Ue Hr Hi Hs Ha Hm.
  pose proof (buildInherited_all_uniqueKeys _ _ _ _ _ _ _ _ _ Hm) as Ub.
  unfold recurseThroughAttribute. fold info. fold recurse. fold id. fold identifier.
  rewrite Hi, Hs.
  apply String.eqb_neq in Hr, Ha. rewrite Hr, Ha. cbn [negb].
  destruct (1 <? List.length (JsString.split "," (getAttribute recurse (node elementNode))))%nat
    eqn:Hlen.
  - rewrite Hm. cbn [bind]. split.
    + intros resolved.
      destruct (reduceM (doMergeElements this) [] bases) as [merged| |] eqn:R;
        cbn [bind]; try discriminate.
      intros [= <-]. split; [apply uniqueKeys_mergeAll|]. intros k Hk.
      destruct (@reduce_doMergeElements_get this label k bases Hl Ub [] merged eq_refl R)
        as [Um Gm].
      rewrite get_mergeAll2, Gm by assumption.
      destruct (get k element); [reflexivity|]. now destruct (latestDefining k bases).
    + intros Hb.
      destruct (@reduce_doMergeElements_returns this label bases Hl Ub Hb [] eq_refl)
        as [merged ->]; [now left|].
      cbn [bind]. eauto.
  - pose proof (split_comma_nonempty (getAttribute recurse (node elementNode))) as Hne.
    destruct (JsString.split "," (getAttribute recurse (node elementNode)))
      as [|at_ [|at2 refs]]; [contradiction| |discriminate].
    cbn [hd mapM] in *.
    destruct (buildInherited _ _ _ _ _ _ _ _ at_) as [b| |]; cbn [bind] in *;
      try discriminate.
    injection Hm as <-. inversion Ub as [|? ? Ub1 _]; subst. split.
    + intros resolved [= <-]. split; [apply uniqueKeys_mergeAll|]. intros k _.
      rewrite get_mergeAll2 by assumption. cbn [latestDefining].
      now destruct (get k element).
    + intros _. eauto.
Qed.

Lemma attachDescendants_get (label : string) (element attached : Obj)
  (children : list Value) (k : PropKey) :
  attachDescendants label element children = OK attached ->
  keyEqb k (KStr label) = false ->
  get k attached = get k element.
Proof.
  unfold attachDescendants. intros H Hk.
  destruct (inStrings label (R_keys element)).
  - destruct (R_concat _ _); cbn [bind] in H; try discriminate.
    injection H as <-. now apply get_set_other.
  - injection H as <-. now apply get_set_other.
Qed.

Lemma processDescendants_get (this : XpathConverterImpl) (subject label : string)
  (info : IElementInfo) (element result : Obj) (children : list Value) (k : PropKey) :
  processDescendants this subject label info element children = OK result ->
  keyEqb k (KStr label) = false ->
  get k result = get k element.
Proof.
  unfold processDescendants. intros H Hk.
  destruct (descendants info) as [policy|]; [|now injection H as <-].
  destruct (by_ policy) as [how|]; [|now injection H as <-].
  repeat match type of H with
         | (if ?b then _ else _) = _ => destruct b
         | bind ?m _ = _ => destruct m; cbn [bind] in H
         end;
    try discriminate; injection H as <-; auto using get_set_other.
Qed.

Lemma buildChildren_get (this : XpathConverterImpl) (build : Builder)
  (subject : string) (element result : Obj) (elementNode : Located)
  (parseInfo : IParseInfo) (previouslySeen : list Value)
  (label textLabel : string) (k : PropKey) :
  fetchString this "labels/descendants" = OK label ->
  fetchString this "labels/text" = OK textLabel ->
  keyEqb k (KStr label) = false ->
  keyEqb k (KStr textLabel) = false ->
  buildChildren this build subject element elementNode parseInfo previouslySeen
  = OK result ->
  get k result = get k element.
Proof.
  intros Hl Ht Hk Hkt. unfold buildChildren.
  assert (T : forall e r, attachText this (node elementNode) e = OK r ->
                          get k r = get k e).
  { intros e r Hr. eapply attachText_get; [exact Hr|].
    intros tl Htl. rewrite Ht in Htl. now injection Htl as <-. }
  destruct (childElements (node elementNode)); cbn [bind]; [apply T|].
  destruct (mapM _ _) as [kids| |]; cbn [bind]; try discriminate.
  rewrite Hl. cbn [bind].
  destruct (attachDescendants label element (map VObj kids)) as [attached| |] eqn:A;
    cbn [bind]; try discriminate.
  destruct (fetchString this "labels/element") as [el| |]; cbn [bind]; try discriminate.
  destruct (processDescendants _ _ _ _ _ _) as [processed| |] eqn:P; cbn [bind];
    try discriminate.
  intros Hr. rewrite (T _ _ Hr).
  rewrite (processDescendants_get _ _ _ _ _ _ k P Hk).
  now apply (attachDescendants_get _ _ _ k A).
Qed.

(** C2. An element whose recurse attribute lists references that are all
    found and built: in the built element, a key that is not a label and
    not discarded holds the element's own value when the element defines
    it, and otherwise the value of the latest listed base that defines it;
    and when the bases hold lists or nothing under the descendants label an
    element without child nodes is built. *)
Theorem buildElement_inheritance_precedence (this : XpathConverterImpl) (fuel : nat)
  (elementNode : Located) (parseInfo : IParseInfo) (previouslySeen : list Value)
  (local : Obj) (elementLabel label textLabel : string) (bases : list Obj) :
  let subject := composeElementPath elementNode in
  let element := set (KStr elementLabel) (VStr (nodeName (node elementNode))) local in
  let info := getElementInfo this (VStr (nodeName (node elementNode))) parseInfo in
  let recurse := stringOr "" (recurse info) in
  let discards := match discards info with Some d => d | None => [] end in
  let id := keyOf (id info) in
  let identifier := identifierOf id element in
  isElement (node elementNode) = true ->
  buildLocalAttributes this subject (node elementNode) = OK local ->
  fetchString this "labels/element" = OK elementLabel ->
  fetchString this "labels/descendants" = OK label ->
  fetchString this "labels/text" = OK textLabel ->
  recurse <> "" ->
  isEmptyString identifier = false ->
  R_includes identifier previouslySeen = false ->
  getAttribute recurse (node elementNode) <> "" ->
  mapM (buildInherited this (buildElement this fuel) subject (nodeName (node elementNode)) id
          elementNode parseInfo (previouslySeen ++ [identifier]))
       (JsString.split "," (getAttribute recurse (node elementNode))) = OK bases ->
  (forall result,
      buildElement this (S fuel) elementNode parseInfo previouslySeen = OK result ->
      forall k : string,
        k <> label -> k <> textLabel -> ~ In k discards ->
        get (KStr k) result
        = match get (KStr k) element with
          | Some v => Some v
          | None => latestDefining (KStr k) bases
          end)
  /\ (Forall (listOrAbsent label) bases ->
      hasChildNodes (node elementNode) = false ->
      exists result,
        buildElement this (S fuel) elementNode parseInfo previouslySeen = OK result).
Proof.
  intros subject element info recurse discards id identifier
    He Hloc Hel Hl Ht Hr Hi Hs Ha Hm.
  pose proof (@uniqueKeys_set (KStr elementLabel) (VStr (nodeName (node elementNode)))
                local (@buildLocalAttributes_uniqueKeys _ _ _ _ Hloc)) as Ue.
  destruct (@recurseThroughAttribute_resolved this fuel subject element elementNode
              parseInfo previouslySeen label bases
              (descendantsLabelOf_fetchString _ Hl) Ue Hr Hi Hs Ha Hm) as [P1 P2].
  assert (E : buildElement this (S fuel) elementNode parseInfo previouslySeen
              = let* resolved :=
                  recurseThroughAttribute this (buildElement this fuel) subject element
                    elementNode parseInfo previouslySeen in
                let stripped := removeDiscards discards resolved in
                if hasChildNodes (node elementNode)
                then buildChildren this (buildElement this fuel) subject stripped
                       elementNode parseInfo previouslySeen
                else OK stripped).
  { rewrite buildElement_S. cbv zeta. fold subject. rewrite Hloc. cbn [bind].
    rewrite Hel. cbn [bind]. fold element. fold info. fold recurse. fold discards.
    apply String.eqb_neq in Hr. rewrite Hr, He. reflexivity. }
  split.
  - intros result Hres k Hkl Hkt Hkd. rewrite E in Hres.
    destruct (recurseThroughAttribute this (buildElement this fuel) subject element
                elementNode parseInfo previouslySeen) as [resolved| |] eqn:R;
      cbn [bind] in Hres; try discriminate.
    destruct (P1 resolved eq_refl) as [_ G].
    assert (Hk : keyEqb (KStr k) (KStr label) = false)
      by (cbn [keyEqb]; now apply String.eqb_neq).
    assert (Hk' : keyEqb (KStr k) (KStr textLabel) = false)
      by (cbn [keyEqb]; now apply String.eqb_neq).
    assert (S1 : get (KStr k) (removeDiscards discards resolved) = get (KStr k) resolved).
    { apply get_removeDiscards. intros d Hd. cbn [keyEqb]. apply String.eqb_neq.
      intros ->. contradiction. }
    rewrite <- (G (KStr k) Hk), <- S1.
    destruct (hasChildNodes (node elementNode)).
    + eapply buildChildren_get; eassumption.
    + now injection Hres as <-.
  - intros Hb Hn. destruct (P2 Hb) as [resolved R].
    rewrite E, R, Hn. cbn [bind]. eauto.
Qed.

Lemma buildElement_inheritance_precedence_witness :
  exists result,
    buildElement defaultConverter 2 (commandAt precedenceCommands 2) testParseInfo []
    = OK result
    /\ get (KStr "filter") result = Some (VStr "beta-filter")
    /\ get (KStr "name") result = Some (VStr "leaf").
Proof.
  destruct (@buildElement_inheritance_precedence defaultConverter 1
              (commandAt precedenceCommands 2) testParseInfo []
              [(KStr "name", VStr "leaf");
               (KStr "inherits", VStr "alpha-command,beta-command");
               (KStr "describe", VStr "this is a leaf command")]
              "_" "_children" "_text"
              [namedCommand [("name", "alpha-command"); ("filter", "alpha-filter");
                             ("mode", "auto")];
               namedCommand [("name", "beta-command"); ("filter", "beta-filter")]])
    as [P _]; try reflexivity; try discriminate.
  eexists. split; [reflexivity|]. split.
  - rewrite (P _ eq_refl "filter"); [reflexivity | discriminate | discriminate |].
    cbn. intros [H | [H | []]]; discriminate H.
  - rewrite (P _ eq_refl "name"); [reflexivity | discriminate | discriminate |].
    cbn. intros [H | [H | []]]; discriminate H.
Defined.

(* ------------------------------------------------------------------ *)
(** ** More fuel gives the same answer *)

Lemma bind_answersAs {A B} (m1 m2 : Result A) (k1 k2 : A -> Result B) :
  bind m1 k1 <> OutOfFuel ->
  (m1 <> OutOfFuel -> m2 = m1) ->
  (forall a, m1 = OK a -> k1 a <> OutOfFuel -> k2 a = k1 a) ->
  bind m2 k2 = bind m1 k1.
Proof.
  intros H Hm Hk. destruct m1 as [a| |]; cbn [bind] in *.
  - rewrite Hm by discriminate. cbn [bind]. now apply Hk.
  - now rewrite Hm by discriminate.
  - contradiction.
Qed.

Lemma mapM_answersAs {A B} (f g : A -> Result B) (xs : list A) :
  (forall x, f x <> OutOfFuel -> g x = f x) ->
  mapM f xs <> OutOfFuel -> mapM g xs = mapM f xs.
Proof.
  intros Hfg. induction xs as [|x xs IH]; cbn [mapM]; [reflexivity|].
  intros H. apply bind_answersAs; [assumption | apply Hfg |].
  intros y Hy Hk. apply bind_answersAs; [assumption | | reflexivity].
  intros Hxs. now apply IH.
Qed.

Lemma buildInherited_answersAs (this : XpathConverterImpl) (b1 b2 : Builder)
  (subject nodeName id : string) (elementNode : Located) (parseInfo : IParseInfo) (seen : list Value) (at_ : string) :
  answersAs b1 b2 ->
  buildInherited this b1 subject nodeName id elementNode parseInfo seen at_ <> OutOfFuel ->
  buildInherited this b2 subject nodeName id elementNode parseInfo seen at_
  = buildInherited this b1 subject nodeName id elementNode parseInfo seen at_.
Proof.
  intros Hb. unfold buildInherited.
  destruct (selectElementNodeById _ _ _ _ _) as [[found|]| |]; cbn [bind];
    [apply Hb | reflexivity..].
Qed.

Lemma recurseThroughAttribute_answersAs (this : XpathConverterImpl) (b1 b2 : Builder)
  (subject : string) (element : Obj) (elementNode : Located) (parseInfo : IParseInfo)
  (previouslySeen : list Value) :
  answersAs b1 b2 ->
  recurseThroughAttribute this b1 subject element elementNode parseInfo previouslySeen
  <> OutOfFuel ->
  recurseThroughAttribute this b2 subject element elementNode parseInfo previouslySeen
  = recurseThroughAttribute this b1 subject element elementNode parseInfo previouslySeen.
Proof.
  intros Hb. unfold recurseThroughAttribute.
  repeat match goal with
         | |- (if ?b then _ else _) <> _ -> _ => destruct b; try reflexivity
         end.
  - intros H. apply bind_answersAs; [assumption | | reflexivity].
    apply mapM_answersAs. intros x. now apply buildInherited_answersAs.
  - intros H. apply bind_answersAs; [assumption | | reflexivity].
    now apply buildInherited_answersAs.
Qed.

Lemma buildChildren_answersAs (this : XpathConverterImpl) (b1 b2 : Builder)
  (subject : string) (element : Obj) (elementNode : Located) (parseInfo : IParseInfo)
  (previouslySeen : list Value) :
  answersAs b1 b2 ->
  buildChildren this b1 subject element elementNode parseInfo previouslySeen
  <> OutOfFuel ->
  buildChildren this b2 subject element elementNode parseInfo previouslySeen
  = buildChildren this b1 subject element elementNode parseInfo previouslySeen.
Proof.
  intros Hb. unfold buildChildren.
  destruct (childElements (node elementNode)); [reflexivity|].
  intros H. apply bind_answersAs; [assumption | | reflexivity].
  intros H1. apply bind_answersAs; [assumption | | reflexivity].
  apply mapM_answersAs. intros x. apply Hb.
Qed.

Lemma buildElement_answersAs (this : XpathConverterImpl) (fuel : nat) :
  answersAs (buildElement this fuel) (buildElement this (S fuel)).
Proof.
  induction fuel as [|fuel IH]; intros l parseInfo seen H; [now contradiction H|].
  rewrite (buildElement_S this (S fuel)). rewrite buildElement_S in H |- *.
  cbv zeta in *.
  apply bind_answersAs; [assumption | reflexivity |].
  intros local _ H1. apply bind_answersAs; [assumption | reflexivity |].
  intros el _ H2. apply bind_answersAs; [assumption | |].
  - destruct (negb _ && _); [|reflexivity].
    now apply recurseThroughAttribute_answersAs.
  - intros resolved _. destruct (hasChildNodes (node l)); [|reflexivity].
    now apply buildChildren_answersAs.
Qed.

Lemma buildElement_more_fuel (this : XpathConverterImpl) (n m : nat)
  (l : Located) (parseInfo : IParseInfo) (seen : list Value) :
  n <= m ->
  buildElement this n l parseInfo seen <> OutOfFuel ->
  buildElement this m l parseInfo seen = buildElement this n l parseInfo seen.
Proof.
  induction 1 as [|m Hle IH]; [reflexivity|].
  intros H. rewrite <- (IH H). apply buildElement_answersAs. now rewrite (IH H).
Qed.

(* ------------------------------------------------------------------ *)
(** ** Circular references *)

Lemma buildElement_named (this : XpathConverterImpl) (fuel : nat) (l : Located)
  (parseInfo : IParseInfo) (seen : list Value) (element : Obj) :
  namedElement this l = OK element ->
  isElement (node l) = true ->
  recurseOf this parseInfo l <> "" ->
  buildElement this (S fuel) l parseInfo seen
  = let* resolved :=
      recurseThroughAttribute this (buildElement this fuel) (composeElementPath l)
        element l parseInfo seen in
    let stripped :=
      removeDiscards
        (match discards (infoOf this parseInfo l) with Some d => d | None => [] end)
        resolved in
    if hasChildNodes (node l)
    then buildChildren this (buildElement this fuel) (composeElementPath l) stripped l
           parseInfo seen
    else OK stripped.
Proof.
  unfold namedElement, recurseOf, infoOf. intros Hn He Hr.
  rewrite buildElement_S. cbv zeta.
  destruct (buildLocalAttributes this (composeElementPath l) (node l)) as [local| |];
    cbn [bind] in *; try discriminate.
  destruct (fetchString this "labels/element") as [el| |]; cbn [bind] in *;
    try discriminate.
  injection Hn as <-. apply String.eqb_neq in Hr. now rewrite Hr, He.
Qed.

Lemma recurseThroughAttribute_seen (this : XpathConverterImpl) (build : Builder)
  (subject : string) (element : Obj) (l : Located) (parseInfo : IParseInfo)
  (seen : list Value) :
  recurseOf this parseInfo l <> "" ->
  isEmptyString (identifierOf (idOf this parseInfo l) element) = false ->
  R_includes (identifierOf (idOf this parseInfo l) element) seen = true ->
  stringifies (identifierOf (idOf this parseInfo l) element) = true ->
  recurseThroughAttribute this build subject element l parseInfo seen
  = Throw (JaxConfigError
             (CircularReference (identifierOf (idOf this parseInfo l) element)) subject).
Proof.
  unfold recurseOf, idOf, infoOf. intros Hr Hi Hs Hc. unfold recurseThroughAttribute.
  apply String.eqb_neq in Hr. now rewrite Hi, Hr, Hs, Hc.
Qed.

Lemma mapM_all_OK {A B} (f : A -> Result B) (xs : list A) :
  Forall (fun x => exists y, f x = OK y) xs -> exists ys, mapM f xs = OK ys.
Proof.
  induction 1 as [|x xs [y Hy] _ [ys IH]]; cbn [mapM]; eauto.
  rewrite Hy, IH. cbn [bind]. eauto.
Qed.

Lemma recurseThroughAttribute_through (this : XpathConverterImpl) (build : Builder)
  (element : Obj) (l : Located) (parseInfo : IParseInfo) (seen : list Value)
  (pre post : list string) (at_ : string) (e : JaxError) :
  recurseOf this parseInfo l <> "" ->
  isEmptyString (identifierOf (idOf this parseInfo l) element) = false ->
  R_includes (identifierOf (idOf this parseInfo l) element) seen = false ->
  getAttribute (recurseOf this parseInfo l) (node l) <> "" ->
  JsString.split "," (getAttribute (recurseOf this parseInfo l) (node l))
  = pre ++ at_ :: post ->
  Forall (fun ref =>
            exists base,
              buildInherited this build (composeElementPath l) (nodeName (node l))
                (idOf this parseInfo l) l parseInfo
                (seen ++ [identifierOf (idOf this parseInfo l) element]) ref
              = OK base) pre ->
  buildInherited this build (composeElementPath l) (nodeName (node l))
    (idOf this parseInfo l) l parseInfo
    (seen ++ [identifierOf (idOf this parseInfo l) element]) at_
  = Throw e ->
  recurseThroughAttribute this build (composeElementPath l) element l parseInfo seen
  = Throw e.
Proof.
  unfold recurseOf, idOf, infoOf. intros Hr Hi Hs Ha Hsplit Hpre Hat.
  unfold recurseThroughAttribute.
  apply String.eqb_neq in Hr, Ha. rewrite Hi, Hr, Hs, Ha, Hsplit. cbn [negb].
  destruct (1 <? List.length (pre ++ at_ :: post))%nat eqn:Hlen.
  - rewrite mapM_app. destruct (mapM_all_OK _ Hpre) as [bs ->]. cbn [bind mapM].
    now rewrite Hat.
  - destruct pre as [|p pre]; cbn [app hd].
    + now rewrite Hat.
    + exfalso. apply Nat.ltb_ge in Hlen. cbn [app List.length] in Hlen.
      rewrite length_app in Hlen. cbn [List.length] in Hlen. lia.
Qed.

Lemma buildInherited_more_fuel (this : XpathConverterImpl) (n m : nat)
  (subject nodeName id : string) (l : Located) (parseInfo : IParseInfo)
  (seen : list Value) (ref : string) (base : Obj) :
  n <= m ->
  buildInherited this (buildElement this n) subject nodeName id l parseInfo seen ref = OK base ->
  buildInherited this (buildElement this m) subject nodeName id l parseInfo seen ref = OK base.
Proof.
  unfold buildInherited. intros Hle.
  destruct (selectElementNodeById _ _ _ _ _) as [[found|]| |]; cbn [bind];
    try discriminate.
  intros H. rewrite (buildElement_more_fuel _ _ _ _ Hle); [assumption|].
  rewrite H. discriminate.
Qed.

Lemma enough_fuel_for_all (this : XpathConverterImpl)
  (subject nodeName id : string) (l : Located) (parseInfo : IParseInfo)
  (seen : list Value) (refs : list string) :
  Forall (fun ref =>
            exists fuel base,
              buildInherited this (buildElement this fuel) subject nodeName id l parseInfo
                seen ref = OK base) refs ->
  exists n, forall m, n <= m ->
    Forall (fun ref =>
              exists base,
                buildInherited this (buildElement this m) subject nodeName id l parseInfo
                  seen ref = OK base) refs.
Proof.
  induction 1 as [|ref refs (n1 & base & H1) _ [n2 IH]].
  - exists 0. constructor.
  - exists (Nat.max n1 n2). intros m Hm. constructor.
    + exists base. apply (buildInherited_more_fuel _ _ _ _ _ _ _ (n := n1)); [lia | assumption].
    + apply IH. lia.
Qed.

(** When the resolution of the inheritance of an element comes to an
    identifier that has been seen already and that converts to a string, be
    it the element's own after a reference to itself, or that of the first
    element of a cycle, [buildElement] raises the configuration error of a
    circular reference, for every amount of fuel from some amount on: it
    neither recurses without end nor returns an element. *)
Theorem buildElement_circular_reference (this : XpathConverterImpl)
  (parseInfo : IParseInfo) (l : Located) (seen : list Value)
  (identifier : Value) (subject : string) :
  Revisits this parseInfo l seen identifier subject ->
  exists n, forall fuel,
      n <= fuel ->
      buildElement this fuel l parseInfo seen
      = Throw (JaxConfigError (CircularReference identifier) subject).
Proof.
  induction 1 as [l seen element He Hn Hr Hi Hs Hc
                 | l seen element pre post at_ l' identifier subject
                     He Hn Hr Hi Hs Ha Hsplit Hpre Hsel _ [n1 IH]].
  - exists 1. intros [|fuel] Hf; [lia|].
    rewrite (@buildElement_named this fuel l parseInfo seen element Hn He Hr).
    now rewrite recurseThroughAttribute_seen.
  - destruct (@enough_fuel_for_all this _ _ _ _ _ _ _ Hpre) as [n2 Hall].
    exists (S (Nat.max n1 n2)). intros [|fuel] Hf; [lia|].
    rewrite (@buildElement_named this fuel l parseInfo seen element Hn He Hr).
    rewrite (@recurseThroughAttribute_through this (buildElement this fuel) element l
               parseInfo seen pre post at_
               (JaxConfigError (CircularReference identifier) subject));
      auto.
    + apply Hall. lia.
    + unfold buildInherited. rewrite Hsel. cbn [bind]. apply IH. lia.
Qed.

Lemma buildElement_circular_reference_witness :
  (exists n, forall fuel,
        n <= fuel ->
        buildElement defaultConverter fuel (commandAt selfCommands 0) testParseInfo []
        = Throw (JaxConfigError (CircularReference (VStr "leaf"))
                   "/Cli/Commands/Command"))
  /\ (exists n, forall fuel,
        n <= fuel ->
        buildElement defaultConverter fuel (commandAt cycleCommands 2) testParseInfo []
        = Throw (JaxConfigError (CircularReference (VStr "beta-command"))
                   "/Cli/Commands/Command")).
Proof.
  pose (leaf := namedCommand [("name", "leaf"); ("inherits", "leaf");
                              ("describe", "this is a leaf command")]).
  pose (alpha := namedCommand [("name", "alpha-command"); ("inherits", "beta-command")]).
  pose (beta := namedCommand [("name", "beta-command"); ("inherits", "alpha-command")]).
  pose (leaf2 := namedCommand [("name", "leaf"); ("inherits", "beta-command");
                               ("describe", "this is a leaf command")]).
  split.
  - apply (@buildElement_circular_reference defaultConverter testParseInfo
             (commandAt selfCommands 0) [] (VStr "leaf") "/Cli/Commands/Command").
    apply (@revisit_through defaultConverter testParseInfo (commandAt selfCommands 0)
             [] leaf [] [] "leaf" (commandAt selfCommands 0));
      try reflexivity; try discriminate; [constructor|].
    apply (@revisit_here defaultConverter testParseInfo (commandAt selfCommands 0)
             [VStr "leaf"] leaf);
      try reflexivity; discriminate.
  - apply (@buildElement_circular_reference defaultConverter testParseInfo
             (commandAt cycleCommands 2) [] (VStr "beta-command")
             "/Cli/Commands/Command").
    apply (@revisit_through defaultConverter testParseInfo (commandAt cycleCommands 2)
             [] leaf2 [] [] "beta-command" (commandAt cycleCommands 1));
      try reflexivity; try discriminate; [constructor|].
    apply (@revisit_through defaultConverter testParseInfo (commandAt cycleCommands 1)
             [VStr "leaf"] beta [] [] "alpha-command" (commandAt cycleCommands 0));
      try reflexivity; try discriminate; [constructor|].
    apply (@revisit_through defaultConverter testParseInfo (commandAt cycleCommands 0)
             [VStr "leaf"; VStr "beta-command"] alpha [] [] "beta-command"
             (commandAt cycleCommands 1));
      try reflexivity; try discriminate; [constructor|].
    apply (@revisit_here defaultConverter testParseInfo (commandAt cycleCommands 1)
             [VStr "leaf"; VStr "beta-command"; VStr "alpha-command"] beta);
      try reflexivity; discriminate.
Defined.

(** An element that lists itself among the references of its recurse
    attribute revisits its own identifier. *)
Lemma self_reference_revisits (this : XpathConverterImpl) (parseInfo : IParseInfo)
  (l : Located) (seen : list Value) (element : Obj) (pre post : list string)
  (at_ : string) :
  isElement (node l) = true ->
  namedElement this l = OK element ->
  recurseOf this parseInfo l <> "" ->
  isEmptyString (identifierOf (idOf this parseInfo l) element) = false ->
  R_equals (identifierOf (idOf this parseInfo l) element)
           (identifierOf (idOf this parseInfo l) element) = true ->
  stringifies (identifierOf (idOf this parseInfo l) element) = true ->
  getAttribute (recurseOf this parseInfo l) (node l) <> "" ->
  JsString.split "," (getAttribute (recurseOf this parseInfo l) (node l))
  = pre ++ at_ :: post ->
  Forall (fun ref =>
            exists fuel base,
              buildInherited this (buildElement this fuel) (composeElementPath l)
                (nodeName (node l)) (idOf this parseInfo l) l parseInfo
                (seen ++ [identifierOf (idOf this parseInfo l) element]) ref
              = OK base) pre ->
  selectElementNodeById this (nodeName (node l)) (idOf this parseInfo l) at_ (parentNode l)
  = OK (Some l) ->
  Revisits this parseInfo l seen
    (identifierOf (idOf this parseInfo l) element) (composeElementPath l).
Proof.
  intros He Hn Hr Hi Hrefl Hc Ha Hsplit Hpre Hsel.
  destruct (R_includes (identifierOf (idOf this parseInfo l) element) seen) eqn:Hs.
  - now apply revisit_here.
  - eapply revisit_through; eauto.
    apply revisit_here; auto.
    unfold R_includes. apply existsb_app_true. cbn [existsb]. now rewrite Hrefl.
Qed.

(** Two elements of which each names the other as its only reference: the
    resolution that starts at the first comes back to an identifier it has
    seen. *)
Lemma two_cycle_revisits (this : XpathConverterImpl) (parseInfo : IParseInfo)
  (a b : Located) (seen : list Value) (elementA elementB : Obj) (toB toA : string) :
  isElement (node a) = true -> isElement (node b) = true ->
  namedElement this a = OK elementA -> namedElement this b = OK elementB ->
  recurseOf this parseInfo a <> "" -> recurseOf this parseInfo b <> "" ->
  isEmptyString (identifierOf (idOf this parseInfo a) elementA) = false ->
  isEmptyString (identifierOf (idOf this parseInfo b) elementB) = false ->
  R_equals (identifierOf (idOf this parseInfo a) elementA)
           (identifierOf (idOf this parseInfo a) elementA) = true ->
  stringifies (identifierOf (idOf this parseInfo a) elementA) = true ->
  stringifies (identifierOf (idOf this parseInfo b) elementB) = true ->
  getAttribute (recurseOf this parseInfo a) (node a) <> "" ->
  getAttribute (recurseOf this parseInfo b) (node b) <> "" ->
  JsString.split "," (getAttribute (recurseOf this parseInfo a) (node a)) = [toB] ->
  JsString.split "," (getAttribute (recurseOf this parseInfo b) (node b)) = [toA] ->
  selectElementNodeById this (nodeName (node a)) (idOf this parseInfo a) toB (parentNode a)
  = OK (Some b) ->
  selectElementNodeById this (nodeName (node b)) (idOf this parseInfo b) toA (parentNode b)
  = OK (Some a) ->
  exists identifier subject, Revisits this parseInfo a seen identifier subject.
Proof.
  intros Ea Eb Na Nb Ra Rb Ia Ib Hrefl Ca Cb Aa Ab Sa Sb Selb Sela.
  destruct (R_includes (identifierOf (idOf this parseInfo a) elementA) seen) eqn:Hs.
  - do 2 eexists. eapply revisit_here; eauto.
  - destruct (R_includes (identifierOf (idOf this parseInfo b) elementB)
                (seen ++ [identifierOf (idOf this parseInfo a) elementA])) eqn:Hs'.
    + do 2 eexists. eapply revisit_through with (pre := []) (post := []); eauto.
      eapply revisit_here; eauto.
    + do 2 eexists. eapply revisit_through with (pre := []) (post := []); eauto.
      eapply revisit_through with (pre := []) (post := []); eauto.
      eapply revisit_here; eauto.
      unfold R_includes. rewrite <- app_assoc. apply existsb_app_true.
      cbn [app existsb]. now rewrite Hrefl.
Qed.

(** The two documents of the tests, run. *)
Example command_inherits_from_itself :
  buildElement defaultConverter 2 (commandAt selfCommands 0) testParseInfo []
  = Throw (JaxConfigError (CircularReference (VStr "leaf")) "/Cli/Commands/Command").
Proof. reflexivity. Qed.

Example circular_command_references :
  buildElement defaultConverter 4 (commandAt cycleCommands 2) testParseInfo []
  = Throw (JaxConfigError (CircularReference (VStr "beta-command"))
             "/Cli/Commands/Command").
Proof. reflexivity. Qed.

(* ------------------------------------------------------------------ *)
(** ** Circular references of symbols *)

(** A reference that ends otherwise than with an element ends the
    resolution, when the references before it are built. *)
Lemma recurseThroughAttribute_stops (this : XpathConverterImpl) (build : Builder)
  (element : Obj) (l : Located) (parseInfo : IParseInfo) (seen : list Value)
  (pre post : list string) (at_ : string) (r : Result Obj) :
  recurseOf this parseInfo l <> "" ->
  isEmptyString (identifierOf (idOf this parseInfo l) element) = false ->
  R_includes (identifierOf (idOf this parseInfo l) element) seen = false ->
  getAttribute (recurseOf this parseInfo l) (node l) <> "" ->
  JsString.split "," (getAttribute (recurseOf this parseInfo l) (node l))
  = pre ++ at_ :: post ->
  Forall (fun ref =>
            exists base,
              buildInherited this build (composeElementPath l) (nodeName (node l))
                (idOf this parseInfo l) l parseInfo
                (seen ++ [identifierOf (idOf this parseInfo l) element]) ref
              = OK base) pre ->
  buildInherited this build (composeElementPath l) (nodeName (node l))
    (idOf this parseInfo l) l parseInfo
    (seen ++ [identifierOf (idOf this parseInfo l) element]) at_
  = r ->
  (forall base, r <> OK base) ->
  recurseThroughAttribute this build (composeElementPath l) element l parseInfo seen
  = r.
Proof.
  unfold recurseOf, idOf, infoOf. intros Hr Hi Hs Ha Hsplit Hpre Hat Hno.
  unfold recurseThroughAttribute.
  apply String.eqb_neq in Hr, Ha. rewrite Hi, Hr, Hs, Ha, Hsplit. cbn [negb].
  destruct (1 <? List.length (pre ++ at_ :: post))%nat eqn:Hlen.
  - rewrite mapM_app. destruct (mapM_all_OK _ Hpre) as [bs ->]. cbn [bind mapM].
    rewrite Hat. destruct r as [base| |]; [now destruct (Hno base)| |]; reflexivity.
  - destruct pre as [|p pre]; cbn [app hd].
    + rewrite Hat. destruct r as [base| |]; [now destruct (Hno base)| |]; reflexivity.
    + exfalso. apply Nat.ltb_ge in Hlen. cbn [app List.length] in Hlen.
      rewrite length_app in Hlen. cbn [List.length] in Hlen. lia.
Qed.

(** A symbol that is not registered equals none that was seen. *)
Lemma R_includes_local_symbol (description : string) (seen : list Value) :
  R_includes (VSymbol false description) seen = false.
Proof.
  unfold R_includes. induction seen as [|item seen IH]; [reflexivity|].
  cbn [existsb]. rewrite IH.
  destruct item as [| | | | |[|] | | | |]; reflexivity.
Qed.

(** With symbols that are not registered, the command that inherits from
    itself is visited again whatever was seen. *)
Lemma local_symbol_is_built_again (fuel : nat) (seen : list Value) :
  buildElement localSymbolConverter fuel (commandAt symbolSelfCommands 0) testParseInfo seen
  = OutOfFuel.
Proof.
  revert seen. induction fuel as [|fuel IH]; intros seen; [reflexivity|].
  rewrite (@buildElement_named localSymbolConverter fuel (commandAt symbolSelfCommands 0)
             testParseInfo seen
             [(KStr "name", VSymbol false "$leaf");
              (KStr "inherits", VSymbol false "$leaf");
              (KStr "_", VStr "Command")]);
    [|reflexivity|reflexivity|discriminate].
  rewrite (@recurseThroughAttribute_stops localSymbolConverter
             (buildElement localSymbolConverter fuel) _ (commandAt symbolSelfCommands 0)
             testParseInfo seen [] [] "$leaf" OutOfFuel);
    try reflexivity; try discriminate.
  - apply R_includes_local_symbol.
  - constructor.
  - unfold buildInherited.
    change (selectElementNodeById localSymbolConverter
              (nodeName (node (commandAt symbolSelfCommands 0)))
              (idOf localSymbolConverter testParseInfo (commandAt symbolSelfCommands 0))
              "$leaf" (parentNode (commandAt symbolSelfCommands 0)))
      with (OK (Some (commandAt symbolSelfCommands 0)) : Result (option Located)).
    cbn [bind]. apply IH.
Qed.

(** C1. An element whose resolution comes back to an identifier that was
    seen is to raise the configuration error of a circular reference. The
    code does not when the identifier is a symbol: for
    [<Command name="$leaf" inherits="$leaf"/>] the default spec makes the
    name a registered symbol, the second visit finds it among the seen
    ones, and writing it into the message of the error raises a
    [TypeError]; with [symbol/global] off each visit makes a new symbol,
    which equals none that was seen, and the resolution visits the command
    again without end, whatever the fuel. The same command with a name
    that is a string raises the configuration error. *)
Theorem circular_reference_of_a_symbol :
  (forall fuel,
      buildElement defaultConverter (2 + fuel) (commandAt symbolSelfCommands 0)
        testParseInfo []
      = Throw (TypeError "cannot convert a Symbol value to a string"))
  /\ (forall fuel,
        buildElement localSymbolConverter fuel (commandAt symbolSelfCommands 0)
          testParseInfo []
        = OutOfFuel)
  /\ (forall fuel,
        buildElement defaultConverter (2 + fuel) (commandAt selfCommands 0)
          testParseInfo []
        = Throw (JaxConfigError (CircularReference (VStr "leaf"))
                   "/Cli/Commands/Command")).
Proof.
  split; [|split].
  - intros fuel.
    rewrite (@buildElement_more_fuel defaultConverter 2 (2 + fuel)
               (commandAt symbolSelfCommands 0) testParseInfo []);
      [reflexivity | lia | discriminate].
  - intros fuel. apply local_symbol_is_built_again.
  - intros fuel.
    rewrite (@buildElement_more_fuel defaultConverter 2 (2 + fuel)
               (commandAt selfCommands 0) testParseInfo []);
      [reflexivity | lia | discriminate].
Qed.

(* ------------------------------------------------------------------ *)
(** ** Remarks on the examples *)

(** The helper of the tests finds the leaf where [commandAt] places it. *)
Example commandNamed_leaf :
  commandNamed precedenceCommands "leaf" = OK (Some (commandAt precedenceCommands 2)).
Proof. reflexivity. Qed.

(** The identifiers that are compared are the coerced values. With
    [symbol/global] set to [false] an identifier that starts with the symbol
    prefix is a new symbol at each visit of its element, and equals none
    that was seen. *)
Example local_symbols_differ :
  R_equals (VSymbol false "$leaf") (VSymbol false "$leaf") = false
  /\ R_equals (VSymbol true "$leaf") (VSymbol true "$leaf") = true.
Proof. split; reflexivity. Qed.


(* ================================================================== *)
(** * Further properties of the converter *)

(* ------------------------------------------------------------------ *)
(** ** What the built element keeps and what it drops *)

Lemma get_removeDiscards_none (k : PropKey) (ds : list string) (o : Obj) :
  get k o = None -> get k (removeDiscards ds o) = None.
Proof.
  unfold removeDiscards. revert o.
  induction ds as [|d ds IH]; intros o H; cbn [fold_left]; [exact H|].
  apply IH. unfold R_dissoc. now apply get_filter_none.
Qed.

Lemma get_removeDiscards_in (d : string) (ds : list string) (o : Obj) :
  In d ds -> get (KStr d) (removeDiscards ds o) = None.
Proof.
  revert o. induction ds as [|x ds IH]; intros o H; [destruct H|].
  destruct H as [->|H].
  - unfold removeDiscards. cbn [fold_left].
    apply (get_removeDiscards_none (KStr d) ds). apply get_dissoc_same.
  - unfold removeDiscards. cbn [fold_left]. now apply IH.
Qed.

Lemma buildChildren_keeps (this : XpathConverterImpl) (build : Builder)
  (subject : string) (element result : Obj) (elementNode : Located)
  (parseInfo : IParseInfo) (previouslySeen : list Value) (k : PropKey) :
  notLabel this "labels/descendants" k ->
  notLabel this "labels/text" k ->
  buildChildren this build subject element elementNode parseInfo previouslySeen
  = OK result ->
  get k result = get k element.
Proof.
  intros Hd Ht. unfold buildChildren.
  assert (T : forall e r, attachText this (node elementNode) e = OK r ->
                          get k r = get k e).
  { intros e r Hr. eapply attachText_get; [exact Hr|]. exact Ht. }
  destruct (childElements (node elementNode)); cbn [bind]; [apply T|].
  destruct (mapM _ _) as [kids| |]; cbn [bind]; try discriminate.
  destruct (fetchString this "labels/descendants") as [label| |] eqn:L; cbn [bind];
    try discriminate.
  destruct (attachDescendants label element (map VObj kids)) as [attached| |] eqn:A;
    cbn [bind]; try discriminate.
  destruct (fetchString this "labels/element") as [el| |]; cbn [bind]; try discriminate.
  destruct (processDescendants _ _ _ _ _ _) as [processed| |] eqn:P; cbn [bind];
    try discriminate.
  intros Hr. rewrite (T _ _ Hr).
  rewrite (processDescendants_get _ _ _ _ _ _ k P (Hd _ L)).
  exact (attachDescendants_get _ _ _ k A (Hd _ L)).
Qed.

(** The final merge of the resolver puts the element last: whatever is
    inherited, a key the element holds keeps the element's value. *)
Lemma get_mergeAll2_right (k : PropKey) (a b : Obj) (v : Value) :
  uniqueKeys b = true -> get k b = Some v -> get k (R_mergeAll [a; b]) = Some v.
Proof.
  intros U G. unfold R_mergeAll. cbn [fold_left].
  rewrite (@get_assign k (assign [] a) b U). now rewrite G.
Qed.

Lemma recurseThroughAttribute_keeps_local (this : XpathConverterImpl) (build : Builder)
  (subject : string) (element resolved : Obj) (elementNode : Located)
  (parseInfo : IParseInfo) (previouslySeen : list Value) (k : PropKey) (v : Value) :
  uniqueKeys element = true ->
  recurseThroughAttribute this build subject element elementNode parseInfo previouslySeen
  = OK resolved ->
  get k element = Some v ->
  get k resolved = Some v.
Proof.
  intros U H G. unfold recurseThroughAttribute in H.
  repeat match type of H with
         | (if ?b then _ else _) = _ => destruct b
         | bind ?m _ = _ => destruct m; cbn [bind] in H
         end;
    try discriminate; injection H as <-; auto using get_mergeAll2_right.
Qed.

Lemma namedElement_inv (this : XpathConverterImpl) (l : Located) (element : Obj) :
  namedElement this l = OK element ->
  exists local elementLabel,
    buildLocalAttributes this (composeElementPath l) (node l) = OK local
    /\ fetchString this "labels/element" = OK elementLabel
    /\ element = set (KStr elementLabel) (VStr (nodeName (node l))) local.
Proof.
  unfold namedElement. intros H.
  destruct (buildLocalAttributes _ _ _) as [local| |]; cbn [bind] in H; try discriminate.
  destruct (fetchString _ _) as [el| |]; cbn [bind] in H; try discriminate.
  injection H as <-. now exists local, el.
Qed.

Lemma buildElement_own (this : XpathConverterImpl) (fuel : nat) (l : Located)
  (parseInfo : IParseInfo) (seen : list Value) (element result : Obj)
  (k : PropKey) (v : Value) :
  namedElement this l = OK element ->
  buildElement this fuel l parseInfo seen = OK result ->
  get k element = Some v ->
  (forall d, In d (discardsOf this parseInfo l) -> keyEqb k (KStr d) = false) ->
  notLabel this "labels/descendants" k ->
  notLabel this "labels/text" k ->
  get k result = Some v.
Proof.
  intros Hn Hb G Hdis Hd Ht.
  destruct (namedElement_inv _ _ Hn) as (local & el & Hl & He & ->).
  destruct fuel as [|fuel]; [discriminate|].
  rewrite buildElement_S in Hb. cbv zeta in Hb.
  rewrite Hl, He in Hb. cbn [bind] in Hb.
  assert (U : uniqueKeys (set (KStr el) (VStr (nodeName (node l))) local) = true).
  { apply uniqueKeys_set. eapply buildLocalAttributes_uniqueKeys; eassumption. }
  match type of Hb with
  | bind ?m _ = _ => destruct m as [resolved| |] eqn:R; cbn [bind] in Hb; try discriminate
  end.
  assert (G' : get k resolved = Some v).
  { destruct (negb _ && _) in R.
    - eapply recurseThroughAttribute_keeps_local; eassumption.
    - now injection R as <-. }
  assert (G'' : get k (removeDiscards (discardsOf this parseInfo l) resolved) = Some v).
  { rewrite get_removeDiscards; assumption. }
  unfold discardsOf, infoOf in G''.
  destruct (hasChildNodes (node l)).
  - rewrite (@buildChildren_keeps _ _ _ _ _ _ _ _ _ Hd Ht Hb). exact G''.
  - injection Hb as <-. exact G''.
Qed.

(** X1. The built element carries the tag name of its node under the
    element label, whatever the element inherits, unless the parse info
    discards that key or the label is also the descendants or the text
    label. *)
Theorem buildElement_element_name (this : XpathConverterImpl) (fuel : nat)
  (elementNode : Located) (parseInfo : IParseInfo) (previouslySeen : list Value)
  (result : Obj) (elementLabel : string) :
  buildElement this fuel elementNode parseInfo previouslySeen = OK result ->
  fetchString this "labels/element" = OK elementLabel ->
  ~ In elementLabel (discardsOf this parseInfo elementNode) ->
  notLabel this "labels/descendants" (KStr elementLabel) ->
  notLabel this "labels/text" (KStr elementLabel) ->
  get (KStr elementLabel) result = Some (VStr (nodeName (node elementNode))).
Proof.
  intros Hb He Hdis Hd Ht.
  destruct (buildLocalAttributes this (composeElementPath elementNode) (node elementNode))
    as [local| |] eqn:Hl.
  - apply (@buildElement_own this fuel elementNode parseInfo previouslySeen
             (set (KStr elementLabel) (VStr (nodeName (node elementNode))) local)
             result (KStr elementLabel) (VStr (nodeName (node elementNode))));
      try assumption.
    + unfold namedElement. rewrite Hl, He. reflexivity.
    + apply get_set_same, keyEqb_str_refl.
    + intros d Hin. cbn [keyEqb]. apply String.eqb_neq. now intros ->.
  - destruct fuel; [discriminate|]. rewrite buildElement_S in Hb. cbv zeta in Hb.
    now rewrite Hl in Hb.
  - destruct fuel; [discriminate|]. rewrite buildElement_S in Hb. cbv zeta in Hb.
    now rewrite Hl in Hb.
Qed.

Lemma buildElement_element_name_witness :
  exists result,
    buildElement defaultConverter 4 (commandAt argumentCommands 1) inheritParseInfo []
    = OK result
    /\ get (KStr "_") result = Some (VStr "Command").
Proof.
  eexists. split; [vm_compute; reflexivity|].
  apply (@buildElement_element_name defaultConverter 4 (commandAt argumentCommands 1)
           inheritParseInfo []).
  - vm_compute. reflexivity.
  - reflexivity.
  - vm_compute. intuition discriminate.
  - intros label H. vm_compute in H. injection H as <-. reflexivity.
  - intros label H. vm_compute in H. injection H as <-. reflexivity.
Defined.

(** X2. An attribute of the element that the parse info does not discard,
    and whose name is none of the three labels, is in the built element
    with the value the local attributes gave it: nothing the element
    inherits replaces it. *)
Theorem buildElement_keeps_local_attributes (this : XpathConverterImpl) (fuel : nat)
  (elementNode : Located) (parseInfo : IParseInfo) (previouslySeen : list Value)
  (local result : Obj) (k : PropKey) (v : Value) :
  buildElement this fuel elementNode parseInfo previouslySeen = OK result ->
  buildLocalAttributes this (composeElementPath elementNode) (node elementNode)
  = OK local ->
  get k local = Some v ->
  (forall d, In d (discardsOf this parseInfo elementNode) -> keyEqb k (KStr d) = false) ->
  notLabel this "labels/element" k ->
  notLabel this "labels/descendants" k ->
  notLabel this "labels/text" k ->
  get k result = Some v.
Proof.
  intros Hb Hl G Hdis He Hd Ht.
  destruct (fetchString this "labels/element") as [el| |] eqn:E.
  - apply (@buildElement_own this fuel elementNode parseInfo previouslySeen
             (set (KStr el) (VStr (nodeName (node elementNode))) local) result k v);
      try assumption.
    + unfold namedElement. rewrite Hl, E. reflexivity.
    + rewrite get_set_other; [exact G|]. now apply He.
  - destruct fuel; [discriminate|]. rewrite buildElement_S in Hb. cbv zeta in Hb.
    rewrite Hl in Hb. cbn [bind] in Hb. now rewrite E in Hb.
  - destruct fuel; [discriminate|]. rewrite buildElement_S in Hb. cbv zeta in Hb.
    rewrite Hl in Hb. cbn [bind] in Hb. now rewrite E in Hb.
Qed.

Lemma buildElement_keeps_local_attributes_witness :
  exists result,
    buildElement defaultConverter 2 (commandAt precedenceCommands 2) testParseInfo []
    = OK result
    /\ get (KStr "describe") result = Some (VStr "this is a leaf command").
Proof.
  eexists. split; [vm_compute; reflexivity|].
  apply (@buildElement_keeps_local_attributes defaultConverter 2
           (commandAt precedenceCommands 2) testParseInfo []
           [(KStr "name", VStr "leaf"); (KStr "inherits", VStr "alpha-command,beta-command");
            (KStr "describe", VStr "this is a leaf command")]).
  - vm_compute. reflexivity.
  - reflexivity.
  - reflexivity.
  - vm_compute. intros d [<-|[<-|[]]]; reflexivity.
  - intros label E. vm_compute in E. injection E as <-. reflexivity.
  - intros label E. vm_compute in E. injection E as <-. reflexivity.
  - intros label E. vm_compute in E. injection E as <-. reflexivity.
Defined.

(** X3. A key that the parse info lists among the discards of the tag is
    absent from the built element, whether it came from the element's own
    attributes or from an element it inherits from; the descendants and
    the text label, which are written after the discards are removed, are
    excepted. *)
Theorem buildElement_drops_discards (this : XpathConverterImpl) (fuel : nat)
  (elementNode : Located) (parseInfo : IParseInfo) (previouslySeen : list Value)
  (result : Obj) (d : string) :
  buildElement this fuel elementNode parseInfo previouslySeen = OK result ->
  In d (discardsOf this parseInfo elementNode) ->
  notLabel this "labels/descendants" (KStr d) ->
  notLabel this "labels/text" (KStr d) ->
  get (KStr d) result = None.
Proof.
  intros Hb Hin Hd Ht.
  destruct fuel as [|fuel]; [discriminate|].
  rewrite buildElement_S in Hb. cbv zeta in Hb.
  destruct (buildLocalAttributes _ _ _) as [local| |]; cbn [bind] in Hb; try discriminate.
  destruct (fetchString this "labels/element") as [el| |]; cbn [bind] in Hb;
    try discriminate.
  match type of Hb with
  | bind ?m _ = _ => destruct m as [resolved| |]; cbn [bind] in Hb; try discriminate
  end.
  pose proof (get_removeDiscards_in d (discardsOf this parseInfo elementNode) resolved Hin)
    as G.
  unfold discardsOf, infoOf in G.
  destruct (hasChildNodes (node elementNode)).
  - rewrite (@buildChildren_keeps _ _ _ _ _ _ _ _ _ Hd Ht Hb). exact G.
  - injection Hb as <-. exact G.
Qed.

Lemma buildElement_drops_discards_witness :
  exists result,
    buildElement defaultConverter 4 (commandAt argumentCommands 1) inheritParseInfo []
    = OK result
    /\ get (KStr "inherits") result = None.
Proof.
  eexists. split; [vm_compute; reflexivity|].
  apply (@buildElement_drops_discards defaultConverter 4 (commandAt argumentCommands 1)
           inheritParseInfo []).
  - vm_compute. reflexivity.
  - vm_compute. auto.
  - intros label E. vm_compute in E. injection E as <-. reflexivity.
  - intros label E. vm_compute in E. injection E as <-. reflexivity.
Defined.

(* ------------------------------------------------------------------ *)
(** ** References that name no element *)



(* ------------------------------------------------------------------ *)
(** ** Documents without inheritance are built within their height *)

Lemma mapM_answers {A B} (f : A -> Result B) (xs : list A) :
  (forall x, In x xs -> f x <> OutOfFuel) -> mapM f xs <> OutOfFuel.
Proof.
  induction xs as [|x xs IH]; intros H; cbn [mapM]; [discriminate|].
  apply bind_not_OutOfFuel; [apply H; now left|]. intros y.
  apply bind_not_OutOfFuel; [apply IH; intros; apply H; now right|]. discriminate.
Qed.

Lemma reduceM_answers {A B} (f : B -> A -> Result B) (xs : list A) :
  (forall acc x, f acc x <> OutOfFuel) -> forall acc, reduceM f acc xs <> OutOfFuel.
Proof.
  intros H. induction xs as [|x xs IH]; intros acc; cbn [reduceM]; [discriminate|].
  apply bind_not_OutOfFuel; auto.
Qed.

Lemma somePrimitive_answers vals s v c : somePrimitive vals s v c <> OutOfFuel.
Proof.
  induction vals as [|val vals IH]; cbn [somePrimitive]; [discriminate|].
  apply bind_not_OutOfFuel.
  - unfold callWithoutThis. destruct val; try discriminate.
    repeat match goal with |- (if ?b then _ else _) <> _ => destruct b end;
      try discriminate; auto using transformNumber_answers, transformBoolean_answers.
  - intros r. destruct (succeeded r); [discriminate|exact IH].
Qed.

Lemma transformPrimitives_answers this s v c : transformPrimitives this s v c <> OutOfFuel.
Proof.
  unfold transformPrimitives. destruct (inStrings _ _); [discriminate|].
  destruct (fetchSpecOption _ _ _) as [[]|]; try discriminate.
  apply somePrimitive_answers.
Qed.

Lemma transformDate_answers this s v c : transformDate this s v c <> OutOfFuel.
Proof. unfold transformDate. destruct (moment_isValid _ _ _); discriminate. Qed.

Lemma transformUnaryCollection_answers this s c items :
  transformUnaryCollection this s c items <> OutOfFuel.
Proof.
  unfold transformUnaryCollection. apply bind_not_OutOfFuel; [|discriminate].
  apply mapM_answers. intros x _.
  apply bind_not_OutOfFuel; [apply transformPrimitives_answers|discriminate].
Qed.

Lemma transformAssociativeCollection_answers this s c t items :
  transformAssociativeCollection this s c t items <> OutOfFuel.
Proof.
  unfold transformAssociativeCollection. apply bind_not_OutOfFuel.
  - apply reduceM_answers. intros; apply assocPairStep_answers.
  - intros pairs. destruct (inStrings _ _); [discriminate|].
    apply bind_not_OutOfFuel; [|discriminate].
    unfold createTypedCollection.
    repeat match goal with
           | |- (if ?b then _ else _) <> _ => destruct b
           | |- match ?l with [] => _ | _ => _ end <> _ => destruct l
           end; discriminate.
Qed.

Lemma transformCollection_answers this s v c : transformCollection this s v c <> OutOfFuel.
Proof.
  unfold transformCollection.
  repeat match goal with
         | |- (if ?b then _ else _) <> _ => destruct b
         | |- match fetchSpecOption ?t ?p ?f with _ => _ end <> _ =>
             destruct (fetchSpecOption t p f) as [[]|]
         end;
    try discriminate;
    auto using transformUnaryCollection_answers, transformAssociativeCollection_answers.
Qed.

Lemma someMatcher_answers this keys s v : someMatcher this keys s v <> OutOfFuel.
Proof.
  induction keys as [|mt keys IH]; cbn [someMatcher]; [discriminate|].
  unfold getTransformer.
  repeat match goal with
         | |- bind (if ?b then _ else _) _ <> _ => destruct b
         end; cbn [bind]; try discriminate;
    (apply bind_not_OutOfFuel;
     [auto using transformNumber_answers, transformBoolean_answers,
        transformPrimitives_answers, transformCollection_answers, transformDate_answers,
        transformSymbol_answers, transformString_answers
     | intros r; destruct (succeeded r); [discriminate|exact IH]]).
Qed.

Lemma buildLocalAttributes_answers this subject n :
  buildLocalAttributes this subject n <> OutOfFuel.
Proof.
  assert (V : forall b m a, attributeValue this subject b m a <> OutOfFuel).
  { intros b m [name raw]. unfold attributeValue. destruct b; [|discriminate].
    unfold coerceAttributeValue. destruct (isObject m); [|discriminate].
    destruct m; [apply someMatcher_answers|discriminate]. }
  unfold buildLocalAttributes. destruct (truthy _).
  - apply bind_not_OutOfFuel.
    + apply mapM_answers. intros a _. apply bind_not_OutOfFuel; [apply V|discriminate].
    + intros items. destruct (fetchSpecOption _ _ _) as [[]|]; discriminate.
  - apply bind_not_OutOfFuel; [|discriminate].
    apply mapM_answers. intros a _. apply bind_not_OutOfFuel; [apply V|discriminate].
Qed.

Lemma fetchString_answers this path : fetchString this path <> OutOfFuel.
Proof. unfold fetchString. destruct (fetchSpecOption _ _ _) as [[]|]; discriminate. Qed.

Lemma checkCollisions_answers id subject ds :
  forall acc, checkCollisions id subject acc ds <> OutOfFuel.
Proof.
  induction ds as [|d ds IH]; intros acc; cbn [checkCollisions]; [discriminate|].
  destruct (R_includes _ _); [discriminate|apply IH].
Qed.

Lemma processDescendants_answers this subject label info element children :
  processDescendants this subject label info element children <> OutOfFuel.
Proof.
  unfold processDescendants.
  destruct (descendants info) as [policy|]; [|discriminate].
  destruct (by_ policy); [|discriminate].
  destruct (forallb _ _).
  - destruct (String.eqb _ "index").
    + apply bind_not_OutOfFuel; [|discriminate].
      destruct (isTrue _); [apply checkCollisions_answers|discriminate].
    + destruct (String.eqb _ "group"); discriminate.
  - destruct (isTrue _); discriminate.
Qed.

Lemma buildChildren_answers this (build : Builder) subject element l parseInfo seen :
  (forall child, In child (childElements (node l)) ->
                 build (childOf l child) parseInfo seen <> OutOfFuel) ->
  buildChildren this build subject element l parseInfo seen <> OutOfFuel.
Proof.
  intros H. unfold buildChildren.
  assert (T : forall e, attachText this (node l) e <> OutOfFuel).
  { intros e. unfold attachText. destruct (negb _); [|discriminate].
    apply bind_not_OutOfFuel; [apply fetchString_answers|discriminate]. }
  apply bind_not_OutOfFuel; [|exact T].
  destruct (childElements (node l)) as [|c cs] eqn:C; [discriminate|].
  apply bind_not_OutOfFuel.
  - apply mapM_answers. intros x Hx. apply H.
    apply filter_In in Hx. tauto.
  - intros kids. apply bind_not_OutOfFuel; [apply fetchString_answers|]. intros label.
    apply bind_not_OutOfFuel.
    + unfold attachDescendants. destruct (inStrings _ _); [|discriminate].
      apply bind_not_OutOfFuel; [|discriminate].
      unfold R_concat. destruct (prop _ _); discriminate.
    + intros attached. apply bind_not_OutOfFuel; [apply fetchString_answers|].
      intros el. apply processDescendants_answers.
Qed.

Lemma height_child (n child : Node) : In child (childNodes n) -> height child < height n.
Proof.
  assert (M : forall ks, In child ks ->
                         height child <= fold_right (fun k m => Nat.max (height k) m) 0 ks).
  { induction ks as [|k ks IH]; intros H; [destruct H|].
    destruct H as [->|H]; cbn [fold_right]; [lia|].
    specialize (IH H). lia. }
  destruct n as [ks|nm attrs ks|kind data]; cbn [childNodes height]; intros H;
    [apply M in H; lia | apply M in H; lia | destruct H].
Qed.

Lemma buildElement_answers_within_height (this : XpathConverterImpl)
  (parseInfo : IParseInfo) (fuel : nat) (elementNode : Located)
  (previouslySeen : list Value) :
  noRecurse this parseInfo ->
  height (node elementNode) <= fuel ->
  buildElement this fuel elementNode parseInfo previouslySeen <> OutOfFuel.
Proof.
  intros Hno. revert elementNode previouslySeen.
  induction fuel as [|fuel IH]; intros l seen Hh.
  - destruct (node l); cbn [height] in Hh; lia.
  - rewrite buildElement_S. cbv zeta.
    apply bind_not_OutOfFuel; [apply buildLocalAttributes_answers|]. intros local.
    apply bind_not_OutOfFuel; [apply fetchString_answers|]. intros el.
    rewrite (Hno (nodeName (node l))). cbn [String.eqb negb andb bind].
    destruct (hasChildNodes (node l)); [|discriminate].
    apply buildChildren_answers. intros child Hc. apply IH.
    cbn [childOf node]. unfold childElements in Hc. apply filter_In in Hc.
    destruct Hc as [Hc _]. apply height_child in Hc. lia.
Qed.

(** X5. When the parse info configures a recurse attribute for no tag, the
    build of a node has one answer, an element or an exception, and gives
    it as soon as the fuel reaches the height of the node: the recursion
    follows the child elements only, and it ends. *)
Theorem buildElement_answers_without_recurse (this : XpathConverterImpl)
  (parseInfo : IParseInfo) (elementNode : Located) (previouslySeen : list Value) :
  noRecurse this parseInfo ->
  exists answer,
    answer <> OutOfFuel
    /\ forall fuel, height (node elementNode) <= fuel ->
                    buildElement this fuel elementNode parseInfo previouslySeen = answer.
Proof.
  intros Hno.
  exists (buildElement this (height (node elementNode)) elementNode parseInfo
            previouslySeen).
  assert (A : buildElement this (height (node elementNode)) elementNode parseInfo
                previouslySeen <> OutOfFuel).
  { apply buildElement_answers_within_height; [exact Hno|lia]. }
  split; [exact A|]. intros fuel Hf. now apply buildElement_more_fuel.
Qed.

Lemma buildElement_answers_without_recurse_witness :
  exists answer,
    answer <> OutOfFuel
    /\ forall fuel,
        height (Element "Command" [("name", "copy"); ("abstract", "true")]
                  [Element "Arguments" [] [argumentRef "from"; argumentRef "to"]]) <= fuel ->
        buildElement defaultConverter fuel
          {| ancestors := [];
             node := Element "Command" [("name", "copy"); ("abstract", "true")]
                       [Element "Arguments" [] [argumentRef "from"; argumentRef "to"]] |}
          flatParseInfo []
        = answer.
Proof.
  apply (@buildElement_answers_without_recurse defaultConverter flatParseInfo
           {| ancestors := [];
              node := Element "Command" [("name", "copy"); ("abstract", "true")]
                        [Element "Arguments" [] [argumentRef "from"; argumentRef "to"]] |}
           []).
  intros name. unfold getElementInfo. cbn [elements flatParseInfo lookup def].
  destruct (String.eqb name "Command"); reflexivity.
Defined.

(* ------------------------------------------------------------------ *)
(** ** Attributes without coercion, and under a label *)

Lemma get_fromPairs_fold_other (k : string) (pairs : list (string * Value)) :
  ~ In k (map fst pairs) ->
  forall acc,
    get (KStr k) (fold_left (fun acc p => set (KStr (fst p)) (snd p) acc) pairs acc)
    = get (KStr k) acc.
Proof.
  induction pairs as [|[k' v'] pairs IH]; intros Hn acc; cbn [fold_left]; [reflexivity|].
  cbn [map fst In] in Hn. rewrite IH by tauto.
  cbn [fst snd]. apply get_set_other. cbn [keyEqb]. apply String.eqb_neq.
  intros ->. tauto.
Qed.

Lemma get_fromAttributePairs (k : string) (v : Value) (pairs : list (string * Value)) :
  NoDup (map fst pairs) -> In (k, v) pairs ->
  get (KStr k) (fromAttributePairs pairs) = Some v.
Proof.
  unfold fromAttributePairs. generalize (@nil (PropKey * Value)).
  induction pairs as [|[k' v'] pairs IH]; intros acc Hnd Hin; [destruct Hin|].
  cbn [map fst] in Hnd. inversion Hnd as [|? ? Hnotin Hnd']; subst.
  cbn [fold_left fst snd]. destruct Hin as [E|Hin].
  - injection E as -> ->. rewrite get_fromPairs_fold_other by exact Hnotin.
    apply get_set_same, keyEqb_str_refl.
  - now apply IH.
Qed.

(** X6. A spec without a [coercion] object turns coercion off, whatever
    the fall-back spec holds: the attributes are read as the texts they
    are, and nothing is raised. As members, each attribute of an element
    whose attribute names differ is held under its name; under a label, the
    attributes are listed in document order, one single-entry object each. *)
Theorem buildLocalAttributes_verbatim (this : XpathConverterImpl) (subject : string)
  (localNode : Node) :
  isObject (fetchSpecOption this "coercion" false) = false ->
  (truthy (fetchSpecOption this "labels/attributes" false) = false ->
   buildLocalAttributes this subject localNode
   = OK (fromAttributePairs (map verbatim (attributeNodes localNode)))
   /\ forall name raw,
       NoDup (map fst (attributeNodes localNode)) ->
       In (name, raw) (attributeNodes localNode) ->
       get (KStr name) (fromAttributePairs (map verbatim (attributeNodes localNode)))
       = Some (VStr raw))
  /\ (forall label,
        fetchSpecOption this "labels/attributes" false = Some (JStr label) ->
        label <> "" ->
        buildLocalAttributes this subject localNode
        = OK [(KStr label,
               VArr (map (fun attr => VObj [(KStr (fst attr), VStr (snd attr))])
                       (attributeNodes localNode)))]).
Proof.
  intros Hc. split.
  - intros Hl. split.
    + unfold buildLocalAttributes. rewrite Hl, Hc.
      rewrite (@mapM_total _ _ _ verbatim); [reflexivity|].
      apply Forall_forall. intros [name raw] _. reflexivity.
    + intros name raw Hnd Hin. apply get_fromAttributePairs.
      * rewrite map_map. cbn [verbatim fst]. exact Hnd.
      * apply (in_map verbatim) in Hin. exact Hin.
  - intros label Hl Hne. unfold buildLocalAttributes. rewrite Hl, Hc.
    assert (T : truthy (Some (JStr label)) = true).
    { cbn [truthy]. apply negb_true_iff, String.eqb_neq, Hne. }
    rewrite T.
    rewrite (@mapM_total _ _ _ (fun attr => VObj [(KStr (fst attr), VStr (snd attr))]));
      [reflexivity|].
    apply Forall_forall. intros [name raw] _. reflexivity.
Qed.

Lemma buildLocalAttributes_verbatim_witness :
  buildLocalAttributes plainConverter "/Cli/Commands/Command"
    (Element "Command" [("name", "7"); ("abstract", "true")] [])
  = OK (fromAttributePairs
          (map verbatim
             (attributeNodes (Element "Command" [("name", "7"); ("abstract", "true")] []))))
  /\ get (KStr "name")
       (fromAttributePairs
          (map verbatim
             (attributeNodes (Element "Command" [("name", "7"); ("abstract", "true")] []))))
     = Some (VStr "7").
Proof.
  destruct (@buildLocalAttributes_verbatim plainConverter "/Cli/Commands/Command"
              (Element "Command" [("name", "7"); ("abstract", "true")] []) eq_refl)
    as [H _].
  destruct (H eq_refl) as [H1 H2]. split; [exact H1|].
  apply H2.
  - repeat constructor; cbn; intuition discriminate.
  - cbn. auto.
Defined.



(** The leaf of the test on precedence, built with the attributes under a
    label: its bases give it nothing. *)
Example labelled_leaf_built :
  buildElement labelledConverter 2 (commandAt precedenceCommands 2) testParseInfo []
  = OK [(KStr "_attributes",
         VArr [VObj [(KStr "name", VStr "leaf")];
               VObj [(KStr "inherits", VStr "alpha-command,beta-command")];
               VObj [(KStr "describe", VStr "this is a leaf command")]]);
        (KStr "_", VStr "Command")].
Proof. reflexivity. Qed.

(* ------------------------------------------------------------------ *)
(** ** The names of the matchers *)

Lemma lowerChar_idem (c : ascii) :
  JsString.lowerChar (JsString.lowerChar c) = JsString.lowerChar c.
Proof. destruct c as [[] [] [] [] [] [] [] []]; reflexivity. Qed.

Lemma toLowerCase_idem (s : string) :
  JsString.toLowerCase (JsString.toLowerCase s) = JsString.toLowerCase s.
Proof.
  induction s as [|c s IH]; cbn [JsString.toLowerCase]; [reflexivity|].
  now rewrite lowerChar_idem, IH.
Qed.

Lemma someMatcher_lower (this : XpathConverterImpl) (keys : list string)
  (subject rawValue : string) :
  someMatcher this (map JsString.toLowerCase keys) subject rawValue
  = someMatcher this keys subject rawValue.
Proof.
  induction keys as [|mt keys IH]; cbn [map someMatcher]; [reflexivity|].
  now rewrite toLowerCase_idem, IH.
Qed.

(** X8. The names of the matchers are read without regard to case: two
    matchers objects whose names agree once put in lower case coerce every
    value alike. *)
Theorem coerceAttributeValue_ignores_case (this : XpathConverterImpl)
  (subject rawValue attributeName : string) (m1 m2 : list (string * Json)) :
  map JsString.toLowerCase (map fst m1) = map JsString.toLowerCase (map fst m2) ->
  coerceAttributeValue this subject (Some (JObj m1)) rawValue attributeName
  = coerceAttributeValue this subject (Some (JObj m2)) rawValue attributeName.
Proof.
  intros H. unfold coerceAttributeValue. cbn [isObject keysOf].
  rewrite <- (someMatcher_lower this (map fst m1)), <- (someMatcher_lower this (map fst m2)).
  now rewrite H.
Qed.

Lemma coerceAttributeValue_ignores_case_witness :
  coerceAttributeValue defaultConverter "/Cli/Commands/Command/[@name]"
    (Some (JObj [("Primitives", JNull); ("STRING", JBool true)])) "42" "name"
  = coerceAttributeValue defaultConverter "/Cli/Commands/Command/[@name]"
      (Some (JObj [("primitives", JArr []); ("string", JBool true)])) "42" "name".
Proof.
  apply (@coerceAttributeValue_ignores_case defaultConverter
           "/Cli/Commands/Command/[@name]" "42" "name"
           [("Primitives", JNull); ("STRING", JBool true)]
           [("primitives", JArr []); ("string", JBool true)]).
  reflexivity.
Defined.

Lemma getTransformer_unknown (this : XpathConverterImpl) (name : string) :
  inStrings name transformerNames = false ->
  getTransformer this name
  = Throw (JaxInternalError (NoTransformer (JStr name)) "getTransformer").
Proof.
  unfold inStrings, transformerNames. cbn [existsb]. intros H.
  repeat (apply orb_false_iff in H; destruct H as [? H]).
  unfold getTransformer.
  repeat match goal with
         | E : String.eqb name ?x = false |- context [String.eqb name ?x] => rewrite E
         end.
  reflexivity.
Qed.

(** X9. The two internal errors of the chain. Matchers that are neither an
    object nor an array raise the error on invalid matchers; a name that no
    transformer is registered under raises the error of [getTransformer] as
    soon as the matchers before it have failed softly, and so does every
    array that is not empty, whose keys are its indices. *)
Theorem coerceAttributeValue_internal_errors (this : XpathConverterImpl)
  (subject rawValue attributeName : string) :
  (forall matchers,
      isObject matchers = false ->
      coerceAttributeValue this subject matchers rawValue attributeName
      = Throw (JaxInternalError (InvalidMatchers matchers attributeName rawValue)
                 "coerceAttributeValue"))
  /\ (forall fields pre mt post,
        map fst fields = pre ++ mt :: post ->
        Forall (softFails this subject rawValue) pre ->
        inStrings (JsString.toLowerCase mt) transformerNames = false ->
        coerceAttributeValue this subject (Some (JObj fields)) rawValue attributeName
        = Throw (JaxInternalError (NoTransformer (JStr (JsString.toLowerCase mt)))
                   "getTransformer"))
  /\ (forall item items,
        coerceAttributeValue this subject (Some (JArr (item :: items))) rawValue
          attributeName
        = Throw (JaxInternalError (NoTransformer (JStr "0")) "getTransformer")).
Proof.
  split; [|split].
  - intros matchers H. unfold coerceAttributeValue. now rewrite H.
  - intros fields pre mt post Hk Hpre Hmt. unfold coerceAttributeValue.
    cbn [isObject keysOf]. rewrite Hk, someMatcher_skip by exact Hpre.
    cbn [someMatcher]. now rewrite getTransformer_unknown.
  - intros item items. unfold coerceAttributeValue. cbn [isObject keysOf List.length seq map].
    cbn [someMatcher]. now rewrite getTransformer_unknown.
Qed.

Lemma coerceAttributeValue_internal_errors_witness :
  coerceAttributeValue defaultConverter "/Cli/Commands/Command/[@name]"
    (Some (JStr "number")) "leaf" "name"
  = Throw (JaxInternalError (InvalidMatchers (Some (JStr "number")) "name" "leaf")
             "coerceAttributeValue")
  /\ coerceAttributeValue defaultConverter "/Cli/Commands/Command/[@name]"
       (Some (JObj [("number", JNull); ("Text", JNull); ("string", JBool true)]))
       "leaf" "name"
     = Throw (JaxInternalError (NoTransformer (JStr (JsString.toLowerCase "Text")))
                "getTransformer").
Proof.
  destruct (coerceAttributeValue_internal_errors defaultConverter
              "/Cli/Commands/Command/[@name]" "leaf" "name") as (H1 & H2 & _).
  split.
  - apply H1. reflexivity.
  - apply (H2 [("number", JNull); ("Text", JNull); ("string", JBool true)]
              ["number"] "Text" ["string"]).
    + reflexivity.
    + constructor; [|constructor].
      exists transformNumber, {| value := VStr "leaf"; succeeded := false |}.
      repeat split; reflexivity.
    + reflexivity.
Defined.

(* ------------------------------------------------------------------ *)
(** ** Texts and their markers *)

Lemma string_length_app (a b : string) :
  String.length (a ++ b) = String.length a + String.length b.
Proof. induction a as [|c a IH]; cbn [append String.length]; [reflexivity|now rewrite IH]. Qed.

Lemma string_app_nil_r (a : string) : (a ++ "")%string = a.
Proof. induction a as [|c a IH]; cbn [append]; [reflexivity|now rewrite IH]. Qed.

Lemma string_app_assoc (a b c : string) : ((a ++ b) ++ c)%string = (a ++ (b ++ c))%string.
Proof. induction a as [|x a IH]; cbn [append]; [reflexivity|now rewrite IH]. Qed.

Lemma startsWith_app (p s : string) : JsString.startsWith p (p ++ s) = true.
Proof.
  unfold JsString.startsWith.
  induction p as [|c p IH]; cbn [append String.prefix]; [now destruct s|].
  destruct (ascii_dec c c); [exact IH|congruence].
Qed.

Lemma drop_app (a b : string) : JsString.drop (String.length a) (a ++ b) = b.
Proof. induction a as [|c a IH]; cbn [append String.length JsString.drop]; [now destruct b|exact IH]. Qed.

Lemma take_app (a b : string) : JsString.take (String.length a) (a ++ b) = a.
Proof.
  induction a as [|c a IH]; cbn [append String.length JsString.take];
    [now destruct b|now rewrite IH].
Qed.

Lemma endsWith_app (x suf : string) : JsString.endsWith suf (x ++ suf) = true.
Proof.
  unfold JsString.endsWith. rewrite string_length_app.
  replace (String.length x + String.length suf - String.length suf)
    with (String.length x) by lia.
  rewrite drop_app, String.eqb_refl.
  replace (String.length suf <=? String.length x + String.length suf)%nat with true;
    [reflexivity|].
  symmetry. apply Nat.leb_le. lia.
Qed.

Lemma replace_eq (pat rep s : string) :
  JsString.replace pat rep s
  = if JsString.startsWith pat s then (rep ++ JsString.drop (String.length pat) s)%string
    else match s with
         | EmptyString => EmptyString
         | String c s' => String c (JsString.replace pat rep s')
         end.
Proof. destruct s; reflexivity. Qed.

Lemma extractCoreCollectionValue_core (open close core : string) :
  extractCoreCollectionValue open close (open ++ core ++ close) = core.
Proof.
  unfold extractCoreCollectionValue.
  rewrite startsWith_app.
  rewrite <- string_app_assoc, endsWith_app, string_app_assoc. cbn [andb].
  rewrite replace_eq, startsWith_app, drop_app. cbn [append].
  unfold JsString.slice0. rewrite string_length_app.
  replace (Z.of_nat (String.length core + String.length close)
           - Z.of_nat (String.length close))%Z
    with (Z.of_nat (String.length core)) by lia.
  replace (Z.of_nat (String.length core) <? 0)%Z with false
    by (symmetry; apply Z.ltb_ge; lia).
  rewrite Z.min_l by lia. rewrite Nat2Z.id. apply take_app.
Qed.

(** X10. What [extractCoreCollectionValue] takes away is what was put
    around the core: for every open marker, core and close marker, the
    core of the three written one after the other is the core. A value
    that does not start with the open marker, or does not end with the
    close marker, is returned as it is. *)
Theorem extractCoreCollectionValue_round_trip (open close : string) :
  (forall core, extractCoreCollectionValue open close (open ++ core ++ close) = core)
  /\ (forall collectionValue,
        JsString.startsWith open collectionValue = false
        \/ JsString.endsWith close collectionValue = false ->
        extractCoreCollectionValue open close collectionValue = collectionValue).
Proof.
  split; [apply extractCoreCollectionValue_core|].
  intros v H. unfold extractCoreCollectionValue.
  destruct H as [H|H]; rewrite H; [reflexivity|]. now rewrite andb_false_r.
Qed.

Lemma extractCoreCollectionValue_round_trip_witness :
  extractCoreCollectionValue "!<[]>[" "]" ("!<[]>[" ++ "1,2,[3]" ++ "]") = "1,2,[3]"
  /\ extractCoreCollectionValue "!<[]>[" "]" "[1,2,3]" = "[1,2,3]".
Proof.
  destruct (extractCoreCollectionValue_round_trip "!<[]>[" "]") as [H1 H2].
  split; [apply H1|]. apply H2. left. reflexivity.
Defined.

(* ------------------------------------------------------------------ *)
(** ** Values that are no collection *)

Lemma spanType_close (s run rest : string) :
  spanType s = (run, String ">" rest) -> occurs ">" s = true.
Proof.
  revert run. induction s as [|c s IH]; intros run H; cbn [spanType] in H;
    [discriminate|].
  cbn [occurs]. destruct (isTypeChar c).
  - destruct (spanType s) as [run' rest'] eqn:E. injection H as _ ->.
    rewrite (IH _ eq_refl). apply orb_true_r.
  - injection H as _ Hc _. subst c. reflexivity.
Qed.

Lemma execTypeExpr_no_open (s : string) : occurs "<" s = false -> execTypeExpr s = None.
Proof.
  induction s as [|c s IH]; cbn [occurs execTypeExpr]; [reflexivity|]. intros H.
  apply orb_false_iff in H. destruct H as [H1 H2].
  rewrite Ascii.eqb_sym, H1. auto.
Qed.

Lemma execTypeExpr_no_close (s : string) : occurs ">" s = false -> execTypeExpr s = None.
Proof.
  induction s as [|c s IH]; cbn [occurs execTypeExpr]; [reflexivity|]. intros H.
  apply orb_false_iff in H. destruct H as [H1 H2].
  destruct (Ascii.eqb c "<"); [|auto].
  destruct (spanType s) as [run rest] eqn:E.
  destruct run as [|r run]; [auto|].
  destruct rest as [|x rest]; [auto|].
  destruct (Ascii.eqb x ">") eqn:X.
  - apply Ascii.eqb_eq in X. subst x. apply spanType_close in E. congruence.
  - assert (IHs := IH H2).
    destruct x as [[] [] [] [] [] [] [] []]; try exact IHs; discriminate.
Qed.

(** X11. The collection transformer leaves alone what is not written as a
    collection, and raises nothing: a value without [<] or without [>]
    holds no type, whatever the spec; and a value that holds a type but
    does not start with the open marker written for that type, or does not
    end with the close marker, is not applicable either. *)
Theorem transformCollection_not_applicable (this : XpathConverterImpl)
  (subject collectionValue : string) (context : ContextType) :
  (occurs "<" collectionValue = false \/ occurs ">" collectionValue = false ->
   transformCollection this subject collectionValue context = OK notApplicable)
  /\ (forall open close,
        fetchSpecOption this (matcherPath context "collection/open") true
        = Some (JStr open) ->
        fetchSpecOption this (matcherPath context "collection/close") true
        = Some (JStr close) ->
        JsString.startsWith
          (JsString.replace (CollectionTypePlaceHolder this)
             ("<" ++ extractTypeFromCollectionValue this collectionValue ++ ">") open)
          collectionValue = false
        \/ JsString.endsWith close collectionValue = false ->
        transformCollection this subject collectionValue context = OK notApplicable).
Proof.
  split.
  - intros H. unfold transformCollection, extractTypeFromCollectionValue.
    assert (E : execTypeExpr collectionValue = None).
    { destruct H; [now apply execTypeExpr_no_open|now apply execTypeExpr_no_close]. }
    rewrite E. reflexivity.
  - intros open close Ho Hc H. unfold transformCollection.
    destruct (String.eqb _ ""); [reflexivity|].
    rewrite Ho, Hc.
    destruct H as [H|H]; rewrite H; [reflexivity|].
    now rewrite andb_false_r.
Qed.

Lemma transformCollection_not_applicable_witness :
  transformCollection defaultConverter "/Cli/Commands/Command/[@describe]"
    "copies [a,b] -> c" attributes_ = OK notApplicable
  /\ transformCollection defaultConverter "/Cli/Commands/Command/[@describe]"
       "see <help> for more" attributes_ = OK notApplicable.
Proof.
  destruct (transformCollection_not_applicable defaultConverter
              "/Cli/Commands/Command/[@describe]" "copies [a,b] -> c" attributes_)
    as [H1 _].
  destruct (transformCollection_not_applicable defaultConverter
              "/Cli/Commands/Command/[@describe]" "see <help> for more" attributes_)
    as [_ H2].
  split.
  - apply H1. left. reflexivity.
  - apply (H2 "!<type>[" "]"); [reflexivity|reflexivity|]. left. reflexivity.
Defined.

(* ------------------------------------------------------------------ *)
(** ** The literal of a unary collection *)

Lemma splitGo_item (c : ascii) (item : string) :
  occurs c item = false ->
  forall cur,
    JsString.splitGo (String c "") 0 cur item = [(cur ++ item)%string]
    /\ forall rest,
        JsString.splitGo (String c "") 0 cur (item ++ String c rest)
        = (cur ++ item)%string :: JsString.splitGo (String c "") 0 "" rest.
Proof.
  induction item as [|d item IH]; intros H cur.
  - rewrite string_app_nil_r. split; [reflexivity|]. intros rest.
    cbn [append JsString.splitGo JsString.startsWith String.prefix String.length Nat.sub].
    destruct (ascii_dec c c); [|congruence]. now destruct rest.
  - cbn [occurs] in H. apply orb_false_iff in H. destruct H as [H1 H2].
    assert (N : c <> d) by (intros ->; now rewrite Ascii.eqb_refl in H1).
    destruct (IH H2 (cur ++ String d "")%string) as [A B].
    rewrite string_app_assoc in A, B. cbn [append] in A, B.
    split; [|intros rest];
      cbn [append JsString.splitGo JsString.startsWith String.prefix];
      (destruct (ascii_dec c d); [congruence|]); auto.
Qed.

Lemma split_join (c : ascii) (items : list string) :
  items <> [] ->
  Forall (fun item => occurs c item = false) items ->
  JsString.split (String c "") (join (String c "") items) = items.
Proof.
  unfold JsString.split. intros Hne H.
  induction H as [|x rest Hx Hrest IH]; [congruence|].
  destruct rest as [|y rest].
  - cbn [join]. now destruct (splitGo_item c x Hx "") as [-> _].
  - change (join (String c "") (x :: y :: rest))
      with (x ++ String c (join (String c "") (y :: rest)))%string.
    destruct (splitGo_item c x Hx "") as [_ ->]. cbn [append].
    f_equal. apply IH. discriminate.
Qed.

(** X12. The literal of a unary collection, read back. With a delimiter of
    one character, a literal written as the open marker of a unary type,
    the items with the delimiter between them and the close marker, where
    the items hold no delimiter and none is a reserved word, is a list with
    one value for each item, in order: the value the primitives give the
    item, or the item itself. The list is a plain list whatever unary type
    the literal names. *)
Theorem transformCollection_unary_literal (this : XpathConverterImpl)
  (subject : string) (context : ContextType) (t open close : string) (c : ascii)
  (vals : list Json) (items : list string) :
  let openExpression :=
    JsString.replace (CollectionTypePlaceHolder this) ("<" ++ t ++ ">") open in
  let literal := (openExpression ++ join (String c "") items ++ close)%string in
  fetchSpecOption this (matcherPath context "collection/open") true = Some (JStr open) ->
  fetchSpecOption this (matcherPath context "collection/close") true = Some (JStr close) ->
  fetchSpecOption this (matcherPath context "collection/delim") true
  = Some (JStr (String c "")) ->
  fetchSpecOption this (matcherPath context "primitives") true = Some (JArr vals) ->
  Forall (fun val => val = JStr "number" \/ val = JStr "boolean") vals ->
  extractTypeFromCollectionValue this literal = t ->
  isUnaryCollection t = true ->
  openExpression <> "" -> close <> "" -> items <> [] ->
  Forall (fun item => occurs c item = false) items ->
  Forall (fun item => inStrings (JsString.toLowerCase item)
                        ["primitives"; "collection"] = false) items ->
  transformCollection this subject literal context
  = OK {| value := VArr (map (keptItem this subject context) items);
          succeeded := true |}.
Proof.
  intros openExpression literal Ho Hc Hd Hp Hvals Ht Hu Hoe Hce Hne Hocc Hres.
  unfold transformCollection. rewrite Ht, Ho, Hc, Hd.
  assert (T : String.eqb t "" = false).
  { destruct t; [discriminate Hu|reflexivity]. }
  rewrite T. fold openExpression.
  unfold literal at 1 2. rewrite startsWith_app.
  rewrite <- string_app_assoc, endsWith_app. cbn [andb].
  replace (String.eqb openExpression "") with false
    by (symmetry; now apply String.eqb_neq).
  replace (String.eqb close "") with false by (symmetry; now apply String.eqb_neq).
  unfold literal. rewrite extractCoreCollectionValue_core, Hu.
  rewrite split_join by assumption.
  eapply transformUnaryCollection_items; eassumption.
Qed.

Lemma transformCollection_unary_literal_witness :
  transformCollection defaultConverter "/Cli/Commands/Command/[@tags]"
    "!<Int8Array>[1,true,x]" attributes_
  = OK {| value := VArr [VNum (JsNumber.ofN 1); VBool true; VStr "x"];
          succeeded := true |}.
Proof.
  apply (@transformCollection_unary_literal defaultConverter
           "/Cli/Commands/Command/[@tags]" attributes_ "Int8Array" "!<type>[" "]" ","
           [JStr "number"; JStr "boolean"] ["1"; "true"; "x"]).
  - reflexivity.
  - reflexivity.
  - reflexivity.
  - reflexivity.
  - constructor; [now left|]. constructor; [now right|]. constructor.
  - reflexivity.
  - reflexivity.
  - vm_compute. discriminate.
  - discriminate.
  - discriminate.
  - repeat constructor.
  - repeat constructor.
Defined.

(** The type [Uint16Array] is not in the list of the unary types, which
    holds [int16array] twice: its literal is read as a list of pairs. *)
Example uint16array_is_not_unary :
  isUnaryCollection "Uint16Array" = false
  /\ transformCollection defaultConverter "/Cli/Commands/Command/[@tags]"
       "!<Uint16Array>[1,2]" attributes_
     = Throw (JaxParseError (MalformedMapEntry "1") "/Cli/Commands/Command/[@tags]").
Proof. split; reflexivity. Qed.

(* ------------------------------------------------------------------ *)
(** ** The entries an associative collection keeps *)

Lemma reduce_assocPairStep (this : XpathConverterImpl) (subject : string)
  (context : ContextType) (delim : string) (entries : list string) :
  Forall (entryCoerces this subject context delim) entries ->
  forall acc,
    reduceM (assocPairStep this subject context (Some (JStr delim))
               (fetchSpecOption this (matcherPath context "collection/assoc/keyType") true)
               (fetchSpecOption this (matcherPath context "collection/assoc/valueType") true))
            acc entries
    = OK (acc ++ flat_map (keptPair this subject context delim) entries).
Proof.
  induction 1 as [|e entries He _ IH]; intros acc; cbn [reduceM flat_map].
  - now rewrite app_nil_r.
  - destruct He as (key & val & kr & vr & Hs & Hk & Hv).
    unfold assocPairStep, keptPair, assocCoerced. cbn [bind].
    rewrite Hs, Hk, Hv. cbn [bind].
    destruct (succeeded kr), (succeeded vr); cbn [andb bind]; rewrite IH;
      cbn [app]; try reflexivity.
    now rewrite <- app_assoc.
Qed.

(** X13. An associative collection whose entries are all well formed, the
    coercion of their keys and values raising nothing: the collection is
    made of the entries whose key and whose value are both coerced, in
    order, and an entry of which one is not coerced is left out without an
    error. *)
Theorem transformAssociativeCollection_kept (this : XpathConverterImpl)
  (subject : string) (context : ContextType) (collectionType delim : string)
  (entries : list string) :
  fetchSpecOption this (matcherPath context "collection/assoc/delim") true
  = Some (JStr delim) ->
  Forall (entryCoerces this subject context delim) entries ->
  transformAssociativeCollection this subject context collectionType entries
  = collectionOfPairs this collectionType
      (flat_map (keptPair this subject context delim) entries).
Proof.
  intros Hd He. unfold transformAssociativeCollection. rewrite Hd.
  rewrite (reduce_assocPairStep He). reflexivity.
Qed.

Lemma transformAssociativeCollection_kept_witness :
  transformAssociativeCollection numberKeyConverter "/Cli/Commands/Command/[@map]"
    attributes_ "Map" ["1=a"; "x=b"; "3=c"]
  = OK {| value := VColl "map" [VArr [VNum (JsNumber.ofN 1); VStr "a"];
                                VArr [VNum (JsNumber.ofN 3); VStr "c"]];
          succeeded := true |}.
Proof.
  apply (@transformAssociativeCollection_kept numberKeyConverter
           "/Cli/Commands/Command/[@map]" attributes_ "Map" "=" ["1=a"; "x=b"; "3=c"]).
  - reflexivity.
  - repeat constructor.
    + exists "1", "a". do 2 eexists. repeat split; reflexivity.
    + exists "x", "b". do 2 eexists. repeat split; reflexivity.
    + exists "3", "c". do 2 eexists. repeat split; reflexivity.
Defined.




(* ------------------------------------------------------------------ *)
(** ** Descendants grouped by their identifier *)

Lemma R_groupBy_fold (this : XpathConverterImpl) (id : string) (k : PropKey) :
  keyEqb k k = true ->
  forall ds acc g0,
    get k acc = groupValue g0 ->
    get k (fold_left (fun acc elem =>
                        let key := toPropertyKey this (prop id elem) in
                        match get key acc with
                        | Some (VArr group) => set key (VArr (group ++ [elem])) acc
                        | _ => set key (VArr [elem]) acc
                        end) ds acc)
    = groupValue (g0 ++ groupOf this id k ds).
Proof.
  intros Hk. induction ds as [|d ds IH]; intros acc g0 Hacc.
  - cbn [fold_left groupOf filter]. now rewrite app_nil_r.
  - cbn [fold_left groupOf filter]. cbv zeta. fold (groupOf this id k ds).
    destruct (keyEqb k (toPropertyKey this (prop id d))) eqn:E.
    + apply keyEqb_eq in E. rewrite <- E. rewrite Hacc.
      destruct g0 as [|x g0]; cbn [groupValue].
      * rewrite (IH _ [d]); [reflexivity|]. apply get_set_same, Hk.
      * rewrite (IH _ ((x :: g0) ++ [d])).
        -- now rewrite <- app_assoc.
        -- rewrite get_set_same by exact Hk. reflexivity.
    + apply IH. rewrite <- Hacc.
      destruct (get (toPropertyKey this (prop id d)) acc) as [[]|];
        now apply get_set_other.
Qed.

(** X15. The policy [by: group]. When every child just built has the
    identifier attribute, the descendants are replaced by a mapping from
    identifiers to groups, and the group under a key is the list of the
    descendants whose identifier reads as that key, in their order; a key
    no descendant has is absent. Descendants that share an identifier raise
    nothing, also when [throwIfMissing] is set. *)
Theorem processDescendants_group (this : XpathConverterImpl) (subject label : string)
  (info : IElementInfo) (policy : Descendants) (element : Obj)
  (children ds : list Value) :
  descendants info = Some policy ->
  by_ policy = Some "group" ->
  get (KStr label) element = Some (VArr ds) ->
  forallb (R_has (keyOf (id info))) children = true ->
  processDescendants this subject label info element children
  = OK (set (KStr label) (VObj (R_groupBy this (keyOf (id info)) ds)) element)
  /\ forall k,
      keyEqb k k = true ->
      get k (R_groupBy this (keyOf (id info)) ds)
      = groupValue (groupOf this (keyOf (id info)) k ds).
Proof.
  intros Hp Hb Hl Hall. split.
  - unfold processDescendants. rewrite Hp, Hb, Hall, prop_VObj, Hl. reflexivity.
  - intros k Hk.
    exact (@R_groupBy_fold this (keyOf (id info)) k Hk ds [] [] eq_refl).
Qed.

Lemma processDescendants_group_witness :
  processDescendants defaultConverter "/Cli/Commands/Command" "_children"
    (groupInfo true)
    [(KStr "name", VStr "copy");
     (KStr "_children",
      VArr [builtArgument "from" "first"; builtArgument "to" "only";
            builtArgument "from" "second"])]
    [builtArgument "from" "first"; builtArgument "to" "only";
     builtArgument "from" "second"]
  = OK [(KStr "name", VStr "copy");
        (KStr "_children",
         VObj [(KStr "from",
                VArr [builtArgument "from" "first"; builtArgument "from" "second"]);
               (KStr "to", VArr [builtArgument "to" "only"])])]
  /\ get (KStr "from")
       (R_groupBy defaultConverter "name"
          [builtArgument "from" "first"; builtArgument "to" "only";
           builtArgument "from" "second"])
     = Some (VArr [builtArgument "from" "first"; builtArgument "from" "second"]).
Proof.
  destruct (@processDescendants_group defaultConverter "/Cli/Commands/Command"
              "_children" (groupInfo true)
              {| by_ := Some "group"; throwIfCollision := None;
                 throwIfMissing := Some true |}
              [(KStr "name", VStr "copy");
               (KStr "_children",
                VArr [builtArgument "from" "first"; builtArgument "to" "only";
                      builtArgument "from" "second"])]
              [builtArgument "from" "first"; builtArgument "to" "only";
               builtArgument "from" "second"]
              [builtArgument "from" "first"; builtArgument "to" "only";
               builtArgument "from" "second"]
              eq_refl eq_refl eq_refl eq_refl) as [H1 H2].
  split; [exact H1|]. exact (H2 (KStr "from") eq_refl).
Defined.

(* ------------------------------------------------------------------ *)
(** ** White space *)

Lemma trimStart_blank (s : string) : isBlank s = true -> JsString.trimStart s = "".
Proof.
  induction s as [|c s IH]; cbn [isBlank JsString.trimStart]; [reflexivity|].
  intros H. apply andb_true_iff in H. destruct H as [-> H]. auto.
Qed.

Lemma trim_blank (s : string) : isBlank s = true -> JsString.trim s = "".
Proof. intros H. unfold JsString.trim. now rewrite (trimStart_blank s H). Qed.

Lemma composeText_blank (this : XpathConverterImpl) (n : Node) :
  truthy (fetchSpecOption this "coercion/textNodes/trim" true) = true ->
  onlyBlankText n = true ->
  composeText this n = "".
Proof.
  intros Ht. unfold composeText, onlyBlankText. rewrite Ht.
  induction (childNodes n) as [|k ks IH]; cbn [forallb fold_left]; [reflexivity|].
  intros H. apply andb_true_iff in H. destruct H as [Hk Hks].
  destruct k as [ | |kind data]; auto.
  destruct (String.eqb data ""); [auto|].
  rewrite trim_blank by exact Hk. auto.
Qed.

(** X16. With the trimming of text nodes on, an element whose text nodes,
    character data sections, comments and processing instructions hold
    white space only has no text: nothing is written under the text label,
    and the children of an element that has no child element leave it as
    it is. *)
Theorem buildChildren_blank_text (this : XpathConverterImpl) (build : Builder)
  (subject : string) (element : Obj) (elementNode : Located) (parseInfo : IParseInfo)
  (previouslySeen : list Value) :
  truthy (fetchSpecOption this "coercion/textNodes/trim" true) = true ->
  onlyBlankText (node elementNode) = true ->
  composeText this (node elementNode) = ""
  /\ attachText this (node elementNode) element = OK element
  /\ (childElements (node elementNode) = [] ->
      buildChildren this build subject element elementNode parseInfo previouslySeen
      = OK element).
Proof.
  intros Ht Hb. pose proof (composeText_blank this (node elementNode) Ht Hb) as C.
  assert (A : forall e, attachText this (node elementNode) e = OK e).
  { intros e. unfold attachText. now rewrite C. }
  split; [exact C|]. split; [apply A|].
  intros Hc. unfold buildChildren. rewrite Hc. cbn [bind]. apply A.
Qed.

Lemma buildChildren_blank_text_witness :
  buildChildren defaultConverter (buildElement defaultConverter 0) "/Cli/Commands/Command"
    [(KStr "name", VStr "leaf"); (KStr "_", VStr "Command")]
    (commandAt [Element "Command" [("name", "leaf")]
                  [CharacterData TextNode (String "010" "    ");
                   CharacterData CommentNode "  ";
                   CharacterData (ProcessingInstruction "page") " "]] 0)
    testParseInfo []
  = OK [(KStr "name", VStr "leaf"); (KStr "_", VStr "Command")].
Proof.
  apply (@buildChildren_blank_text defaultConverter (buildElement defaultConverter 0)
           "/Cli/Commands/Command"
           [(KStr "name", VStr "leaf"); (KStr "_", VStr "Command")]
           (commandAt [Element "Command" [("name", "leaf")]
                         [CharacterData TextNode (String "010" "    ");
                          CharacterData CommentNode "  ";
                          CharacterData (ProcessingInstruction "page") " "]] 0)
           testParseInfo []); reflexivity.
Defined.

Lemma blank_not_reserved (s : string) (words : list string) :
  isBlank s = true ->
  Forall (fun w => exists c w', w = String c w' /\ JsString.isSpace c = false) words ->
  inStrings (JsString.toLowerCase s) words = false.
Proof.
  intros Hs. unfold inStrings. induction 1 as [|w words (c & w' & -> & Hc) _ IH];
    cbn [existsb]; [reflexivity|].
  rewrite IH, orb_false_r.
  destruct s as [|d s]; [reflexivity|].
  cbn [isBlank] in Hs. apply andb_true_iff in Hs. destruct Hs as [Hd _].
  cbn [JsString.toLowerCase String.eqb].
  replace (Ascii.eqb (JsString.lowerChar d) c) with false; [reflexivity|].
  symmetry. apply Ascii.eqb_neq. intros <-.
  revert Hd Hc. clear.
  destruct d as [[] [] [] [] [] [] [] []]; cbv; congruence.
Qed.

Lemma Number_blank (s : string) :
  isBlank s = true -> JsNumber.Number s = Some (JsNumber.ofN 0).
Proof. intros H. unfold JsNumber.Number. now rewrite trim_blank. Qed.

(** X17. An attribute value of white space only, the empty text among
    them, is read as the number zero wherever numbers are tried first:
    under a first matcher [number], and under a first matcher [primitives]
    whose list starts with [number]. *)
Theorem coerceAttributeValue_blank (this : XpathConverterImpl)
  (subject rawValue attributeName mt : string) (option : Json)
  (rest : list (string * Json)) :
  isBlank rawValue = true ->
  (JsString.toLowerCase mt = "number"
   \/ (JsString.toLowerCase mt = "primitives"
       /\ exists more,
           fetchSpecOption this (matcherPath attributes_ "primitives") true
           = Some (JArr (JStr "number" :: more)))) ->
  coerceAttributeValue this subject (Some (JObj ((mt, option) :: rest))) rawValue
    attributeName
  = OK (VNum (JsNumber.ofN 0)).
Proof.
  intros Hb H. unfold coerceAttributeValue. cbn [isObject keysOf map fst someMatcher].
  destruct H as [->|(-> & more & Hp)]; cbn [getTransformer String.eqb Ascii.eqb Bool.eqb bind].
  - unfold transformNumber. rewrite Number_blank by exact Hb. reflexivity.
  - unfold transformPrimitives. rewrite Hp.
    rewrite blank_not_reserved.
    + cbn [somePrimitive callWithoutThis String.eqb Ascii.eqb Bool.eqb].
      unfold transformNumber. rewrite Number_blank by exact Hb. reflexivity.
    + exact Hb.
    + repeat constructor; do 2 eexists; split; reflexivity.
Qed.

Lemma coerceAttributeValue_blank_witness :
  coerceAttributeValue defaultConverter "/Cli/Commands/Command/[@name]"
    (fetchSpecOption defaultConverter "coercion/attributes/matchers" true) "" "name"
  = OK (VNum (JsNumber.ofN 0)).
Proof.
  apply (@coerceAttributeValue_blank defaultConverter "/Cli/Commands/Command/[@name]"
           "" "name" "primitives" (JArr [JStr "number"; JStr "boolean"])).
  - reflexivity.
  - right. split; [reflexivity|]. eexists. reflexivity.
Defined.

(* ------------------------------------------------------------------ *)
(** ** The element a reference selects *)

Lemma selectFirstBelow_sound (test : Node -> bool) (n : nat) :
  forall root above l,
    height root <= n ->
    selectFirstBelow test above root = Some l ->
    test (node l) = true /\ exists path, ancestors l = path ++ root :: above.
Proof.
  induction n as [|n IH]; intros root above l Hh.
  { destruct root; cbn [height] in Hh; lia. }
  assert (S : forall r0 ks,
             (forall k, In k ks -> height k <= n) ->
             (fix scan (ks : list Node) : option Located :=
                match ks with
                | [] => None
                | k :: ks' =>
                    if test k then Some {| ancestors := r0 :: above; node := k |}
                    else match selectFirstBelow test (r0 :: above) k with
                         | Some l => Some l
                         | None => scan ks'
                         end
                end) ks = Some l ->
             test (node l) = true /\ exists path, ancestors l = path ++ r0 :: above).
  { intros r0 ks. induction ks as [|k ks IHks]; intros Hks H; [discriminate|].
    destruct (test k) eqn:T.
    - injection H as <-. split; [exact T|]. now exists [].
    - destruct (selectFirstBelow test (r0 :: above) k) as [l0|] eqn:E.
      + injection H as <-.
        destruct (IH k (r0 :: above) l0 (Hks k (or_introl eq_refl)) E) as [A [path P]].
        split; [exact A|]. exists (path ++ [k]). now rewrite <- app_assoc.
      + apply IHks; [|exact H]. intros k' Hk'. apply Hks. now right. }
  assert (C : forall k, In k (childNodes root) -> height k <= n).
  { intros k Hk. apply height_child in Hk. lia. }
  destruct root as [ks|nm attrs ks|kind data]; cbn [selectFirstBelow]; try discriminate;
    apply S; exact C.
Qed.

Lemma selectFirstBelow_none (test : Node -> bool) (root : Node) (above : list Node) :
  selectFirstBelow test above root = None ->
  forall k, In k (childNodes root) ->
            test k = false /\ selectFirstBelow test (root :: above) k = None.
Proof.
  assert (S : forall r0 ks,
             (fix scan (ks : list Node) : option Located :=
                match ks with
                | [] => None
                | k :: ks' =>
                    if test k then Some {| ancestors := r0 :: above; node := k |}
                    else match selectFirstBelow test (r0 :: above) k with
                         | Some l => Some l
                         | None => scan ks'
                         end
                end) ks = None ->
             forall k, In k ks ->
                       test k = false /\ selectFirstBelow test (r0 :: above) k = None).
  { intros r0 ks. induction ks as [|k ks IHks]; intros H k' Hk'; [destruct Hk'|].
    destruct (test k) eqn:T; [discriminate|].
    destruct (selectFirstBelow test (r0 :: above) k) as [l0|] eqn:E; [discriminate|].
    destruct Hk' as [<-|Hk']; [now split|]. now apply IHks. }
  destruct root as [ks|nm attrs ks|kind data]; cbn [selectFirstBelow childNodes];
    intros H k Hk; [exact (S _ _ H k Hk)|exact (S _ _ H k Hk)|destruct Hk].
Qed.

Lemma selectFirstBelow_complete (test : Node -> bool) (root k : Node) :
  below root k ->
  forall above,
    selectFirstBelow test above root = None ->
    test k = false /\ exists above', selectFirstBelow test above' k = None.
Proof.
  induction 1 as [k Hk|k k' _ IH Hk']; intros above H.
  - destruct (selectFirstBelow_none _ _ _ H k Hk) as [A B]. split; [exact A|eauto].
  - destruct (IH above H) as [_ [above' B]].
    destruct (selectFirstBelow_none _ _ _ B k' Hk') as [A' B']. split; [exact A'|eauto].
Qed.

(** X18. What [selectElementNodeById] answers when the tag and the
    identifier attribute are names and the reference holds no double
    quote, so that the query written from them is the step it is meant to
    be. It raises nothing. The node it returns is an element of the tag
    asked for, its identifier attribute holds the reference, and it lies
    below the root: its chain of ancestors ends with the root and the
    ancestors of the root. When it returns nothing, there is no root, or no
    node below the root is such an element. *)
Theorem selectElementNodeById_answer (this : XpathConverterImpl)
  (elementName id name : string) (rootNode : option Located) :
  isName elementName = true ->
  isName id = true ->
  occurs "034" name = false ->
  (exists found, selectElementNodeById this elementName id name rootNode = OK found)
  /\ (forall l,
        selectElementNodeById this elementName id name rootNode = OK (Some l) ->
        exists r attrs ks path,
          rootNode = Some r
          /\ node l = Element elementName attrs ks
          /\ lookup id attrs = Some name
          /\ ancestors l = path ++ node r :: ancestors r)
  /\ (selectElementNodeById this elementName id name rootNode = OK None ->
      forall r, rootNode = Some r ->
                forall k, below (node r) k -> matchesById elementName id name k = false).
Proof.
  intros He Hi Hq.
  assert (E : selectElementNodeById this elementName id name rootNode
              = OK match rootNode with
                   | Some r => selectFirstBelow (matchesById elementName id name)
                                 (ancestors r) (node r)
                   | None => None
                   end).
  { unfold selectElementNodeById. destruct rootNode; [|reflexivity].
    now rewrite He, Hi, Hq. }
  rewrite E. split; [eauto|]. split.
  - intros l H. injection H as H. destruct rootNode as [r|]; [|discriminate].
    destruct (@selectFirstBelow_sound _ (height (node r)) _ _ _ (le_n _) H) as [T [path P]].
    destruct (node l) as [|nm attrs ks|] eqn:N; cbn [matchesById] in T; try discriminate.
    apply andb_true_iff in T. destruct T as [T1 T2].
    apply String.eqb_eq in T1. subst nm.
    destruct (lookup id attrs) as [v|] eqn:L; [|discriminate].
    apply String.eqb_eq in T2. subst v.
    exists r, attrs, ks, path. auto.
  - intros H r -> k Hk. injection H as H.
    now destruct (@selectFirstBelow_complete _ _ _ Hk _ H).
Qed.

Lemma selectElementNodeById_answer_witness :
  (exists r attrs ks path,
      Some (inCommands precedenceCommands) = Some r
      /\ node (commandAt precedenceCommands 1) = Element "Command" attrs ks
      /\ lookup "name" attrs = Some "beta-command"
      /\ ancestors (commandAt precedenceCommands 1) = path ++ node r :: ancestors r)
  /\ forall k, below (node (inCommands precedenceCommands)) k ->
               matchesById "Command" "name" "ghost" k = false.
Proof.
  destruct (@selectElementNodeById_answer defaultConverter "Command" "name" "beta-command"
              (Some (inCommands precedenceCommands)) eq_refl eq_refl eq_refl)
    as (_ & H1 & _).
  destruct (@selectElementNodeById_answer defaultConverter "Command" "name" "ghost"
              (Some (inCommands precedenceCommands)) eq_refl eq_refl eq_refl)
    as (_ & _ & H2).
  split.
  - apply H1. reflexivity.
  - apply (H2 eq_refl (inCommands precedenceCommands) eq_refl).
Defined.

(** A reference that holds a double quote writes another query, which the
    converter hands to the library as it is. *)
Example quoted_reference_is_another_query :
  byIdQuery "Command" "name" (String "x" (String "034" " or 1=1 or @name=" ++ String "034" "y"))
  = (".//Command[@name=" ++ String "034" "x" ++ String "034" " or 1=1 or @name="
     ++ String "034" "y" ++ String "034" "]")%string
  /\ forall this r,
      selectElementNodeById this "Command" "name"
        (String "x" (String "034" " or 1=1 or @name=" ++ String "034" "y")) (Some r)
      = xpath_select this
          (byIdQuery "Command" "name"
             (String "x" (String "034" " or 1=1 or @name=" ++ String "034" "y"))) r.
Proof. split; reflexivity. Qed.

(* ------------------------------------------------------------------ *)
(** ** Descendants that were re-keyed do not merge *)

(** X19. The descendants of an element are concatenated as lists. Once a
    policy has replaced the descendants of a base by a mapping, an element
    that inherits them and has child elements of its own cannot be built:
    attaching its children raises a [TypeError]; and two bases that both
    hold such a mapping do not merge either. *)
Theorem rekeyed_descendants_do_not_merge (this : XpathConverterImpl) (label : string) :
  fetchString this "labels/descendants" = OK label ->
  (forall (build : Builder) subject element elementNode parseInfo previouslySeen kids v,
      get (KStr label) element = Some v ->
      notAList v ->
      childElements (node elementNode) <> [] ->
      mapM (fun childElement =>
              build (childOf elementNode childElement) parseInfo previouslySeen)
           (childElements (node elementNode)) = OK kids ->
      buildChildren this build subject element elementNode parseInfo previouslySeen
      = Throw (TypeError "second argument of concat is not an array"))
  /\ (forall a b m m',
        get (KStr label) a = Some (VObj m) ->
        get (KStr label) b = Some (VObj m') ->
        doMergeElements this a b
        = Throw (TypeError "first argument of concat has no concat method")).
Proof.
  intros Hl. split.
  - intros build subject element l parseInfo seen kids v Hg Hv Hc Hk.
    rewrite buildChildren_with_children by exact Hc.
    rewrite Hk, Hl. cbn [bind]. unfold attachDescendants.
    rewrite inStrings_keys. unfold has. rewrite Hg, prop_VObj, Hg.
    destruct v; try reflexivity. now destruct (Hv items).
  - intros a b m m' Ha Hb. unfold doMergeElements.
    rewrite (descendantsLabelOf_fetchString _ Hl).
    rewrite !inStrings_keys. unfold has. rewrite Ha, Hb. cbn [andb].
    rewrite !prop_VObj, Ha, Hb. reflexivity.
Qed.

Lemma rekeyed_descendants_do_not_merge_witness :
  buildChildren defaultConverter (buildElement defaultConverter 1) "/Cli/Commands/Command"
    [(KStr "name", VStr "leaf");
     (KStr "_", VStr "Command");
     (KStr "_children",
      VObj [(KStr "from", VObj [(KStr "name", VStr "from"); (KStr "_", VStr "ArgumentRef")])])]
    (commandAt nestedCommands 1) testParseInfo []
  = Throw (TypeError "second argument of concat is not an array").
Proof.
  destruct (@rekeyed_descendants_do_not_merge defaultConverter "_children" eq_refl)
    as [H _].
  eapply H.
  - reflexivity.
  - intros items. discriminate.
  - discriminate.
  - vm_compute. reflexivity.
Defined.

(** The same on a document: with the parse info of the tests, a command
    with a named child that inherits from a command with a named child. *)
Example inherited_index_of_descendants :
  buildElement defaultConverter 3 (commandAt nestedCommands 0) testParseInfo []
  = OK [(KStr "name", VStr "base");
        (KStr "_", VStr "Command");
        (KStr "_children",
         VObj [(KStr "from",
                VObj [(KStr "name", VStr "from"); (KStr "_", VStr "ArgumentRef")])])]
  /\ buildElement defaultConverter 3 (commandAt nestedCommands 1) testParseInfo []
     = Throw (TypeError "second argument of concat is not an array").
Proof. split; reflexivity. Qed.

(* ------------------------------------------------------------------ *)
(** ** The types of the keys and values of an associative collection *)

Lemma transformAssoc_invalid (this : XpathConverterImpl) (subject : string)
  (context : ContextType) (assocType : option Json) (text : string) :
  match assocType with
  | Some (JStr t) => inStrings t ["number"; "boolean"; "symbol"; "string"] = false
  | Some (JArr _) => False
  | _ => True
  end ->
  exists message,
    transformAssoc this subject assocType context text
    = Throw (JaxConfigError message subject)
    /\ match assocType with
       | Some (JStr t) => message = InvalidAssocValueType (JStr t)
       | other => message = InvalidAssocType other
       end.
Proof.
  unfold transformAssoc. destruct assocType as [[]|]; intros H; try (eexists; split; reflexivity).
  - cbn [someAssoc]. rewrite H. eexists; split; reflexivity.
  - destruct H.
Qed.

(** X20. The type of the keys of an associative collection is one of
    [number], [boolean], [symbol] and [string], written as they are, or a
    list of these. Under any other text, and under an option that is
    neither a text nor a list, a collection whose first entry is well
    formed raises a configuration error, which names the type it does not
    accept. *)
Theorem transformAssociativeCollection_invalid_key_type (this : XpathConverterImpl)
  (subject : string) (context : ContextType) (collectionType delim entry : string)
  (entries : list string) :
  let keyType :=
    fetchSpecOption this (matcherPath context "collection/assoc/keyType") true in
  fetchSpecOption this (matcherPath context "collection/assoc/delim") true
  = Some (JStr delim) ->
  List.length (JsString.split delim entry) = 2 ->
  (forall t,
      keyType = Some (JStr t) ->
      inStrings t ["number"; "boolean"; "symbol"; "string"] = false ->
      transformAssociativeCollection this subject context collectionType (entry :: entries)
      = Throw (JaxConfigError (InvalidAssocValueType (JStr t)) subject))
  /\ ((forall t, keyType <> Some (JStr t)) ->
      (forall items, keyType <> Some (JArr items)) ->
      transformAssociativeCollection this subject context collectionType (entry :: entries)
      = Throw (JaxConfigError (InvalidAssocType keyType) subject)).
Proof.
  intros keyType Hd Hw.
  assert (R : forall message,
             transformAssoc this subject keyType context
               (hd "" (JsString.split delim entry))
             = Throw (JaxConfigError message subject) ->
             transformAssociativeCollection this subject context collectionType
               (entry :: entries)
             = Throw (JaxConfigError message subject)).
  { intros message H. unfold transformAssociativeCollection. rewrite Hd.
    cbn [reduceM]. unfold assocPairStep. cbn [bind].
    destruct (JsString.split delim entry) as [|k [|v [|]]]; try discriminate Hw.
    cbn [hd] in H. fold keyType. rewrite H. reflexivity. }
  split.
  - intros t Ht Hin. apply R.
    destruct (@transformAssoc_invalid this subject context keyType
                (hd "" (JsString.split delim entry))) as (message & E & M).
    + rewrite Ht. exact Hin.
    + rewrite Ht in M. now rewrite E, M.
  - intros Hs Ha. apply R.
    destruct (@transformAssoc_invalid this subject context keyType
                (hd "" (JsString.split delim entry))) as (message & E & M).
    + destruct keyType as [[]|]; auto. * now destruct (Hs s). * now destruct (Ha items).
    + rewrite E. destruct keyType as [[]|]; try now rewrite M. now destruct (Hs s).
Qed.

Lemma transformAssociativeCollection_invalid_key_type_witness :
  transformAssociativeCollection capitalKeyConverter "/Cli/Commands/Command/[@map]"
    attributes_ "Map" ["1=a"; "2=b"]
  = Throw (JaxConfigError (InvalidAssocValueType (JStr "Number"))
             "/Cli/Commands/Command/[@map]").
Proof.
  destruct (@transformAssociativeCollection_invalid_key_type capitalKeyConverter
              "/Cli/Commands/Command/[@map]" attributes_ "Map" "=" "1=a" ["2=b"]
              eq_refl eq_refl) as [H _].
  apply H; reflexivity.
Defined.

(* ------------------------------------------------------------------ *)
(** ** The text of an element *)

Lemma fold_text (f : Node -> string) (ks : list Node) :
  forall acc,
    fold_left (fun text k => (text ++ f k)%string) ks acc
    = (acc ++ fold_left (fun text k => (text ++ f k)%string) ks "")%string.
Proof.
  induction ks as [|k ks IH]; intros acc; cbn [fold_left].
  - now rewrite string_app_nil_r.
  - rewrite IH, (IH ("" ++ f k)%string). cbn [append]. now rewrite string_app_assoc.
Qed.

Lemma composeText_steps (this : XpathConverterImpl) (ks : list Node) :
  forall acc,
    fold_left (fun text currentChild =>
                 match currentChild with
                 | CharacterData _ data =>
                     if String.eqb data "" then text
                     else if truthy (fetchSpecOption this "coercion/textNodes/trim" true)
                          then (text ++ JsString.trim data)%string
                          else (text ++ data)%string
                 | _ => text
                 end) ks acc
    = fold_left (fun text k => (text ++ textOf this k)%string) ks acc.
Proof.
  induction ks as [|k ks IH]; intros acc; cbn [fold_left]; [reflexivity|].
  rewrite IH. f_equal. unfold textOf.
  destruct k as [ | |kind data]; try now rewrite string_app_nil_r.
  destruct (String.eqb data "") eqn:E.
  - apply String.eqb_eq in E. subst data.
    destruct (truthy _); now rewrite string_app_nil_r.
  - now destruct (truthy _).
Qed.

Lemma composeText_fold (this : XpathConverterImpl) (n : Node) :
  composeText this n
  = fold_left (fun text k => (text ++ textOf this k)%string) (childNodes n) "".
Proof. exact (composeText_steps this (childNodes n) ""). Qed.

(** X21. The text of an element is made of its child nodes one after the
    other: the text of a list of children is the text of its first part
    followed by the text of the rest; a text node, a character data
    section, and also a comment and a processing instruction, give their
    data, trimmed when the trimming of text nodes is on, and a child
    element gives nothing. *)
Theorem composeText_pieces (this : XpathConverterImpl) (name : string)
  (attrs : list (string * string)) :
  (forall ks1 ks2,
      composeText this (Element name attrs (ks1 ++ ks2))
      = (composeText this (Element name attrs ks1)
         ++ composeText this (Element name attrs ks2))%string)
  /\ (forall kind data,
        composeText this (Element name attrs [CharacterData kind data])
        = if truthy (fetchSpecOption this "coercion/textNodes/trim" true)
          then JsString.trim data
          else data)
  /\ (forall child,
        isElement child = true ->
        composeText this (Element name attrs [child]) = "").
Proof.
  split; [|split].
  - intros ks1 ks2. rewrite !composeText_fold. cbn [childNodes].
    rewrite fold_left_app. apply fold_text.
  - intros kind data. rewrite composeText_fold. reflexivity.
  - intros child H. rewrite composeText_fold. destruct child; try discriminate H.
    reflexivity.
Qed.

Lemma composeText_pieces_witness :
  composeText defaultConverter
    (Element "Command" [] [argumentRef "from"])
  = "".
Proof.
  destruct (composeText_pieces defaultConverter "Command" []) as (_ & _ & H).
  apply H. reflexivity.
Defined.

(** A comment is read as text. *)
Example comment_is_text :
  buildElement defaultConverter 1
    {| ancestors := [];
       node := Element "Note" [] [CharacterData TextNode " see ";
                                  CharacterData CommentNode " hidden "] |}
    inheritParseInfo []
  = OK [(KStr "_", VStr "Note"); (KStr "_text", VStr "seehidden")].
Proof. reflexivity. Qed.

(* ------------------------------------------------------------------ *)
(** ** The path of a node *)

Lemma pathOf_app (xs ys : list string) :
  pathOf (xs ++ ys) = (pathOf xs ++ pathOf ys)%string.
Proof.
  induction xs as [|x xs IH]; cbn [app pathOf]; [reflexivity|].
  rewrite IH. cbn [append]. now rewrite string_app_assoc.
Qed.

Lemma composePath_chain (chain : list Node) (top : string) (rest : list Node) :
  forallb (fun n => negb (isDocument n)) chain = true ->
  composePath rest = top ->
  composePath (chain ++ rest) = (top ++ pathOf (map nodeName (rev chain)))%string.
Proof.
  intros H <-. induction chain as [|n chain IH]; cbn [app rev map pathOf].
  - now rewrite string_app_nil_r.
  - cbn [forallb] in H. apply andb_true_iff in H. destruct H as [Hn H].
    rewrite map_app, pathOf_app. cbn [map pathOf]. rewrite string_app_nil_r.
    rewrite <- string_app_assoc, <- (IH H).
    destruct n; [discriminate Hn|reflexivity|reflexivity].
Qed.

(** X22. The path that names an element in the exceptions. For a node in
    a document it is the names of the elements from the root element down
    to the node, each after a slash; for a node whose topmost ancestor has
    no parent, the same after one more slash. *)
Theorem composeElementPath_steps (chain : list Node) (n : Node) :
  forallb (fun x => negb (isDocument x)) (n :: chain) = true ->
  (forall ks above,
      composeElementPath {| ancestors := chain ++ Document ks :: above; node := n |}
      = pathOf (map nodeName (rev (n :: chain))))
  /\ composeElementPath {| ancestors := chain; node := n |}
     = ("/" ++ pathOf (map nodeName (rev (n :: chain))))%string.
Proof.
  intros H. unfold composeElementPath. cbn [node ancestors]. split.
  - intros ks above.
    exact (@composePath_chain (n :: chain) "" (Document ks :: above) H eq_refl).
  - rewrite <- (app_nil_r (n :: chain)) at 1.
    exact (@composePath_chain (n :: chain) "/" [] H eq_refl).
Qed.

Lemma composeElementPath_steps_witness :
  composeElementPath (commandAt precedenceCommands 2)
  = pathOf ["Cli"; "Commands"; "Command"]
  /\ composeElementPath abstractCommand = ("/" ++ pathOf ["Command"])%string.
Proof.
  destruct (@composeElementPath_steps
              [Element "Commands" [] precedenceCommands;
               Element "Cli" [] [Element "Commands" [] precedenceCommands]]
              (nth 2 precedenceCommands (Document [])) eq_refl) as [H1 _].
  destruct (@composeElementPath_steps [] (node abstractCommand) eq_refl) as [_ H2].
  split.
  - exact (H1 [Element "Cli" [] [Element "Commands" [] precedenceCommands]] []).
  - exact H2.
Defined.

(* ------------------------------------------------------------------ *)
(** ** Numbers and booleans do not overlap *)

Lemma lowerChar_cases (c d : ascii) :
  JsString.lowerChar c = d -> c = d \/ c = ascii_of_nat (nat_of_ascii d - 32).
Proof.
  intros <-.
  destruct c as [[] [] [] [] [] [] [] []];
    first [left; reflexivity | right; reflexivity].
Qed.

Lemma boolean_is_no_number (v : string) :
  JsString.toLowerCase v = "true" \/ JsString.toLowerCase v = "false" ->
  JsNumber.Number v = None.
Proof.
  intros [H|H].
  - destruct v as [|c1 [|c2 [|c3 [|c4 [|c5 v]]]]]; cbn [JsString.toLowerCase] in H;
      try discriminate H.
    injection H as H1 H2 H3 H4.
    apply lowerChar_cases in H1, H2, H3, H4.
    destruct H1 as [->| ->], H2 as [->| ->], H3 as [->| ->], H4 as [->| ->];
      reflexivity.
  - destruct v as [|c1 [|c2 [|c3 [|c4 [|c5 [|c6 v]]]]]]; cbn [JsString.toLowerCase] in H;
      try discriminate H.
    injection H as H1 H2 H3 H4 H5.
    apply lowerChar_cases in H1, H2, H3, H4, H5.
    destruct H1 as [->| ->], H2 as [->| ->], H3 as [->| ->], H4 as [->| ->],
             H5 as [->| ->]; reflexivity.
Qed.

(** X23. No text is both a number and a boolean, so the order in which
    the primitives list names the two is immaterial: a converter that
    tries numbers first and one that tries booleans first give every value
    the same result. *)
Theorem transformPrimitives_order (this this' : XpathConverterImpl)
  (subject primitiveValue : string) (context : ContextType) :
  fetchSpecOption this (matcherPath context "primitives") true
  = Some (JArr [JStr "number"; JStr "boolean"]) ->
  fetchSpecOption this' (matcherPath context "primitives") true
  = Some (JArr [JStr "boolean"; JStr "number"]) ->
  transformPrimitives this subject primitiveValue context
  = transformPrimitives this' subject primitiveValue context.
Proof.
  intros H H'. unfold transformPrimitives. rewrite H, H'.
  destruct (inStrings _ _); [reflexivity|].
  cbn [somePrimitive callWithoutThis String.eqb Ascii.eqb Bool.eqb].
  unfold transformNumber, transformBoolean.
  destruct (String.eqb (JsString.toLowerCase primitiveValue) "true"
            || String.eqb (JsString.toLowerCase primitiveValue) "false") eqn:B.
  - rewrite boolean_is_no_number; [reflexivity|].
    apply orb_true_iff in B. destruct B as [B|B]; apply String.eqb_eq in B; auto.
  - cbn [bind succeeded value]. destruct (JsNumber.Number primitiveValue); reflexivity.
Qed.

Lemma transformPrimitives_order_witness :
  transformPrimitives defaultConverter "/Cli/Commands/Command/[@flag]" "TRUE" attributes_
  = transformPrimitives booleanFirstConverter "/Cli/Commands/Command/[@flag]" "TRUE"
      attributes_.
Proof.
  apply (@transformPrimitives_order defaultConverter booleanFirstConverter
           "/Cli/Commands/Command/[@flag]" "TRUE" attributes_); reflexivity.
Defined.
